(** * kirara-ai: the canonical message model and two of its adapters

    A shallow embedding of
      - [kirara_ai/im/message.py]   (message elements, lazy media, IMMessage),
      - [plugins/im_telegram_adapter/adapter.py]   ([send_message],
        [convert_to_message], [get_display_name], [set_chat_editing_state]),
      - [plugins/preset_llm_adapters/gemini_adapter.py]   ([chat]),
    together with the properties of the specification that concern them.

    Python objects are records of a class tag and an instance dictionary,
    attribute access goes through [getattr] (instance dictionary first, class
    attributes second), and methods run in a state-and-exception monad over
    the object and its environment (file system, network, libmagic). *)

From Stdlib Require Import NArith ZArith QArith Ascii String List Lia.
From Stdlib.Strings Require Import Byte.
From stdpp Require Import base option strings pretty list gmap.

Local Open Scope string_scope.
Local Open Scope list_scope.

(** ** kirara_ai/im/sender.py *)

Module Sender.

(** Modelled from the spec: [kirara_ai/im/sender.py] is not among the sources.
    A [ChatSender] has a [chat_type], a [user_id], a [group_id] that is present
    only for group chats, and a [display_name]; the adapters compare
    [chat_type] with [ChatType.C2C] and [ChatType.GROUP] and keep an [else]
    branch for any other value, which [OTHER] stands for. *)
Inductive ChatType := C2C | GROUP | OTHER (name : string).

(** Modelled from the spec: the fields of a [ChatSender], as the adapters and
    [MentionElement] read them. *)
Record ChatSender := {
  chat_type : ChatType;
  user_id : string;
  group_id : option string;
  display_name : option string;
}.

(** Modelled from the spec: [ChatSender.from_group_chat] and
    [ChatSender.from_c2c_chat] are not among the sources. They build the
    identity of a group chat participant (a [group_id] is present) and of a
    one-to-one chat (none is) from the arguments the adapter passes. *)
Definition from_group_chat (user_id group_id display_name : string) : ChatSender :=
  {| chat_type := GROUP; user_id := user_id; group_id := Some group_id;
     display_name := Some display_name |}.

Definition from_c2c_chat (user_id display_name : string) : ChatSender :=
  {| chat_type := C2C; user_id := user_id; group_id := None;
     display_name := Some display_name |}.

End Sender.

(** ** Python values and the library functions the sources call *)

Module Py.

Abbreviation bytes := (list byte).

(** The Python values held by the attributes of the modelled objects. A [str]
    is a sequence of code points below 256. *)
Inductive pyval :=
| VNone
| VStr (s : string)
| VBytes (b : bytes).

(** Truth value testing: [None], the empty string and the empty bytes object
    are false. *)
Definition truthy (v : pyval) : bool :=
  match v with
  | VNone => false
  | VStr s => negb (String.eqb s "")
  | VBytes b => match b with [] => false | _ => true end
  end.

Definition of_opt_str (o : option string) : pyval :=
  match o with Some s => VStr s | None => VNone end.

Definition of_opt_bytes (o : option bytes) : pyval :=
  match o with Some b => VBytes b | None => VNone end.

(** [x or y] *)
Definition py_or (x y : pyval) : pyval := if truthy x then x else y.

(** Structured values: what [to_dict] and the wire requests are made of. *)
#[local] Set Warnings "-register-all".
Inductive jval :=
| JAtom (v : pyval)
| JInt (z : Z)
| JFloat (q : Q)
| JSender (s : Sender.ChatSender)
| JList (l : list jval)
| JDict (d : list (string * jval)).
#[local] Set Warnings "register-all".

Definition JNone : jval := JAtom VNone.
Definition JStr (s : string) : jval := JAtom (VStr s).

(** [d[k]] / [d.get(k)] on a dict literal: the first binding of the key. *)
Fixpoint dict_get (k : string) (d : list (string * jval)) : option jval :=
  match d with
  | [] => None
  | (k', v) :: d' => if String.eqb k k' then Some v else dict_get k d'
  end.

(** *** Exceptions *)

Inductive exn :=
| ValueError (msg : string)
| AttributeError (cls attr : string)
| TypeError (msg : string)
| OSError (path : string)
| ClientError (url : string)
| TelegramError (msg : string).

Inductive result (A : Type) :=
| Ok (a : A)
| Raise (e : exn).
Arguments Ok {A} a.
Arguments Raise {A} e.

(** *** Strings *)

(** [s.split(sep)] for a one-character separator. *)
Fixpoint split (sep : ascii) (s : string) : list string :=
  match s with
  | EmptyString => [EmptyString]
  | String c s' =>
      if Ascii.eqb c sep then EmptyString :: split sep s'
      else match split sep s' with
           | [] => [String c EmptyString]
           | h :: t => String c h :: t
           end
  end.

(** [l[0]] and [l[-1]] on the result of [split], which is never empty. *)
Definition first (l : list string) : string := List.hd EmptyString l.
Definition last (l : list string) : string := List.last l EmptyString.

(** [str.isspace] for one code point below 256. *)
Definition isspace (c : ascii) : bool :=
  let n := N_of_ascii c in
  ((9 <=? n) && (n <=? 13) || (28 <=? n) && (n <=? 32)
   || (n =? 133) || (n =? 160))%N.

Fixpoint lstrip (s : string) : string :=
  match s with
  | EmptyString => EmptyString
  | String c s' => if isspace c then lstrip s' else s
  end.

Fixpoint rstrip (s : string) : string :=
  match s with
  | EmptyString => EmptyString
  | String c s' =>
      match rstrip s' with
      | EmptyString => if isspace c then EmptyString else String c EmptyString
      | r => String c r
      end
  end.

(** [s.strip()] *)
Definition strip (s : string) : string := rstrip (lstrip s).

Definition dquote : ascii := Eval cbv in ascii_of_N 34.
Definition newline : string := Eval cbv in String (ascii_of_N 10) EmptyString.

Definition hex_digit (n : N) : ascii :=
  match String.get (N.to_nat n) "0123456789abcdef" with
  | Some c => c
  | None => "0"%char
  end.

(** [repr] of a bytes object, as [str()] and f-strings print it. *)
Definition repr_byte (quote : ascii) (b : byte) : string :=
  let c := ascii_of_byte b in
  let n := Byte.to_N b in
  if Ascii.eqb c quote || Ascii.eqb c "\"%char then String "\"%char (String c "")
  else if (n =? 9)%N then "\t"
  else if (n =? 10)%N then "\n"
  else if (n =? 13)%N then "\r"
  else if ((n <? 32) || (127 <=? n))%N
       then String "\"%char (String "x"%char
              (String (hex_digit (n / 16)) (String (hex_digit (n mod 16)) "")))
  else String c "".

Definition repr_bytes (b : bytes) : string :=
  let has q := existsb (fun x => Ascii.eqb (ascii_of_byte x) q) b in
  let quote := if has "'"%char && negb (has dquote) then dquote else "'"%char in
  String "b"%char (String quote
    (String.concat "" (map (repr_byte quote) b) +:+ String quote "")).

(** [str()] of an attribute value, as an f-string interpolates it. *)
Definition py_str (v : pyval) : string :=
  match v with
  | VNone => "None"
  | VStr s => s
  | VBytes b => repr_bytes b
  end.

(** *** State and exceptions

    A computation reads and updates a state and either returns a value or
    raises; what it changed before raising stays changed. *)

Definition M (S A : Type) : Type := S -> result A * S.

Definition ret {S A} (a : A) : M S A := fun s => (Ok a, s).

Definition raise {S A} (e : exn) : M S A := fun s => (Raise e, s).

Definition bind {S A B} (m : M S A) (k : A -> M S B) : M S B :=
  fun s =>
    match m s with
    | (Ok a, s') => k a s'
    | (Raise e, s') => (Raise e, s')
    end.

#[global] Instance M_ret {S} : MRet (M S) := fun A => @ret S A.
#[global] Instance M_bind {S} : MBind (M S) := fun A B k m => @bind S A B m k.

#[global] Instance result_ret : MRet result := fun A a => Ok a.
#[global] Instance result_bind : MBind result :=
  fun A B k r => match r with Ok a => k a | Raise e => Raise e end.

Definition get {S} : M S S := fun s => (Ok s, s).
Definition modify {S} (f : S -> S) : M S unit := fun s => (Ok tt, f s).

(** *** [base64.b64encode] and [base64.b64decode] (RFC 4648, standard
    alphabet, with padding) *)

Definition b64_alphabet : string :=
  "ABCDEFGHIJKLMNOPQRSTUVWXYZabcdefghijklmnopqrstuvwxyz0123456789+/".

Definition b64_char (n : N) : ascii :=
  match String.get (N.to_nat n) b64_alphabet with
  | Some c => c
  | None => "="%char
  end.

Fixpoint index_of (c : ascii) (s : string) (i : N) : option N :=
  match s with
  | EmptyString => None
  | String c' s' => if Ascii.eqb c c' then Some i else index_of c s' (N.succ i)
  end.

Definition b64_value (c : ascii) : option N := index_of c b64_alphabet 0.

Definition enc3 (a b c : byte) : string :=
  let n := (Byte.to_N a * 65536 + Byte.to_N b * 256 + Byte.to_N c)%N in
  String (b64_char (n / 262144))
    (String (b64_char ((n / 4096) mod 64))
       (String (b64_char ((n / 64) mod 64))
          (String (b64_char (n mod 64)) EmptyString)))%N.

Definition enc2 (a b : byte) : string :=
  let n := ((Byte.to_N a * 256 + Byte.to_N b) * 4)%N in
  String (b64_char (n / 4096))
    (String (b64_char ((n / 64) mod 64))
       (String (b64_char (n mod 64)) "="))%N.

Definition enc1 (a : byte) : string :=
  let n := (Byte.to_N a * 16)%N in
  String (b64_char (n / 64)) (String (b64_char (n mod 64)) "==")%N.

(** [base64.b64encode(b).decode()]: the encoder's output is ASCII, which
    [decode] maps character by character. *)
Fixpoint b64encode (bs : bytes) : string :=
  match bs with
  | [] => EmptyString
  | [a] => enc1 a
  | [a; b] => enc2 a b
  | a :: b :: c :: rest => enc3 a b c +:+ b64encode rest
  end.

Definition dec3 (v1 v2 v3 v4 : N) : option bytes :=
  let n := (((v1 * 64 + v2) * 64 + v3) * 64 + v4)%N in
  a ← Byte.of_N (n / 65536)%N;
  b ← Byte.of_N ((n / 256) mod 256)%N;
  c ← Byte.of_N (n mod 256)%N;
  Some [a; b; c].

Definition dec2 (v1 v2 v3 : N) : option bytes :=
  let n := ((v1 * 64 + v2) * 64 + v3)%N in
  if (n mod 4 =? 0)%N then
    a ← Byte.of_N (n / 1024)%N;
    b ← Byte.of_N ((n / 4) mod 256)%N;
    Some [a; b]
  else None.

Definition dec1 (v1 v2 : N) : option bytes :=
  let n := (v1 * 64 + v2)%N in
  if (n mod 16 =? 0)%N then a ← Byte.of_N (n / 16)%N; Some [a] else None.

(** [base64.b64decode(s, validate=True)] *)
Fixpoint b64decode (s : string) : option bytes :=
  match s with
  | EmptyString => Some []
  | String c1 (String c2 (String c3 (String c4 rest))) =>
      v1 ← b64_value c1;
      v2 ← b64_value c2;
      if Ascii.eqb c4 "=" then
        match rest with
        | EmptyString =>
            if Ascii.eqb c3 "=" then dec1 v1 v2
            else v3 ← b64_value c3; dec2 v1 v2 v3
        | _ => None
        end
      else
        v3 ← b64_value c3;
        v4 ← b64_value c4;
        h ← dec3 v1 v2 v3 v4;
        t ← b64decode rest;
        Some (h ++ t)
  | _ => None
  end.

(** Whether the character [c] occurs in [s]. *)
Fixpoint has_char (c : ascii) (s : string) : bool :=
  match s with
  | EmptyString => false
  | String c' s' => Ascii.eqb c' c || has_char c s'
  end.

End Py.

Import Py Sender.

(** ** kirara_ai/im/message.py *)

(** *** Objects

    The concrete media classes ([MediaMessage] itself is abstract: it does not
    define [to_plain]). An instance is its class and its [__dict__]. *)
Inductive MediaClass := VoiceMessage | ImageMessage | FileElement | VideoElement.

Record obj := { cls : MediaClass; dict : gmap string pyval }.

Definition class_name (c : MediaClass) : string :=
  match c with
  | VoiceMessage => "VoiceMessage"
  | ImageMessage => "ImageMessage"
  | FileElement => "FileElement"
  | VideoElement => "VideoElement"
  end.

(** The data attributes declared in the class bodies: each subclass sets
    [resource_type]; [MediaMessage] and [MessageElement] declare none. *)
Definition class_attr (c : MediaClass) (name : string) : option pyval :=
  if String.eqb name "resource_type" then
    Some (VStr match c with
               | VoiceMessage => "audio"
               | ImageMessage => "image"
               | FileElement => "file"
               | VideoElement => "video"
               end)
  else None.

(** What a method runs on: [self] and an environment of type [E]. *)
Record State (E : Type) := { self : obj; env : E }.
Arguments self {E} _.
Arguments env {E} _.

(** [self.name] for a data attribute: the instance dictionary first, then the
    class; a name found in neither raises [AttributeError]. *)
Definition getattr {E} (name : string) : M (State E) pyval :=
  fun st =>
    match dict (self st) !! name with
    | Some v => (Ok v, st)
    | None =>
        match class_attr (cls (self st)) name with
        | Some v => (Ok v, st)
        | None => (Raise (AttributeError (class_name (cls (self st))) name), st)
        end
    end.

(** [self.name = v] *)
Definition setattr {E} (name : string) (v : pyval) : M (State E) unit :=
  modify (fun st =>
    {| self := {| cls := cls (self st); dict := <[name:=v]> (dict (self st)) |};
       env := env st |}).

(** An instance with exactly the five attributes [__init__] assigns: the
    shape of every media object once constructed. *)
Definition instance (c : MediaClass) (url path data format resource_type : pyval)
  : obj :=
  {| cls := c;
     dict := <["url":=url]> (<["path":=path]> (<["data":=data]>
               (<["format":=format]> (<["resource_type":=resource_type]> ∅)))) |}.

(** Calling a method that needs no environment on an object. *)
Definition call {A} (m : M (State unit) A) (o : obj) : result A :=
  fst (m {| self := o; env := tt |}).

(** *** The environment of the lazy loaders *)

Record World := {
  files : gmap string bytes;
      (* the file system: the content of each file *)
  http : nat -> string -> option bytes;
      (* the body answered to the n-th GET; None is a transport error *)
  magic : bytes -> string;
      (* the MIME type libmagic gives a buffer *)
  reads : nat;      (* files opened for reading so far *)
  fetches : nat;    (* GET requests issued so far *)
  sniffs : nat;     (* calls of magic.from_buffer so far *)
  tmp_count : nat;  (* temporary files created so far *)
}.

(** The updates of the environment. *)
Definition count_read (w : World) : World :=
  {| files := files w; http := http w; magic := magic w;
     reads := S (reads w); fetches := fetches w;
     sniffs := sniffs w; tmp_count := tmp_count w |}.

Definition count_fetch (w : World) : World :=
  {| files := files w; http := http w; magic := magic w;
     reads := reads w; fetches := S (fetches w);
     sniffs := sniffs w; tmp_count := tmp_count w |}.

Definition count_sniff (w : World) : World :=
  {| files := files w; http := http w; magic := magic w;
     reads := reads w; fetches := fetches w;
     sniffs := S (sniffs w); tmp_count := tmp_count w |}.

Definition put_file (name : string) (b : bytes) (w : World) : World :=
  {| files := <[name:=b]> (files w); http := http w; magic := magic w;
     reads := reads w; fetches := fetches w;
     sniffs := sniffs w; tmp_count := tmp_count w |}.

Definition count_tmp (w : World) : World :=
  {| files := files w; http := http w; magic := magic w;
     reads := reads w; fetches := fetches w;
     sniffs := sniffs w; tmp_count := S (tmp_count w) |}.

Definition with_env {A} (f : World -> result A * World) : M (State World) A :=
  fun st => let '(r, w) := f (env st) in (r, {| self := self st; env := w |}).

(** [async with aiofiles.open(path, "rb") as f: await f.read()]; the [path]
    attribute holds [None] or a [str]. *)
Definition aiofiles_read (path : pyval) : M (State World) bytes :=
  match path with
  | VStr p =>
      with_env (fun w =>
        match files w !! p with
        | Some b => (Ok b, count_read w)
        | None => (Raise (OSError p), count_read w)
        end)
  | _ => raise (TypeError "expected str, bytes or os.PathLike object")
  end.

(** [async with session.get(url) as resp: await resp.read()] *)
Definition aiohttp_get (url : pyval) : M (State World) bytes :=
  match url with
  | VStr u =>
      with_env (fun w =>
        match http w (fetches w) u with
        | Some b => (Ok b, count_fetch w)
        | None => (Raise (ClientError u), count_fetch w)
        end)
  | _ => raise (TypeError "Constructor parameter should be str")
  end.

(** [magic.from_buffer(data, mime=True)] *)
Definition magic_from_buffer (data : pyval) : M (State World) string :=
  match data with
  | VBytes b => with_env (fun w => (Ok (magic w b), count_sniff w))
  | _ => raise (TypeError "expected bytes")
  end.

(** The name of the n-th temporary file; the names drawn are taken to be
    unused, as [tempfile] guarantees. *)
Definition tmp_name (n : nat) : string := "/tmp/tmp" +:+ pretty n.

(** [tempfile.NamedTemporaryFile(delete=False)]: a new empty file; its name. *)
Definition NamedTemporaryFile : M (State World) string :=
  with_env (fun w =>
    let name := tmp_name (tmp_count w) in
    (Ok name, count_tmp (put_file name [] w))).

(** [f.write(data)] on the file of that name *)
Definition write (name : string) (data : pyval) : M (State World) unit :=
  match data with
  | VBytes b => with_env (fun w => (Ok tt, put_file name b w))
  | _ => raise (TypeError "a bytes-like object is required")
  end.

(** [base64.b64encode(v).decode()] *)
Definition b64encode_value {S} (v : pyval) : M S string :=
  match v with
  | VBytes b => ret (b64encode b)
  | _ => raise (TypeError "a bytes-like object is required")
  end.

(** *** class MediaMessage *)

Module MediaMessage.

Definition _from_url {E} (url format : pyval) : M (State E) unit :=
  setattr "url" url;;
  setattr "path" VNone;;
  setattr "data" VNone;;
  setattr "format" format.

Definition _from_path {E} (path format : pyval) : M (State E) unit :=
  setattr "path" path;;
  setattr "url" VNone;;
  setattr "data" VNone;;
  setattr "format" format.

Definition _from_data {E} (data format : pyval) : M (State E) unit :=
  setattr "data" data;;
  setattr "format" format;;
  setattr "url" VNone;;
  setattr "path" VNone.

Definition __init__ {E} (url path data format : pyval) : M (State E) unit :=
  setattr "url" url;;
  setattr "path" path;;
  setattr "data" data;;
  setattr "format" format;;
  setattr "resource_type" (VStr "media");;
  if truthy url then _from_url url format
  else if truthy path then _from_path path format
  else if truthy data && truthy format then _from_data data format
  else raise (ValueError "Must provide either url, path, or data + format.").

(** [C(url=..., path=..., data=..., format=...)]: a fresh instance of class
    [c] on which [__init__] has run, or the exception [__init__] raised. *)
Definition new (c : MediaClass) (url path : option string)
    (data : option bytes) (format : option string) : result obj :=
  match __init__ (of_opt_str url) (of_opt_str path) (of_opt_bytes data)
          (of_opt_str format) {| self := {| cls := c; dict := ∅ |}; env := tt |} with
  | (Ok _, st) => Ok (self st)
  | (Raise e, _) => Raise e
  end.

Definition _detect_format : M (State World) unit :=
  format ← getattr "format";
  if truthy format then ret tt
  else
    data ← getattr "data";
    mime_type ← magic_from_buffer data;
    setattr "format" (VStr (last (split "/" mime_type)));;
    setattr "resource_type" (VStr (first (split "/" mime_type))).

Definition _load_data_from_path : M (State World) unit :=
  path ← getattr "path";
  data ← aiofiles_read path;
  setattr "data" (VBytes data);;
  _detect_format.

Definition _load_data_from_url : M (State World) unit :=
  url ← getattr "url";
  data ← aiohttp_get url;
  setattr "data" (VBytes data);;
  _detect_format.

Definition get_url : M (State World) pyval :=
  url ← getattr "url";
  if truthy url then ret url
  else
    data ← getattr "data";
    (if truthy data then ret tt
     else
       path ← getattr "path";
       if truthy path then _load_data_from_path
       else raise (ValueError "No available media source"));;
    resource_type ← getattr "resource_type";
    format ← getattr "format";
    data ← getattr "data";
    encoded ← b64encode_value data;
    ret (VStr ("data:" +:+ py_str resource_type +:+ "/" +:+ py_str format
               +:+ ";base64," +:+ encoded)).

Definition get_path : M (State World) pyval :=
  path ← getattr "path";
  if truthy path then ret path
  else
    data ← getattr "data";
    (if truthy data then ret tt
     else
       url ← getattr "url";
       if truthy url then _load_data_from_url
       else raise (ValueError "No available media source"));;
    name ← NamedTemporaryFile;
    data ← getattr "data";
    write name data;;
    setattr "path" (VStr name);;
    getattr "path".

Definition get_data : M (State World) pyval :=
  data ← getattr "data";
  if truthy data then ret data
  else
    path ← getattr "path";
    if truthy path then (_load_data_from_path;; getattr "data")
    else
      url ← getattr "url";
      if truthy url then (_load_data_from_url;; getattr "data")
      else raise (ValueError "No available media source").

(** The five fields every media [to_dict] serialises after its [type]. *)
Definition fields {E} (type : jval) : M (State E) jval :=
  url ← getattr "url";
  path ← getattr "path";
  data ← getattr "data";
  encoded ← (if truthy data then s ← b64encode_value data; ret (JStr s)
             else ret JNone);
  format ← getattr "format";
  ret (JDict [("type", type); ("url", JAtom url); ("path", JAtom path);
              ("data", encoded); ("format", JAtom format)]).

Definition to_dict {E} : M (State E) jval :=
  resource_type ← getattr "resource_type";
  fields (JAtom resource_type).

End MediaMessage.

Module VoiceMessage.
Definition to_dict {E} : M (State E) jval := MediaMessage.fields (JStr "voice").
Definition to_plain {E} : M (State E) string := ret "[VoiceMessage]".
End VoiceMessage.

Module ImageMessage.
Definition to_dict {E} : M (State E) jval := MediaMessage.fields (JStr "image").
Definition to_plain {E} : M (State E) string := ret "[ImageMessage]".
End ImageMessage.

Module FileElement.
Definition to_dict {E} : M (State E) jval := MediaMessage.fields (JStr "file").
Definition to_plain {E} : M (State E) string :=
  path ← getattr "path";
  name ← (if truthy path then ret path
          else url ← getattr "url"; ret (py_or url (VStr "unnamed")));
  ret ("[File:" +:+ py_str name +:+ "]").
End FileElement.

Module VideoElement.
Definition to_dict {E} : M (State E) jval :=
  file ← getattr "file";
  ret (JDict [("type", JStr "video"); ("data", JDict [("file", JAtom file)])]).
Definition to_plain {E} : M (State E) string := ret "[Video Message]".
End VideoElement.

(** *** The message elements *)

Inductive MessageElement :=
| TextMessage (text : string)
| Media (o : obj)
| AtElement (user_id nickname : string)
| MentionElement (target : ChatSender)
| ReplyElement (message_id : string)
| JsonElement (data : string)
| FaceElement (face_id : string).

(** [isinstance(element, TextMessage)] and the like *)
Definition is_TextMessage (e : MessageElement) : bool :=
  match e with TextMessage _ => true | _ => false end.

Definition is_media (c : MediaClass) (e : MessageElement) : bool :=
  match e with
  | Media o =>
      match cls o, c with
      | VoiceMessage, VoiceMessage | ImageMessage, ImageMessage
      | FileElement, FileElement | VideoElement, VideoElement => true
      | _, _ => false
      end
  | _ => false
  end.

(** Method lookup on a media object: the class of [self] decides. *)
Definition media_to_dict {E} : M (State E) jval :=
  fun st =>
    match cls (self st) with
    | VoiceMessage => VoiceMessage.to_dict st
    | ImageMessage => ImageMessage.to_dict st
    | FileElement => FileElement.to_dict st
    | VideoElement => VideoElement.to_dict st
    end.

Definition media_to_plain {E} : M (State E) string :=
  fun st =>
    match cls (self st) with
    | VoiceMessage => VoiceMessage.to_plain st
    | ImageMessage => ImageMessage.to_plain st
    | FileElement => FileElement.to_plain st
    | VideoElement => VideoElement.to_plain st
    end.

(** [element.to_dict()] *)
Definition to_dict (e : MessageElement) : result jval :=
  match e with
  | TextMessage text => Ok (JDict [("type", JStr "text"); ("text", JStr text)])
  | Media o => call media_to_dict o
  | AtElement user_id nickname =>
      Ok (JDict [("type", JStr "at");
                 ("data", JDict [("qq", JStr user_id); ("nickname", JStr nickname)])])
  | MentionElement target =>
      Ok (JDict [("type", JStr "mention"); ("data", JDict [("target", JSender target)])])
  | ReplyElement message_id =>
      Ok (JDict [("type", JStr "reply"); ("data", JDict [("id", JStr message_id)])])
  | JsonElement data =>
      Ok (JDict [("type", JStr "json"); ("data", JDict [("data", JStr data)])])
  | FaceElement face_id =>
      Ok (JDict [("type", JStr "face"); ("data", JDict [("id", JStr face_id)])])
  end.

(** [element.to_plain()] *)
Definition to_plain (e : MessageElement) : result string :=
  match e with
  | TextMessage text => Ok text
  | Media o => call media_to_plain o
  | AtElement user_id nickname =>
      Ok ("@" +:+ py_str (py_or (VStr nickname) (VStr user_id)))
  | MentionElement target =>
      Ok ("@" +:+ py_str (py_or (of_opt_str (display_name target))
                                 (VStr (Sender.user_id target))))
  | ReplyElement message_id => Ok ("[Reply:" +:+ message_id +:+ "]")
  | JsonElement _ => Ok "[JSON Message]"
  | FaceElement face_id => Ok ("[Face:" +:+ face_id +:+ "]")
  end.

(** *** class IMMessage *)

Record IMMessage := {
  sender : ChatSender;
  message_elements : list MessageElement;
  raw_message : option jval;
}.

Module IMMessage.

(** The loop of [content]: the text accumulated so far, the elements left. *)
Fixpoint content_loop (content : string) (elements : list MessageElement)
  : result string :=
  match elements with
  | [] => Ok content
  | element :: rest =>
      plain ← to_plain element;
      let content := content +:+ plain in
      let content :=
        if is_TextMessage element then content +:+ newline else content in
      content_loop content rest
  end.

Definition content (m : IMMessage) : result string :=
  content ← content_loop "" (message_elements m);
  Ok (strip content).

Definition images (m : IMMessage) : list MessageElement :=
  List.filter (is_media ImageMessage) (message_elements m).

Definition voices (m : IMMessage) : list MessageElement :=
  List.filter (is_media VoiceMessage) (message_elements m).

(** [[f(element) for element in elements]] for an [f] that may raise *)
Fixpoint comprehension {A B} (f : A -> result B) (l : list A) : result (list B) :=
  match l with
  | [] => Ok []
  | x :: l' => y ← f x; ys ← comprehension f l'; Ok (y :: ys)
  end.

Definition to_dict (m : IMMessage) : result jval :=
  elements ← comprehension to_dict (message_elements m);
  plains ← comprehension to_plain (message_elements m);
  Ok (JDict [("sender", JSender (sender m));
             ("message_elements", JList elements);
             ("plain_text", JStr (String.concat "" plains));
             ("raw_message", match raw_message m with Some r => r | None => JNone end)]).

End IMMessage.

(** ** plugins/im_telegram_adapter/adapter.py *)

Module TelegramAdapter.

(** What [send_message] does to the outside, in order: the calls on
    [self.application.bot] and the pauses of [asyncio.sleep] (by the length of
    the text they are computed from; the random part is left out). *)
Inductive Event :=
| send_chat_action (chat_id : pyval) (action : string)
| bot_send_message (chat_id : pyval) (text parse_mode : string)
| send_photo (chat_id photo : pyval) (parse_mode : string)
| send_voice (chat_id voice : pyval) (parse_mode : string)
| sleep (chars : nat).

(** The platform: which call it accepts after which history (a refused call
    raises), what [telegramify_markdown.markdownify] renders, and the events
    so far, oldest first. *)
Record Bot := {
  accepts : list Event -> Event -> bool;
  markdownify : string -> string;
  history : list Event;
}.

Definition record (b : Bot) (ev : Event) : Bot :=
  {| accepts := accepts b; markdownify := markdownify b;
     history := history b ++ [ev] |}.

(** [await self.application.bot.<call>(...)] *)
Definition await_bot (ev : Event) : M Bot unit :=
  fun b =>
    if accepts b (history b) ev then (Ok tt, record b ev)
    else (Raise (TelegramError "request failed"), b).

(** [await asyncio.sleep(duration)] *)
Definition asyncio_sleep (chars : nat) : M Bot unit :=
  fun b => (Ok tt, record b (sleep chars)).

Definition lift {S A} (r : result A) : M S A :=
  match r with Ok a => ret a | Raise e => raise e end.

(** [message.message_elements.index(element)] for the element at
    [position]: the first position of the list that holds an equal element. No
    element class defines [__eq__], so an element is equal to itself only, and
    a list that holds one object at several positions gives all of them the
    index of the first. [id_at] gives the identity of the object at each
    position of the list. *)
Fixpoint first_from (id_at : nat -> nat) (x : nat) (j n : nat) : nat :=
  match n with
  | 0 => j
  | S n' => if (id_at j =? x)%nat then j else first_from id_at x (S j) n'
  end.

Definition index (id_at : nat -> nat) (position : nat) : nat :=
  first_from id_at (id_at position) 0 position.

(** The body of the [for] loop for an element, [index] being the value of
    [message.message_elements.index(element)]. *)
Definition send_element (chat_id : pyval) (index : nat) (element : MessageElement)
  : M Bot unit :=
  match element with
  | TextMessage text =>
      await_bot (send_chat_action chat_id "typing");;
      b ← get;
      let text' := markdownify b text in
      (if (0 <? index)%nat then asyncio_sleep (String.length text) else ret tt);;
      await_bot (bot_send_message chat_id text' "MarkdownV2")
  | Media o =>
      match cls o with
      | ImageMessage =>
          await_bot (send_chat_action chat_id "upload_photo");;
          url ← lift (call (getattr "url") o);
          await_bot (send_photo chat_id url "MarkdownV2")
      | VoiceMessage =>
          await_bot (send_chat_action chat_id "upload_voice");;
          url ← lift (call (getattr "url") o);
          await_bot (send_voice chat_id url "MarkdownV2")
      | _ => ret tt
      end
  | _ => ret tt
  end.

(** The [for] loop from [position] on, and [send_message], for a message
    whose list holds the objects [id_at]. *)
Fixpoint send_loop_of (id_at : nat -> nat) (chat_id : pyval) (position : nat)
    (elements : list MessageElement) : M Bot unit :=
  match elements with
  | [] => ret tt
  | element :: rest =>
      send_element chat_id (index id_at position) element;;
      send_loop_of id_at chat_id (S position) rest
  end.

Definition send_message_of (id_at : nat -> nat) (message : IMMessage)
    (recipient : ChatSender) : M Bot unit :=
  chat_id ← match chat_type recipient with
            | C2C => ret (VStr (user_id recipient))
            | GROUP => ret (of_opt_str (group_id recipient))
            | OTHER name => raise (ValueError ("Unsupported chat type: " +:+ name))
            end;
  send_loop_of id_at chat_id 0 (message_elements message).

(** The same for a message whose elements are distinct objects: the index of
    an element is its position. *)
Fixpoint send_loop (chat_id : pyval) (index : nat) (elements : list MessageElement)
  : M Bot unit :=
  match elements with
  | [] => ret tt
  | element :: rest =>
      send_element chat_id index element;;
      send_loop chat_id (S index) rest
  end.

Definition send_message (message : IMMessage) (recipient : ChatSender) : M Bot unit :=
  chat_id ← match chat_type recipient with
            | C2C => ret (VStr (user_id recipient))
            | GROUP => ret (of_opt_str (group_id recipient))
            | OTHER name => raise (ValueError ("Unsupported chat type: " +:+ name))
            end;
  send_loop chat_id 0 (message_elements message).

(** What the sending of one element adds to the history when the platform
    refuses nothing, [index] being the index of the element in the list. *)
Definition events_of (md : string -> string) (chat_id : pyval) (index : nat)
    (element : MessageElement) : list Event :=
  match element with
  | TextMessage text =>
      send_chat_action chat_id "typing"
      :: (if (0 <? index)%nat then [sleep (String.length text)] else [])
      ++ [bot_send_message chat_id (md text) "MarkdownV2"]
  | Media o =>
      match cls o, call (getattr "url") o with
      | ImageMessage, Ok url =>
          [send_chat_action chat_id "upload_photo"; send_photo chat_id url "MarkdownV2"]
      | ImageMessage, Raise _ => [send_chat_action chat_id "upload_photo"]
      | VoiceMessage, Ok url =>
          [send_chat_action chat_id "upload_voice"; send_voice chat_id url "MarkdownV2"]
      | VoiceMessage, Raise _ => [send_chat_action chat_id "upload_voice"]
      | _, _ => []
      end
  | _ => []
  end.

(** The same of a sequence of elements from [position] on, for the objects
    [id_at]. *)
Fixpoint all_events_of (id_at : nat -> nat) (md : string -> string) (chat_id : pyval)
    (position : nat) (elements : list MessageElement) : list Event :=
  match elements with
  | [] => []
  | element :: rest =>
      events_of md chat_id (index id_at position) element
      ++ all_events_of id_at md chat_id (S position) rest
  end.

(** The platform after the events [evs]. *)
Definition after (b : Bot) (evs : list Event) : Bot :=
  {| accepts := accepts b; markdownify := markdownify b;
     history := history b ++ evs |}.

(** The texts of the text elements of a message, and the texts that a
    sequence of events delivered. *)
Definition texts_of (elements : list MessageElement) : list string :=
  omap (fun e => match e with TextMessage text => Some text | _ => None end) elements.

Definition sent_texts (evs : list Event) : list string :=
  omap (fun ev => match ev with bot_send_message _ text _ => Some text | _ => None end)
       evs.

(** *** Receiving *)

(** The fields of a [telegram.User] that the adapter reads; identifiers are
    kept as text. *)
Record User := {
  username : option string;
  first_name : option string;
  last_name : option string;
  id : string;
}.

Definition get_display_name (user : User) : string :=
  if truthy (of_opt_str (username user)) then py_str (of_opt_str (username user))
  else if truthy (of_opt_str (first_name user)) || truthy (of_opt_str (last_name user))
  then strip (py_str (of_opt_str (first_name user)) +:+ " "
              +:+ py_str (of_opt_str (last_name user)))
  else id user.

(** What [convert_to_message] reads of [raw_message.message]: the type of
    the chat, the id of the [sender_chat] and the [from_user] when there is
    one, the [chat_id], the result of [to_dict()], the text, and the voice and
    the photo sizes, each by the [file_path] that its file has on the
    platform. *)
Record TelegramMessage := {
  chat_kind : string;
  sender_chat : option string;
  chat_id : string;
  from_user : option User;
  as_dict : jval;
  text : option string;
  voice : option (option string);
  photo : list (option string);
}.

(** [get_display_name(raw_message.message.from_user)] *)
Definition display_name_of (user : option User) : result string :=
  match user with
  | Some u => Ok (get_display_name u)
  | None => Raise (AttributeError "NoneType" "username")
  end.

(** [get_file] is a coroutine function in the version of the library that
    the file is written for (the one with [Application] and the lower-case
    [filters]). [convert_to_message] is a plain [def] and calls it without
    [await]: what it gets is the coroutine object, not yet run, of the file. *)
Inductive Coroutine (A : Type) := coroutine (awaited : A).
Arguments coroutine {A} _.

Definition get_file (file_path : option string) : Coroutine (option string) :=
  coroutine file_path.

(** [voice_file.file_path] on that object: a coroutine object has no such
    attribute. *)
Definition file_path {A} (file : Coroutine A) : result (option string) :=
  Raise (AttributeError "coroutine" "file_path").

Definition convert_to_message (raw : TelegramMessage) : result IMMessage :=
  sender ←
    (if String.eqb (chat_kind raw) "group" || String.eqb (chat_kind raw) "supergroup"
     then
       user_id ← match sender_chat raw with
                 | Some i => Ok i
                 | None => Raise (AttributeError "NoneType" "id")
                 end;
       name ← display_name_of (from_user raw);
       Ok (from_group_chat user_id (chat_id raw) name)
     else
       name ← display_name_of (from_user raw);
       Ok (from_c2c_chat (chat_id raw) name));
  let raw_message_dict := as_dict raw in
  let message_elements :=
    if truthy (of_opt_str (text raw))
    then [TextMessage (py_str (of_opt_str (text raw)))] else [] in
  message_elements ←
    match voice raw with
    | Some voice =>
        let voice_file := get_file voice in
        voice_url ← file_path voice_file;
        voice_element ← MediaMessage.new VoiceMessage voice_url None None None;
        Ok (message_elements ++ [Media voice_element])
    | None => Ok message_elements
    end;
  message_elements ←
    match photo raw with
    | [] => Ok message_elements
    | _ =>
        let photo := List.last (photo raw) None in
        let photo_file := get_file photo in
        photo_url ← file_path photo_file;
        photo_element ← MediaMessage.new ImageMessage photo_url None None None;
        Ok (message_elements ++ [Media photo_element])
    end;
  Ok {| sender := sender; message_elements := message_elements;
        raw_message := Some raw_message_dict |}.

(** *** The composing indicator *)

(** The records of [self.logger], by the values their messages are formatted
    from. *)
Inductive LogRecord :=
| log_debug (is_editing : bool) (chat_id : pyval)
| log_warning (e : exn).

(** The adapter at work: the platform and the log. *)
Record Adapter := { bot : Bot; log : list LogRecord }.

Definition on_bot {A} (m : M Bot A) : M Adapter A :=
  fun a => let '(r, b) := m (bot a) in (r, {| bot := b; log := log a |}).

Definition logger (r : LogRecord) : M Adapter unit :=
  fun a => (Ok tt, {| bot := bot a; log := log a ++ [r] |}).

(** [try: body except Exception as e: handler(e)] *)
Definition try_except {S A} (body : M S A) (handler : exn -> M S A) : M S A :=
  fun s =>
    match body s with
    | (Ok a, s') => (Ok a, s')
    | (Raise e, s') => handler e s'
    end.

Definition set_chat_editing_state (chat_sender : ChatSender) (is_editing : bool)
  : M Adapter unit :=
  let action := if is_editing then "typing" else "cancel" in
  let chat_id :=
    match chat_type chat_sender with
    | C2C => VStr (user_id chat_sender)
    | _ => of_opt_str (group_id chat_sender)
    end in
  try_except
    (logger (log_debug is_editing chat_id);;
     if is_editing then on_bot (await_bot (send_chat_action chat_id action))
     else on_bot (await_bot (send_chat_action chat_id action)))
    (fun e => logger (log_warning e)).

End TelegramAdapter.

(** ** plugins/preset_llm_adapters/gemini_adapter.py *)

Module GeminiAdapter.

(** Modelled from the spec: [framework/llm/format/request.py] is not among
    the sources. A canonical chat request is an ordered sequence of
    role-tagged text turns and the generation parameters temperature, top-p,
    max tokens, stop sequences and target model id; the optional ones may be
    [None]. *)
Record LLMChatMessage := { role : string; content : string }.

(** Modelled from the spec: the fields of a request that [chat] reads. *)
Record LLMChatRequest := {
  model : string;
  messages : list LLMChatMessage;
  temperature : option Q;
  top_p : option Q;
  max_tokens : option Z;
  stop : option (list string);
}.

Record GeminiConfig := { api_key : string; api_base : string }.

Definition of_opt {A} (f : A -> jval) (o : option A) : jval :=
  match o with Some a => f a | None => JNone end.

(** [v is not None] *)
Definition is_not_None (v : jval) : bool :=
  match v with JAtom VNone => false | _ => true end.

Definition api_url (config : GeminiConfig) (req : LLMChatRequest) : string :=
  api_base config +:+ "/models/" +:+ model req +:+ ":generateContent".

Definition headers (config : GeminiConfig) : list (string * jval) :=
  [("x-goog-api-key", JStr (api_key config));
   ("Content-Type", JStr "application/json")].

(** The [data] that [chat] passes to [requests.post(api_url, json=data, ...)]:
    the literal, then the comprehension under [# Remove None fields]. *)
Definition chat_data (req : LLMChatRequest) : list (string * jval) :=
  let data :=
    [("contents",
      JList (map (fun msg =>
                    JDict [("role", JStr (role msg));
                           ("parts", JList [JDict [("text", JStr (content msg))]])])
                 (messages req)));
     ("generationConfig",
      JDict [("temperature", of_opt JFloat (temperature req));
             ("topP", of_opt JFloat (top_p req));
             ("topK", JInt 40);
             ("maxOutputTokens", of_opt JInt (max_tokens req));
             ("stopSequences", of_opt (fun l => JList (map JStr l)) (stop req))]);
     ("safetySettings", JList [])] in
  List.filter (fun kv => is_not_None (snd kv)) data.

(** *** The call and its answer *)

(** A parsed JSON document, as [response.json()] returns it; an object is
    the list of its members, each key once. *)
#[local] Set Warnings "-register-all".
Inductive json :=
| JsNull
| JsBool (b : bool)
| JsInt (z : Z)
| JsFloat (q : Q)
| JsStr (s : string)
| JsArr (l : list json)
| JsObj (d : list (string * json)).
#[local] Set Warnings "register-all".

(** What [chat] can raise. *)
Inductive chat_exn :=
| RequestException
| HTTPError (status : Z)
| JSONDecodeError
| KeyError (key : json)
| IndexError
| TypeError (type : string)
| AttributeError (type attr : string)
| ValidationError.

Inductive outcome (A : Type) :=
| Returns (a : A)
| Raises (e : chat_exn).
Arguments Returns {A} a.
Arguments Raises {A} e.

Definition and_then {A B} (x : outcome A) (k : A -> outcome B) : outcome B :=
  match x with Returns a => k a | Raises e => Raises e end.

Definition type_name (v : json) : string :=
  match v with
  | JsNull => "NoneType"
  | JsBool _ => "bool"
  | JsInt _ => "int"
  | JsFloat _ => "float"
  | JsStr _ => "str"
  | JsArr _ => "list"
  | JsObj _ => "dict"
  end.

Fixpoint member (k : string) (d : list (string * json)) : option json :=
  match d with
  | [] => None
  | (k', v) :: d' => if String.eqb k k' then Some v else member k d'
  end.

(** [v.get(k, default)] *)
Definition js_get (v : json) (k : string) (default : json) : outcome json :=
  match v with
  | JsObj d => Returns (match member k d with Some x => x | None => default end)
  | _ => Raises (AttributeError (type_name v) "get")
  end.

(** [v[k]] for a string [k] *)
Definition js_item (v : json) (k : string) : outcome json :=
  match v with
  | JsObj d =>
      match member k d with
      | Some x => Returns x
      | None => Raises (KeyError (JsStr k))
      end
  | _ => Raises (TypeError (type_name v))
  end.

(** [v[0]] *)
Definition js_first (v : json) : outcome json :=
  match v with
  | JsArr (x :: _) => Returns x
  | JsArr [] => Raises IndexError
  | JsStr (String c _) => Returns (JsStr (String c EmptyString))
  | JsStr EmptyString => Raises IndexError
  | JsObj _ => Raises (KeyError (JsInt 0))
  | _ => Raises (TypeError (type_name v))
  end.

(** What [requests.post] answers: the status, the body as text, and the body
    parsed where it is JSON. *)
Record Response := {
  status_code : Z;
  response_text : string;
  response_json : option json;
}.

(** [response.raise_for_status()] *)
Definition raise_for_status (r : Response) : outcome unit :=
  if ((400 <=? status_code r) && (status_code r <? 600))%Z
  then Raises (HTTPError (status_code r)) else Returns tt.

(** What [print] writes. *)
Inductive Printed :=
| print_text (s : string)
| print_value (v : json).

(** The keyword arguments [chat] builds its answer from. *)
Definition transformed_response (req : LLMChatRequest) (response_data : json)
  : outcome json :=
  and_then (js_get response_data "promptFeedback" (JsObj [])) (fun feedback =>
  and_then (js_get feedback "blockReason" (JsStr "")) (fun id =>
  and_then (js_item response_data "candidates") (fun candidates =>
  and_then (js_first candidates) (fun candidate =>
  and_then (js_item candidate "content") (fun content =>
  and_then (js_item content "parts") (fun parts =>
  and_then (js_first parts) (fun part =>
  and_then (js_item part "text") (fun text =>
  Returns (JsObj
    [("id", id);
     ("object", JsStr "chat.completion");
     ("created", JsInt 0);
     ("model", JsStr (model req));
     ("choices",
      JsArr [JsObj [("index", JsInt 0);
                    ("message", JsObj [("role", JsStr "assistant");
                                       ("content", text)]);
                    ("finish_reason", JsStr "stop")]]);
     ("usage", JsObj [("prompt_tokens", JsInt 0);
                      ("completion_tokens", JsInt 0);
                      ("total_tokens", JsInt 0)])]))))))))).

Section Chat.

(** The network, [None] being a request that does not get an answer, and the
    constructor [LLMChatResponse], applied to the keyword arguments; its class
    is declared outside the sources. *)
Variable post : string -> list (string * jval) -> list (string * jval) -> option Response.
Variable ChatResponse : Type.
Variable LLMChatResponse : json -> outcome ChatResponse.

(** [chat(req)]: what it returns or raises, and what it printed. *)
Definition chat (config : GeminiConfig) (req : LLMChatRequest)
  : outcome ChatResponse * list Printed :=
  match post (api_url config req) (chat_data req) (headers config) with
  | None => (Raises RequestException, [])
  | Some response =>
      match and_then (raise_for_status response) (fun _ =>
              match response_json response with
              | Some response_data => Returns response_data
              | None => Raises JSONDecodeError
              end) with
      | Raises e =>
          (Raises e, [print_text ("API Response: " +:+ response_text response)])
      | Returns response_data =>
          (and_then (transformed_response req response_data) LLMChatResponse,
           [print_value response_data])
      end
  end.

End Chat.

End GeminiAdapter.

(** ** The lifetime of a media object *)

(** The operations a holder of a media object can call on it. *)
Inductive Op := GetUrl | GetPath | GetData | ToDict | ToPlain.

(** One call; whether it returns or raises, the caller goes on with the
    object and the environment as the call left them. *)
Definition step (st : State World) (op : Op) : State World :=
  match op with
  | GetUrl => snd (MediaMessage.get_url st)
  | GetPath => snd (MediaMessage.get_path st)
  | GetData => snd (MediaMessage.get_data st)
  | ToDict => snd (media_to_dict st)
  | ToPlain => snd (media_to_plain st)
  end.

Definition lifetime (ops : list Op) (st : State World) : State World :=
  fold_left step ops st.

(** The format, the kind and the environment that [_detect_format] leaves
    after a load of [b]: untouched when a format is set, sniffed otherwise. *)
Definition detected (f r : pyval) (w : World) (b : bytes) : pyval * pyval * World :=
  if truthy f then (f, r, w)
  else (VStr (last (split "/" (magic w b))), VStr (first (split "/" (magic w b))),
        count_sniff w).

(** What an element adds to the content of its message, given its plain
    text: a text element is followed by a line break. *)
Definition plain_piece (e : MessageElement) (plain : string) : string :=
  if is_TextMessage e then plain +:+ newline else plain.

(** ** Invariants of the lifetime *)

Module Invariant.

(** The [data] attribute holds [None] or bytes. *)
Definition bytes_or_none (d : pyval) : Prop := d = VNone \/ exists b, d = VBytes b.

(** With libmagic answering as [mg] does: at most one sniff has been made
    since the count was [n], and once it is made a format is set. *)
Definition sniffed_once (c : MediaClass) (mg : bytes -> string) (n : nat)
    (st : State World) : Prop :=
  exists u p d f r w,
    st = {| self := instance c u p d f r; env := w |} /\
    magic w = mg /\
    (sniffs w = n \/ (sniffs w = S n /\ truthy f = true)).

(** At most one temporary file has been made since the count was [t], and
    once it is made a path is held. *)
Definition materialized_once (c : MediaClass) (t : nat) (st : State World) : Prop :=
  exists u p d f r w,
    st = {| self := instance c u p d f r; env := w |} /\
    bytes_or_none d /\
    (tmp_count w = t \/ (tmp_count w = S t /\ truthy p = true)).

End Invariant.

(** ** The statements of the specification, in its own words *)

Module Spec.

(** How many of remote reference, local path and bytes + format the caller
    supplies; an argument left [None] is not supplied. *)
Definition supplied (url path : option string) (data : option bytes)
    (format : option string) : nat :=
  (match url with Some _ => 1 | None => 0 end)
  + (match path with Some _ => 1 | None => 0 end)
  + (match data, format with Some _, Some _ => 1 | _, _ => 0 end).

(** "Construction fails exactly when zero or two-or-more are supplied." *)
Definition fails_unless_exactly_one (c : MediaClass) (url path : option string)
    (data : option bytes) (format : option string) : Prop :=
  (exists e, MediaMessage.new c url path data format = Raise e)
  <-> supplied url path data format <> 1.

(** [get_bytes()], then [get_local_path()], then [get_remote_ref()]. *)
Definition resolve_all : M (State World) (pyval * pyval * pyval) :=
  d ← MediaMessage.get_data;
  p ← MediaMessage.get_path;
  u ← MediaMessage.get_url;
  ret (d, p, u).

(** "After each has been called once, a second call to any of the three
    returns the identical cached value" and changes nothing, [n] fetches and
    reads having happened in total. *)
Definition cached_after (c : MediaClass) (url path : option string)
    (data : option bytes) (format : option string) (w : World) (n : nat) : Prop :=
  exists o d p u st,
    MediaMessage.new c url path data format = Ok o /\
    resolve_all {| self := o; env := w |} = (Ok (d, p, u), st) /\
    MediaMessage.get_data st = (Ok d, st) /\
    MediaMessage.get_path st = (Ok p, st) /\
    MediaMessage.get_url st = (Ok u, st) /\
    reads (env st) + fetches (env st) = reads w + fetches w + n.

(** "With no remote reference held, [get_remote_ref()] fails with no remote
    representation available." *)
Definition no_remote_fails (c : MediaClass) (path : option string)
    (data : option bytes) (format : option string) (w : World) : Prop :=
  forall o, MediaMessage.new c None path data format = Ok o ->
    exists e st, MediaMessage.get_url {| self := o; env := w |} = (Raise e, st).

(** "Performs no network or disk access": the computation leaves the object
    and the environment, counters included, as it found them. *)
Definition readonly {S A} (m : M S A) : Prop := forall s, snd (m s) = s.

(** "The data field is serialised as absent." *)
Definition data_absent (r : result jval) : Prop :=
  exists d, r = Ok (JDict d) /\ dict_get "data" d = Some JNone.

(** "No stop-sequences field in the wire request": neither at the top level
    nor in the generation settings. *)
Definition no_stop_field (data : list (string * jval)) : Prop :=
  dict_get "stopSequences" data = None /\
  forall cfg, dict_get "generationConfig" data = Some (JDict cfg) ->
    dict_get "stopSequences" cfg = None.


(** The states in which the object still has the format [f] and the kind
    [r], and libmagic has been called [n] times. *)
Definition keeps (c : MediaClass) (f r : pyval) (n : nat) (st : State World) : Prop :=
  exists u p d w,
    st = {| self := instance c u p d f r; env := w |} /\ sniffs w = n.

(** "Constructed with format supplied, the kind remains the default
    "media" for the instance's whole lifetime." *)
Definition kind_stays_media (c : MediaClass) (url path : option string)
    (data : option bytes) (format : string) (w : World) : Prop :=
  forall o ops,
    MediaMessage.new c url path data (Some format) = Ok o ->
    fst (getattr "resource_type" (lifetime ops {| self := o; env := w |}))
    = Ok (VStr "media").

(** An empty cached [data] taken for none at all. *)
Definition forget_empty (o : obj) : obj :=
  match dict o !! "data" with
  | Some (VBytes []) => {| cls := cls o; dict := <["data":=VNone]> (dict o) |}
  | _ => o
  end.

(** Two runs that end alike: the same result, the same environment, the same
    object up to an empty [data] standing for none. *)
Definition same_outcome {A} (x y : result A * State World) : Prop :=
  fst x = fst y /\ env (snd x) = env (snd y) /\
  forget_empty (self (snd x)) = forget_empty (self (snd y)).

End Spec.

(** ** The statements as amended *)

Module Amended.

(** After [get_data], [get_path] and [get_url] have each been called once, a
    second call to any of the three returns the value it returned before and
    changes neither the object nor the environment, [fetched] fetches and
    [read] reads having happened in all. *)
Definition resolved_once (c : MediaClass) (url path : option string)
    (data : option bytes) (format : option string) (w : World) (fetched read : nat)
  : Prop :=
  exists o d p u st,
    MediaMessage.new c url path data format = Ok o /\
    Spec.resolve_all {| self := o; env := w |} = (Ok (d, p, u), st) /\
    MediaMessage.get_data st = (Ok d, st) /\
    MediaMessage.get_path st = (Ok p, st) /\
    MediaMessage.get_url st = (Ok u, st) /\
    fetches (env st) = fetches w + fetched /\
    reads (env st) = reads w + read.

End Amended.

(** ** Concrete inputs *)

Module Examples.

Definition png : bytes := [x89; x50; x4e; x47].

Definition libmagic (b : bytes) : string :=
  match b with
  | x89 :: x50 :: x4e :: x47 :: _ => "image/png"
  | [] => "application/x-empty"
  | _ => "application/octet-stream"
  end.

Definition server (n : nat) (url : string) : option bytes :=
  if String.eqb url "https://example.com/cat.png" then Some png
  else if String.eqb url "https://example.com/empty" then Some []
  else None.

Definition world0 : World :=
  {| files := <["/srv/cat.png":=png]> {["/srv/empty" := []]};
     http := server; magic := libmagic;
     reads := 0; fetches := 0; sniffs := 0; tmp_count := 0 |}.

Definition alice : ChatSender :=
  {| chat_type := C2C; user_id := "42"; group_id := None;
     display_name := Some "alice" |}.

(** A platform that refuses to deliver the text "a" and accepts all else. *)
Definition bot0 : TelegramAdapter.Bot :=
  {| TelegramAdapter.accepts := fun _ ev =>
       match ev with
       | TelegramAdapter.bot_send_message _ text _ => negb (String.eqb text "a")
       | _ => true
       end;
     TelegramAdapter.markdownify := fun text => text;
     TelegramAdapter.history := [] |}.

Definition two_texts : IMMessage :=
  {| sender := alice;
     message_elements := [TextMessage "a"; TextMessage "b"];
     raw_message := None |}.

Definition request0 : GeminiAdapter.LLMChatRequest :=
  {| GeminiAdapter.model := "gemini-pro";
     GeminiAdapter.messages :=
       [{| GeminiAdapter.role := "user"; GeminiAdapter.content := "hello" |}];
     GeminiAdapter.temperature := Some (7 # 10);
     GeminiAdapter.top_p := None;
     GeminiAdapter.max_tokens := Some 256%Z;
     GeminiAdapter.stop := None |}.

End Examples.

(** ** More concrete inputs *)

Module Samples.

(** A platform that refuses nothing. *)
Definition open_bot : TelegramAdapter.Bot :=
  {| TelegramAdapter.accepts := fun _ _ => true;
     TelegramAdapter.markdownify := fun text => text;
     TelegramAdapter.history := [] |}.

(** A platform that refuses everything. *)
Definition closed_bot : TelegramAdapter.Bot :=
  {| TelegramAdapter.accepts := fun _ _ => false;
     TelegramAdapter.markdownify := fun text => text;
     TelegramAdapter.history := [] |}.

Definition john : TelegramAdapter.User :=
  {| TelegramAdapter.username := None;
     TelegramAdapter.first_name := Some "John";
     TelegramAdapter.last_name := None;
     TelegramAdapter.id := "7" |}.

(** A private message with a text and a photo in two sizes. *)
Definition private_photo : TelegramAdapter.TelegramMessage :=
  {| TelegramAdapter.chat_kind := "private";
     TelegramAdapter.sender_chat := None;
     TelegramAdapter.chat_id := "7";
     TelegramAdapter.from_user := Some john;
     TelegramAdapter.as_dict := JDict [("message_id", JInt 1)];
     TelegramAdapter.text := Some "look";
     TelegramAdapter.voice := None;
     TelegramAdapter.photo :=
       [Some "https://files.example/small.jpg"; Some "https://files.example/large.jpg"] |}.

(** A private message with a text only. *)
Definition private_text : TelegramAdapter.TelegramMessage :=
  {| TelegramAdapter.chat_kind := "private";
     TelegramAdapter.sender_chat := None;
     TelegramAdapter.chat_id := "7";
     TelegramAdapter.from_user := Some john;
     TelegramAdapter.as_dict := JDict [("message_id", JInt 3)];
     TelegramAdapter.text := Some "hello";
     TelegramAdapter.voice := None;
     TelegramAdapter.photo := [] |}.

(** A message whose list holds one text object twice, between two others:
    the objects at the positions 0 and 2 are the same. *)
Definition again : IMMessage :=
  {| sender := Examples.alice;
     message_elements := [TextMessage "a"; TextMessage "b"; TextMessage "a"];
     raw_message := None |}.

Definition again_ids (position : nat) : nat :=
  match position with 2 => 0 | _ => position end.

Definition config0 : GeminiAdapter.GeminiConfig :=
  {| GeminiAdapter.api_key := "k";
     GeminiAdapter.api_base := "https://generativelanguage.googleapis.com/v1beta" |}.

(** An answer with one candidate, and the answer to a blocked prompt. *)
Definition answer : GeminiAdapter.json :=
  GeminiAdapter.JsObj
    [("candidates",
      GeminiAdapter.JsArr
        [GeminiAdapter.JsObj
           [("content",
             GeminiAdapter.JsObj
               [("parts",
                 GeminiAdapter.JsArr
                   [GeminiAdapter.JsObj [("text", GeminiAdapter.JsStr "hi there")]]);
                ("role", GeminiAdapter.JsStr "model")]);
            ("finishReason", GeminiAdapter.JsStr "MAX_TOKENS")]])].

Definition blocked : GeminiAdapter.json :=
  GeminiAdapter.JsObj
    [("promptFeedback",
      GeminiAdapter.JsObj [("blockReason", GeminiAdapter.JsStr "SAFETY")])].

Definition respond (status : Z) (body : option GeminiAdapter.json)
    (url : string) (data headers : list (string * jval))
  : option GeminiAdapter.Response :=
  Some {| GeminiAdapter.status_code := status;
          GeminiAdapter.response_text := "body";
          GeminiAdapter.response_json := body |}.

End Samples.

(** * Properties *)

(** ** Strings *)

Lemma append_String (c : ascii) (s t : string) :
  String c s +:+ t = String c (s +:+ t).
Proof. reflexivity. Qed.

Lemma append_empty (t : string) : "" +:+ t = t.
Proof. reflexivity. Qed.

Lemma append_assoc (s t v : string) : (s +:+ t) +:+ v = s +:+ (t +:+ v).
Proof.
  induction s as [|a s IH]; [reflexivity|]. rewrite !append_String, IH. reflexivity.
Qed.

Lemma append_empty_r (s : string) : s +:+ "" = s.
Proof.
  induction s as [|a s IH]; [reflexivity|]. rewrite append_String, IH. reflexivity.
Qed.

(** ** Base64 *)

Module Base64Facts.

Lemma b64_value_char (n : N) : (n < 64)%N -> b64_value (b64_char n) = Some n.
Proof.
  intros Hn.
  assert (Hall : forallb (fun k => match b64_value (b64_char k) with
                                   | Some k' => N.eqb k' k
                                   | None => false
                                   end)
                   (map N.of_nat (seq 0 64)) = true) by (vm_compute; reflexivity).
  rewrite forallb_forall in Hall.
  specialize (Hall n).
  destruct (b64_value (b64_char n)) as [k|].
  - f_equal. apply N.eqb_eq, Hall.
    apply in_map_iff. exists (N.to_nat n). split; [lia|]. apply in_seq. lia.
  - exfalso. enough (false = true) by discriminate. apply Hall.
    apply in_map_iff. exists (N.to_nat n). split; [lia|]. apply in_seq. lia.
Qed.

Lemma b64_char_not_pad (n : N) : (n < 64)%N -> Ascii.eqb (b64_char n) "=" = false.
Proof.
  intros Hn.
  assert (Hall : forallb (fun k => negb (Ascii.eqb (b64_char k) "="))
                   (map N.of_nat (seq 0 64)) = true) by (vm_compute; reflexivity).
  rewrite forallb_forall in Hall.
  apply negb_true_iff, Hall.
  apply in_map_iff. exists (N.to_nat n). split; [lia|]. apply in_seq. lia.
Qed.

Ltac euclid := zify; Z.to_euclidean_division_equations; lia.

Lemma sextets3 (A B C : N) :
  (A <= 255 -> B <= 255 -> C <= 255 ->
   let n := A * 65536 + B * 256 + C in
   let m := ((n / 262144 * 64 + (n / 4096) mod 64) * 64 + (n / 64) mod 64) * 64
            + n mod 64 in
   m / 65536 = A /\ (m / 256) mod 256 = B /\ m mod 256 = C)%N.
Proof. intros HA HB HC n m. subst n m. repeat split; euclid. Qed.

Lemma sextets2 (A B : N) :
  (A <= 255 -> B <= 255 ->
   let n := (A * 256 + B) * 4 in
   let m := (n / 4096 * 64 + (n / 64) mod 64) * 64 + n mod 64 in
   m mod 4 = 0 /\ m / 1024 = A /\ (m / 4) mod 256 = B)%N.
Proof. intros HA HB n m. subst n m. repeat split; euclid. Qed.

Lemma sextets1 (A : N) :
  (A <= 255 ->
   let n := A * 16 in
   let m := n / 64 * 64 + n mod 64 in
   m mod 16 = 0 /\ m / 16 = A)%N.
Proof. intros HA n m. subst n m. repeat split; euclid. Qed.

Lemma dec3_enc (a b c : byte) :
  let n := (Byte.to_N a * 65536 + Byte.to_N b * 256 + Byte.to_N c)%N in
  dec3 (n / 262144) ((n / 4096) mod 64) ((n / 64) mod 64) (n mod 64) = Some [a; b; c].
Proof.
  intros n. subst n. unfold dec3. cbv zeta.
  destruct (sextets3 _ _ _ (Byte.to_N_bounded a) (Byte.to_N_bounded b)
              (Byte.to_N_bounded c)) as (-> & -> & ->).
  rewrite !Byte.of_to_N. reflexivity.
Qed.

Lemma dec2_enc (a b : byte) :
  let n := ((Byte.to_N a * 256 + Byte.to_N b) * 4)%N in
  dec2 (n / 4096) ((n / 64) mod 64) (n mod 64) = Some [a; b].
Proof.
  intros n. subst n. unfold dec2. cbv zeta.
  destruct (sextets2 _ _ (Byte.to_N_bounded a) (Byte.to_N_bounded b))
    as (-> & -> & ->).
  rewrite !Byte.of_to_N. reflexivity.
Qed.

Lemma dec1_enc (a : byte) :
  let n := (Byte.to_N a * 16)%N in
  dec1 (n / 64) (n mod 64) = Some [a].
Proof.
  intros n. subst n. unfold dec1. cbv zeta.
  destruct (sextets1 _ (Byte.to_N_bounded a)) as (-> & ->).
  rewrite !Byte.of_to_N. reflexivity.
Qed.

Lemma sextet_lt (n k : N) : (n < 64 * k -> n / k < 64)%N.
Proof. intros. destruct (N.eq_dec k 0%N) as [->|]; [lia|]. apply N.Div0.div_lt_upper_bound; lia. Qed.

Lemma mod64_lt (n : N) : (n mod 64 < 64)%N.
Proof. apply N.mod_lt. lia. Qed.

(** Decoding what [b64encode] produced gives the bytes back. *)
Lemma b64decode_b64encode (bs : bytes) : b64decode (b64encode bs) = Some bs.
Proof.
  assert (H : forall n (l : bytes), length l < n -> b64decode (b64encode l) = Some l).
  { induction n as [|n IH]; intros l Hl; [lia|].
    destruct l as [|a [|b [|c rest]]].
    - reflexivity.
    - pose proof (Byte.to_N_bounded a).
      cbn [b64encode enc1 b64decode].
      rewrite !b64_value_char by (try apply mod64_lt; apply sextet_lt; lia).
      cbn. apply dec1_enc.
    - pose proof (Byte.to_N_bounded a). pose proof (Byte.to_N_bounded b).
      cbn [b64encode enc2 b64decode].
      rewrite !b64_value_char by (try apply mod64_lt; apply sextet_lt; lia).
      cbn. rewrite b64_char_not_pad by apply mod64_lt. apply dec2_enc.
    - pose proof (Byte.to_N_bounded a). pose proof (Byte.to_N_bounded b).
      pose proof (Byte.to_N_bounded c).
      cbn [b64encode]. unfold enc3. rewrite !append_String, append_empty.
      cbn [b64decode].
      rewrite !b64_value_char by (try apply mod64_lt; apply sextet_lt; lia).
      cbn. rewrite b64_char_not_pad by apply mod64_lt.
      rewrite dec3_enc. cbn. rewrite IH by (cbn in Hl; lia). reflexivity. }
  apply (H (S (length bs))). lia.
Qed.
End Base64Facts.

(** ** Attribute access on constructed instances *)

Section Attributes.
Context {E : Type} (c : MediaClass) (u p d f r : pyval) (e : E).
Let st := {| self := instance c u p d f r; env := e |}.

Lemma getattr_url : getattr "url" st = (Ok u, st).
Proof. vm_compute. reflexivity. Qed.

Lemma getattr_path : getattr "path" st = (Ok p, st).
Proof. vm_compute. reflexivity. Qed.

Lemma getattr_data : getattr "data" st = (Ok d, st).
Proof. vm_compute. reflexivity. Qed.

Lemma getattr_format : getattr "format" st = (Ok f, st).
Proof. vm_compute. reflexivity. Qed.

(** The instance attribute is found first: the class attribute is shadowed. *)
Lemma getattr_resource_type : getattr "resource_type" st = (Ok r, st).
Proof. vm_compute. reflexivity. Qed.

(** No instance and no class has an attribute [file]. *)
Lemma getattr_file :
  getattr "file" st = (Raise (AttributeError (class_name c) "file"), st).
Proof. destruct c; vm_compute; reflexivity. Qed.

Lemma setattr_url v :
  setattr "url" v st = (Ok tt, {| self := instance c v p d f r; env := e |}).
Proof. vm_compute. reflexivity. Qed.

Lemma setattr_path v :
  setattr "path" v st = (Ok tt, {| self := instance c u v d f r; env := e |}).
Proof. vm_compute. reflexivity. Qed.

Lemma setattr_data v :
  setattr "data" v st = (Ok tt, {| self := instance c u p v f r; env := e |}).
Proof. vm_compute. reflexivity. Qed.

Lemma setattr_format v :
  setattr "format" v st = (Ok tt, {| self := instance c u p d v r; env := e |}).
Proof. vm_compute. reflexivity. Qed.

Lemma setattr_resource_type v :
  setattr "resource_type" v st = (Ok tt, {| self := instance c u p d f v; env := e |}).
Proof. vm_compute. reflexivity. Qed.

End Attributes.

Lemma bind_run {S A B} (m : M S A) (k : A -> M S B) (s : S) :
  (m ≫= k) s =
  match m s with (Ok a, s') => k a s' | (Raise x, s') => (Raise x, s') end.
Proof. reflexivity. Qed.

Lemma ret_run {S A} (a : A) (s : S) : (ret a : M S A) s = (Ok a, s).
Proof. reflexivity. Qed.

Lemma raise_run {S A} (x : exn) (s : S) : (raise x : M S A) s = (Raise x, s).
Proof. reflexivity. Qed.

Ltac attrs :=
  rewrite ?getattr_url, ?getattr_path, ?getattr_data, ?getattr_format,
    ?getattr_resource_type, ?getattr_file, ?setattr_url, ?setattr_path,
    ?setattr_data, ?setattr_format, ?setattr_resource_type.

(** Symbolic execution of a method body on an [instance]. *)
Ltac exec :=
  repeat first
    [ rewrite bind_run
    | progress attrs
    | rewrite ret_run
    | rewrite raise_run
    | progress cbv beta iota ].

(** The five assignments that open [__init__], on a fresh object. *)
Lemma init_assignments {E} (c : MediaClass) (u p d f : pyval) (e : E) (B : Type)
    (k : M (State E) B) :
  (setattr "url" u;; setattr "path" p;; setattr "data" d;; setattr "format" f;;
   setattr "resource_type" (VStr "media");; k)
    {| self := {| cls := c; dict := ∅ |}; env := e |}
  = k {| self := instance c u p d f (VStr "media"); env := e |}.
Proof.
  unfold mbind, M_bind, bind, setattr, modify. cbn [self env cls dict].
  apply (f_equal k), (f_equal (fun o => {| self := o; env := e |})).
  unfold instance. apply (f_equal (Build_obj c)). vm_compute. reflexivity.
Qed.

(** What [__init__] leaves behind: of the representations given non-empty, the
    first of url, path, data + format is kept and the others are dropped. *)
Lemma init_run {E} (c : MediaClass) (u p d f : pyval) (e : E) :
  MediaMessage.__init__ u p d f {| self := {| cls := c; dict := ∅ |}; env := e |} =
  if truthy u then
    (Ok tt, {| self := instance c u VNone VNone f (VStr "media"); env := e |})
  else if truthy p then
    (Ok tt, {| self := instance c VNone p VNone f (VStr "media"); env := e |})
  else if truthy d && truthy f then
    (Ok tt, {| self := instance c VNone VNone d f (VStr "media"); env := e |})
  else
    (Raise (ValueError "Must provide either url, path, or data + format."),
     {| self := instance c u p d f (VStr "media"); env := e |}).
Proof.
  unfold MediaMessage.__init__. rewrite init_assignments.
  destruct (truthy u); [|destruct (truthy p); [|destruct (truthy d && truthy f)]].
  - unfold MediaMessage._from_url. exec. reflexivity.
  - unfold MediaMessage._from_path. exec. reflexivity.
  - unfold MediaMessage._from_data. exec. reflexivity.
  - reflexivity.
Qed.

(** ** The lazy loaders, run on a constructed instance *)

Section Resolver.
Context (c : MediaClass) (u p d f r : pyval) (w : World).
Let st := {| self := instance c u p d f r; env := w |}.

Lemma read_run (o : obj) (s : string) :
  aiofiles_read (VStr s) {| self := o; env := w |} =
  match files w !! s with
  | Some b => (Ok b, {| self := o; env := count_read w |})
  | None => (Raise (OSError s), {| self := o; env := count_read w |})
  end.
Proof. unfold aiofiles_read, with_env. cbn [env self]. destruct (files w !! s); reflexivity. Qed.

Lemma fetch_run (o : obj) (s : string) :
  aiohttp_get (VStr s) {| self := o; env := w |} =
  match http w (fetches w) s with
  | Some b => (Ok b, {| self := o; env := count_fetch w |})
  | None => (Raise (ClientError s), {| self := o; env := count_fetch w |})
  end.
Proof. unfold aiohttp_get, with_env. cbn [env self]. destruct (http w (fetches w) s); reflexivity. Qed.

Lemma detect_format_run :
  MediaMessage._detect_format st =
  if truthy f then (Ok tt, st)
  else match d with
       | VBytes b =>
           (Ok tt, {| self := instance c u p d (VStr (last (split "/" (magic w b))))
                                (VStr (first (split "/" (magic w b))));
                      env := count_sniff w |})
       | _ => (Raise (TypeError "expected bytes"), st)
       end.
Proof.
  unfold MediaMessage._detect_format, st. exec.
  destruct (truthy f); [reflexivity|]. exec.
  destruct d; reflexivity.
Qed.

Lemma get_data_run :
  MediaMessage.get_data st =
  if truthy d then (Ok d, st)
  else if truthy p then (MediaMessage._load_data_from_path;; getattr "data") st
  else if truthy u then (MediaMessage._load_data_from_url;; getattr "data") st
  else (Raise (ValueError "No available media source"), st).
Proof.
  unfold MediaMessage.get_data, st. exec.
  destruct (truthy d); [reflexivity|]. exec.
  destruct (truthy p); [reflexivity|]. exec.
  destruct (truthy u); reflexivity.
Qed.


Lemma load_path_run :
  MediaMessage._load_data_from_path st =
  match p with
  | VStr s =>
      match files w !! s with
      | Some b =>
          MediaMessage._detect_format
            {| self := instance c u p (VBytes b) f r; env := count_read w |}
      | None => (Raise (OSError s), {| self := instance c u p d f r; env := count_read w |})
      end
  | _ => (Raise (TypeError "expected str, bytes or os.PathLike object"), st)
  end.
Proof.
  unfold MediaMessage._load_data_from_path, st. exec.
  destruct p; try reflexivity.
  rewrite read_run. destruct (files w !! s); [|reflexivity]. exec. reflexivity.
Qed.

Lemma load_url_run :
  MediaMessage._load_data_from_url st =
  match u with
  | VStr s =>
      match http w (fetches w) s with
      | Some b =>
          MediaMessage._detect_format
            {| self := instance c u p (VBytes b) f r; env := count_fetch w |}
      | None =>
          (Raise (ClientError s), {| self := instance c u p d f r; env := count_fetch w |})
      end
  | _ => (Raise (TypeError "Constructor parameter should be str"), st)
  end.
Proof.
  unfold MediaMessage._load_data_from_url, st. exec.
  destruct u; try reflexivity.
  rewrite fetch_run. destruct (http w (fetches w) s); [|reflexivity]. exec. reflexivity.
Qed.

Lemma get_url_run :
  MediaMessage.get_url st =
  if truthy u then (Ok u, st)
  else
    ((if truthy d then ret tt
      else if truthy p then MediaMessage._load_data_from_path
           else raise (ValueError "No available media source"));;
     resource_type ← getattr "resource_type";
     format ← getattr "format";
     data ← getattr "data";
     encoded ← b64encode_value data;
     ret (VStr ("data:" +:+ py_str resource_type +:+ "/" +:+ py_str format
                +:+ ";base64," +:+ encoded))) st.
Proof.
  unfold MediaMessage.get_url, st. exec.
  destruct (truthy u); [reflexivity|]. exec.
  destruct (truthy d); [reflexivity|]. exec. reflexivity.
Qed.

Lemma get_path_run :
  MediaMessage.get_path st =
  if truthy p then (Ok p, st)
  else
    ((if truthy d then ret tt
      else if truthy u then MediaMessage._load_data_from_url
           else raise (ValueError "No available media source"));;
     name ← NamedTemporaryFile;
     data ← getattr "data";
     write name data;;
     setattr "path" (VStr name);;
     getattr "path") st.
Proof.
  unfold MediaMessage.get_path, st. exec.
  destruct (truthy p); [reflexivity|]. exec.
  destruct (truthy d); [reflexivity|]. exec. reflexivity.
Qed.

(** Writing the held bytes to a fresh temporary file. *)
Lemma materialize_run (b : bytes) :
  (name ← NamedTemporaryFile;
   data ← getattr "data";
   write name data;;
   setattr "path" (VStr name);;
   getattr "path") {| self := instance c u p (VBytes b) f r; env := w |} =
  (Ok (VStr (tmp_name (tmp_count w))),
   {| self := instance c u (VStr (tmp_name (tmp_count w))) (VBytes b) f r;
      env := put_file (tmp_name (tmp_count w)) b
               (count_tmp (put_file (tmp_name (tmp_count w)) [] w)) |}).
Proof.
  rewrite bind_run. unfold NamedTemporaryFile at 1, with_env. cbn [env self]. exec.
  unfold write, with_env. cbn [env self]. exec. reflexivity.
Qed.

(** Rendering the held bytes as a [data:] URL. *)
Lemma data_url_run (b : bytes) :
  (resource_type ← getattr "resource_type";
   format ← getattr "format";
   data ← getattr "data";
   encoded ← b64encode_value data;
   ret (VStr ("data:" +:+ py_str resource_type +:+ "/" +:+ py_str format
              +:+ ";base64," +:+ encoded)))
    {| self := instance c u p (VBytes b) f r; env := w |} =
  (Ok (VStr ("data:" +:+ py_str r +:+ "/" +:+ py_str f +:+ ";base64," +:+ b64encode b)),
   {| self := instance c u p (VBytes b) f r; env := w |}).
Proof. exec. reflexivity. Qed.

End Resolver.

(** ** Construction *)

Lemma new_result (c : MediaClass) (url path : option string) (data : option bytes)
    (format : option string) :
  MediaMessage.new c url path data format =
  let u := of_opt_str url in
  let p := of_opt_str path in
  let d := of_opt_bytes data in
  let f := of_opt_str format in
  if truthy u then Ok (instance c u VNone VNone f (VStr "media"))
  else if truthy p then Ok (instance c VNone p VNone f (VStr "media"))
  else if truthy d && truthy f then Ok (instance c VNone VNone d f (VStr "media"))
  else Raise (ValueError "Must provide either url, path, or data + format.").
Proof.
  unfold MediaMessage.new. rewrite init_run. cbv zeta.
  destruct (truthy (of_opt_str url)); [reflexivity|].
  destruct (truthy (of_opt_str path)); [reflexivity|].
  destruct (truthy (of_opt_bytes data) && truthy (of_opt_str format)); reflexivity.
Qed.

(** C1, amended: construction raises its [ValueError] exactly when none of
    url, path and data + format is given non-empty; otherwise it succeeds,
    whatever else was passed, keeping the first of url, path, data + format that
    is non-empty and dropping the others. *)
Theorem C1_construction (c : MediaClass) (url path : option string)
    (data : option bytes) (format : option string) :
  let u := of_opt_str url in
  let p := of_opt_str path in
  let d := of_opt_bytes data in
  let f := of_opt_str format in
  (MediaMessage.new c url path data format
     = Raise (ValueError "Must provide either url, path, or data + format.")
   <-> truthy u = false /\ truthy p = false /\ truthy d && truthy f = false)
  /\ MediaMessage.new c url path data format =
     (if truthy u then Ok (instance c u VNone VNone f (VStr "media"))
      else if truthy p then Ok (instance c VNone p VNone f (VStr "media"))
      else if truthy d && truthy f then Ok (instance c VNone VNone d f (VStr "media"))
      else Raise (ValueError "Must provide either url, path, or data + format.")).
Proof.
  cbv zeta. rewrite new_result. cbv zeta. split; [|reflexivity].
  destruct (truthy (of_opt_str url)); [split; [discriminate|intros (? & _); discriminate]|].
  destruct (truthy (of_opt_str path)); [split; [discriminate|intros (_ & ? & _); discriminate]|].
  destruct (truthy (of_opt_bytes data) && truthy (of_opt_str format));
    [split; [discriminate|intros (_ & _ & ?); discriminate]|].
  split; auto.
Qed.

(** C1 as stated fails: a URL and a path together are two representations,
    and the construction succeeds (the URL wins, the path is dropped). *)
Lemma C1_two_representations_accepted :
  ~ Spec.fails_unless_exactly_one ImageMessage
      (Some "https://example.com/cat.png") (Some "/srv/cat.png") None None.
Proof.
  unfold Spec.fails_unless_exactly_one. intros [_ H].
  destruct H as [e He]; [cbn; lia|].
  rewrite new_result in He. discriminate He.
Qed.

(** ** Resolution and caching *)

Lemma truthy_str (s : string) : s <> "" -> truthy (VStr s) = true.
Proof. destruct s; [congruence|reflexivity]. Qed.

Lemma truthy_bytes (b : bytes) : b <> [] -> truthy (VBytes b) = true.
Proof. destruct b; [congruence|reflexivity]. Qed.

Lemma truthy_tmp_name (n : nat) : truthy (VStr (tmp_name n)) = true.
Proof. reflexivity. Qed.

Lemma detect_format_loaded (c : MediaClass) (u p f r : pyval) (b : bytes) (w : World) :
  MediaMessage._detect_format {| self := instance c u p (VBytes b) f r; env := w |} =
  let '(f', r', w') := detected f r w b in
  (Ok tt, {| self := instance c u p (VBytes b) f' r'; env := w' |}).
Proof.
  rewrite detect_format_run. unfold detected. destruct (truthy f); reflexivity.
Qed.

Lemma detected_counts (f r : pyval) (w : World) (b : bytes) :
  let '(_, _, w') := detected f r w b in
  reads w' = reads w /\ fetches w' = fetches w /\ tmp_count w' = tmp_count w.
Proof. unfold detected. destruct (truthy f); cbn; auto. Qed.

(** Once bytes and a path are held, every getter answers from the instance
    and leaves the object and the environment as they are. *)
Lemma resolved_is_cached (c : MediaClass) (u p f r : pyval) (b : bytes) (w : World) :
  truthy (VBytes b) = true -> truthy p = true ->
  let st := {| self := instance c u p (VBytes b) f r; env := w |} in
  MediaMessage.get_data st = (Ok (VBytes b), st) /\
  MediaMessage.get_path st = (Ok p, st) /\
  MediaMessage.get_url st =
    (Ok (if truthy u then u
         else VStr ("data:" +:+ py_str r +:+ "/" +:+ py_str f +:+ ";base64," +:+ b64encode b)),
     st).
Proof.
  intros Hb Hp st. subst st. repeat split.
  - rewrite get_data_run, Hb. reflexivity.
  - rewrite get_path_run, Hp. reflexivity.
  - rewrite get_url_run. destruct (truthy u); [reflexivity|].
    rewrite Hb. rewrite bind_run, ret_run. apply data_url_run.
Qed.

Lemma resolve_all_run (st : State World) :
  Spec.resolve_all st =
  match MediaMessage.get_data st with
  | (Ok d, st1) =>
      match MediaMessage.get_path st1 with
      | (Ok p, st2) =>
          match MediaMessage.get_url st2 with
          | (Ok u, st3) => (Ok (d, p, u), st3)
          | (Raise x, st3) => (Raise x, st3)
          end
      | (Raise x, st2) => (Raise x, st2)
      end
  | (Raise x, st1) => (Raise x, st1)
  end.
Proof.
  unfold Spec.resolve_all. rewrite bind_run.
  destruct (MediaMessage.get_data st) as [[d|x] st1]; [|reflexivity].
  rewrite bind_run.
  destruct (MediaMessage.get_path st1) as [[p|x] st2]; [|reflexivity].
  rewrite bind_run.
  destruct (MediaMessage.get_url st2) as [[u|x] st3]; reflexivity.
Qed.

(** From a URL: one fetch, no read. *)
Lemma resolved_once_url (c : MediaClass) (u : string) (format : option string)
    (w : World) (b : bytes) :
  u <> "" -> b <> [] -> http w (fetches w) u = Some b ->
  Amended.resolved_once c (Some u) None None format w 1 0.
Proof.
  intros Hu Hb Hw. apply truthy_str in Hu. apply truthy_bytes in Hb.
  pose proof (detect_format_loaded c (VStr u) VNone (of_opt_str format) (VStr "media") b
                (count_fetch w)) as Hdet.
  pose proof (detected_counts (of_opt_str format) (VStr "media") (count_fetch w) b) as Hcnt.
  destruct (detected (of_opt_str format) (VStr "media") (count_fetch w) b)
    as [[f' r'] w'].
  destruct Hcnt as (Hr & Hf & Ht).
  set (tmp := tmp_name (tmp_count w')).
  set (w2 := put_file tmp b (count_tmp (put_file tmp [] w'))).
  destruct (resolved_is_cached c (VStr u) (VStr tmp) f' r' b w2 Hb
              (truthy_tmp_name _)) as (Hd & Hp & Hurl).
  rewrite Hu in Hurl.
  set (st := {| self := instance c (VStr u) (VStr tmp) (VBytes b) f' r'; env := w2 |}) in *.
  exists (instance c (VStr u) VNone VNone (of_opt_str format) (VStr "media")),
    (VBytes b), (VStr tmp), (VStr u), st.
  split; [rewrite new_result; cbn [of_opt_str]; rewrite Hu; reflexivity|].
  split; [|split; [exact Hd|split; [exact Hp|split; [exact Hurl|]]]].
  - rewrite resolve_all_run, get_data_run.
    change (truthy VNone) with false. cbv iota. rewrite Hu.
    rewrite bind_run, load_url_run, Hw, Hdet. exec.
    rewrite get_path_run. change (truthy VNone) with false. cbv iota. rewrite Hb.
    rewrite bind_run, ret_run, materialize_run. fold tmp. fold w2. fold st.
    rewrite Hurl. reflexivity.
  - cbn [st w2 env reads fetches put_file count_tmp]. rewrite Hr, Hf. cbn.
    split; lia.
Qed.

(** From a path: one read, no fetch, and no temporary file. *)
Lemma resolved_once_path (c : MediaClass) (p : string) (format : option string)
    (w : World) (b : bytes) :
  p <> "" -> b <> [] -> files w !! p = Some b ->
  Amended.resolved_once c None (Some p) None format w 0 1.
Proof.
  intros Hp Hb Hw. apply truthy_str in Hp. apply truthy_bytes in Hb.
  pose proof (detect_format_loaded c VNone (VStr p) (of_opt_str format) (VStr "media") b
                (count_read w)) as Hdet.
  pose proof (detected_counts (of_opt_str format) (VStr "media") (count_read w) b) as Hcnt.
  destruct (detected (of_opt_str format) (VStr "media") (count_read w) b)
    as [[f' r'] w'].
  destruct Hcnt as (Hr & Hf & Ht).
  destruct (resolved_is_cached c VNone (VStr p) f' r' b w' Hb Hp) as (Hd & Hpath & Hurl).
  change (truthy VNone) with false in Hurl. cbv iota in Hurl.
  set (st := {| self := instance c VNone (VStr p) (VBytes b) f' r'; env := w' |}) in *.
  exists (instance c VNone (VStr p) VNone (of_opt_str format) (VStr "media")),
    (VBytes b), (VStr p),
    (VStr ("data:" +:+ py_str r' +:+ "/" +:+ py_str f' +:+ ";base64," +:+ b64encode b)), st.
  split; [rewrite new_result; cbn [of_opt_str]; change (truthy VNone) with false;
          cbv iota zeta; rewrite Hp; reflexivity|].
  split; [|split; [exact Hd|split; [exact Hpath|split; [exact Hurl|]]]].
  - rewrite resolve_all_run, get_data_run.
    change (truthy VNone) with false. cbv iota. rewrite Hp.
    rewrite bind_run, load_path_run, Hw, Hdet. unfold st at 1. exec. fold st.
    rewrite Hpath, Hurl. reflexivity.
  - cbn [st env]. rewrite Hr, Hf. cbn. split; lia.
Qed.

(** From bytes: nothing to fetch and nothing to read. *)
Lemma resolved_once_bytes (c : MediaClass) (b : bytes) (f : string) (w : World) :
  b <> [] -> f <> "" ->
  Amended.resolved_once c None None (Some b) (Some f) w 0 0.
Proof.
  intros Hb Hf. apply truthy_bytes in Hb. apply truthy_str in Hf.
  set (tmp := tmp_name (tmp_count w)).
  set (w2 := put_file tmp b (count_tmp (put_file tmp [] w))).
  destruct (resolved_is_cached c VNone (VStr tmp) (VStr f) (VStr "media") b w2 Hb
              (truthy_tmp_name _)) as (Hd & Hp & Hurl).
  change (truthy VNone) with false in Hurl. cbv iota in Hurl.
  set (st := {| self := instance c VNone (VStr tmp) (VBytes b) (VStr f) (VStr "media");
                env := w2 |}) in *.
  exists (instance c VNone VNone (VBytes b) (VStr f) (VStr "media")),
    (VBytes b), (VStr tmp),
    (VStr ("data:" +:+ py_str (VStr "media") +:+ "/" +:+ py_str (VStr f)
           +:+ ";base64," +:+ b64encode b)), st.
  split; [rewrite new_result; cbn [of_opt_str of_opt_bytes];
          change (truthy VNone) with false; cbv iota zeta; rewrite Hb, Hf; reflexivity|].
  split; [|split; [exact Hd|split; [exact Hp|split; [exact Hurl|]]]].
  - rewrite resolve_all_run, get_data_run, Hb.
    rewrite get_path_run. change (truthy VNone) with false. cbv iota. rewrite Hb.
    rewrite bind_run, ret_run, materialize_run. fold tmp. fold w2. fold st.
    rewrite Hurl. reflexivity.
  - cbn. split; lia.
Qed.

(** The fetches and reads counted apart give the one counter of the
    specification. *)
Lemma resolved_once_cached_after (c : MediaClass) (url path : option string)
    (data : option bytes) (format : option string) (w : World) (fetched read : nat) :
  Amended.resolved_once c url path data format w fetched read ->
  Spec.cached_after c url path data format w (fetched + read).
Proof.
  intros (o & d & p & u & st & Hnew & Hall & Hd & Hp & Hu & Hf & Hr).
  exists o, d, p, u, st. repeat (split; [assumption|]). lia.
Qed.

Lemma cached_after_bytes (c : MediaClass) (b : bytes) (f : string) (w : World) :
  b <> [] -> f <> "" ->
  Spec.cached_after c None None (Some b) (Some f) w 0.
Proof.
  intros Hb Hf.
  exact (resolved_once_cached_after _ _ _ _ _ _ 0 0 (resolved_once_bytes c b f w Hb Hf)).
Qed.

(** C2, amended: a resource built from one representation whose payload is
    not empty resolves once. After [get_data], [get_path] and [get_url] have
    each been called, calling any of them again returns the value it returned
    before and changes neither the object nor the environment; in total
    exactly one fetch and no read was made for a resource built from a URL,
    exactly one read and no fetch for a resource built from a path, and no
    fetch and no read for a resource built from bytes. *)
Theorem C2_resolved_once (c : MediaClass) (format : option string) (w : World)
    (b : bytes) :
  b <> [] ->
  (forall u, u <> "" -> http w (fetches w) u = Some b ->
     Amended.resolved_once c (Some u) None None format w 1 0) /\
  (forall p, p <> "" -> files w !! p = Some b ->
     Amended.resolved_once c None (Some p) None format w 0 1) /\
  (forall f, f <> "" ->
     Amended.resolved_once c None None (Some b) (Some f) w 0 0).
Proof.
  intros Hb. repeat split.
  - intros u Hu Hw. exact (resolved_once_url c u format w b Hu Hb Hw).
  - intros p Hp Hw. exact (resolved_once_path c p format w b Hp Hb Hw).
  - intros f Hf. exact (resolved_once_bytes c b f w Hb Hf).
Qed.

Lemma C2_resolved_once_witness :
  Amended.resolved_once ImageMessage (Some "https://example.com/cat.png") None None None
    Examples.world0 1 0 /\
  Amended.resolved_once ImageMessage None (Some "/srv/cat.png") None None
    Examples.world0 0 1 /\
  Amended.resolved_once ImageMessage None None (Some Examples.png) (Some "png")
    Examples.world0 0 0.
Proof.
  assert (Hb : Examples.png <> []) by discriminate.
  destruct (C2_resolved_once ImageMessage None Examples.world0 Examples.png Hb)
    as (Hu & Hp & _).
  destruct (C2_resolved_once ImageMessage (Some "png") Examples.world0 Examples.png Hb)
    as (_ & _ & Hd).
  split; [apply Hu; [discriminate|reflexivity]|].
  split; [apply Hp; [discriminate|vm_compute; reflexivity]|].
  apply Hd. discriminate.
Defined.

(** The counter is an exact count: a number of fetches and reads is reached
    by one run only. *)
Lemma cached_after_count (c : MediaClass) (url path : option string)
    (data : option bytes) (format : option string) (w : World) (n m : nat) :
  Spec.cached_after c url path data format w n ->
  Spec.cached_after c url path data format w m -> n = m.
Proof.
  intros (o & d & p & u & st & Hn & Hr & _ & _ & _ & Hc)
         (o' & d' & p' & u' & st' & Hn' & Hr' & _ & _ & _ & Hc').
  rewrite Hn in Hn'. injection Hn' as <-.
  rewrite Hr in Hr'. injection Hr' as <- <- <- <-. lia.
Qed.

(** C2 as stated fails: a resource built from bytes is resolved and cached
    without any fetch or read, so the count is zero, not one. *)
Lemma C2_bytes_need_no_fetch :
  ~ Spec.cached_after ImageMessage None None (Some Examples.png) (Some "png")
      Examples.world0 1.
Proof.
  intros H.
  assert (H0 : Spec.cached_after ImageMessage None None (Some Examples.png) (Some "png")
                 Examples.world0 0)
    by (apply cached_after_bytes; discriminate).
  pose proof (cached_after_count _ _ _ _ _ _ _ _ H H0). discriminate.
Qed.

(** ** The remote reference of a resource that holds none *)

(** C3, amended: on a resource built without a URL, [get_url] does not fail
    with "No available media source". Built from bytes + format it returns,
    without touching anything, the [data:] URL of the bytes held; built from a
    path it reads the file once and returns the [data:] URL of its content, or
    raises the [OSError] of a file that cannot be read. *)
Theorem C3_get_url_without_url (c : MediaClass) (path : option string)
    (data : option bytes) (format : option string) (o : obj) (w : World) :
  MediaMessage.new c None path data format = Ok o ->
  let st := {| self := o; env := w |} in
  (forall st', MediaMessage.get_url st
               <> (Raise (ValueError "No available media source"), st')) /\
  ((exists p, path = Some p /\ p <> "" /\
      match files w !! p with
      | Some b =>
          exists kind fmt st',
            MediaMessage.get_url st =
              (Ok (VStr ("data:" +:+ kind +:+ "/" +:+ fmt +:+ ";base64," +:+ b64encode b)),
               st') /\
            reads (env st') = S (reads w) /\ fetches (env st') = fetches w
      | None => exists st', MediaMessage.get_url st = (Raise (OSError p), st')
      end)
   \/
   (exists b f, data = Some b /\ format = Some f /\
      MediaMessage.get_url st =
        (Ok (VStr ("data:media/" +:+ f +:+ ";base64," +:+ b64encode b)), st))).
Proof.
  intros Hnew st. subst st. rewrite new_result in Hnew. cbv zeta in Hnew.
  change (truthy (of_opt_str None)) with false in Hnew. cbv iota in Hnew.
  destruct (truthy (of_opt_str path)) eqn:Hp.
  - injection Hnew as <-.
    destruct path as [p|]; [|discriminate Hp]. cbn [of_opt_str] in *.
    assert (Hne : p <> "") by (intros ->; discriminate Hp).
    rewrite get_url_run. change (truthy VNone) with false. cbv iota. rewrite Hp.
    rewrite bind_run, load_path_run.
    destruct (files w !! p) as [b|] eqn:Hw.
    + rewrite detect_format_loaded.
      pose proof (detected_counts (of_opt_str format) (VStr "media") (count_read w) b) as Hc.
      destruct (detected (of_opt_str format) (VStr "media") (count_read w) b)
        as [[f' r'] w'].
      destruct Hc as (Hr & Hf & _). rewrite data_url_run.
      split; [intros st'; discriminate|]. left. exists p. rewrite Hw.
      repeat split; try assumption.
      exists (py_str r'), (py_str f'), {| self := instance c VNone (VStr p) (VBytes b) f' r'; env := w' |}.
      repeat split; assumption.
    + split; [intros st'; discriminate|]. left. exists p. rewrite Hw.
      repeat split; try assumption. eexists. reflexivity.
  - destruct (truthy (of_opt_bytes data) && truthy (of_opt_str format)) eqn:Hd;
      [|discriminate Hnew].
    injection Hnew as <-. apply andb_prop in Hd as [Hd Hf].
    destruct data as [b|]; [|discriminate Hd].
    destruct format as [f|]; [|discriminate Hf]. cbn [of_opt_str of_opt_bytes] in *.
    rewrite get_url_run. change (truthy VNone) with false. cbv iota. rewrite Hd.
    rewrite bind_run, ret_run, data_url_run.
    split; [intros st'; discriminate|]. right. exists b, f. repeat split.
Qed.

Lemma C3_get_url_without_url_witness :
  let st := {| self := instance ImageMessage VNone VNone (VBytes Examples.png)
                         (VStr "png") (VStr "media");
               env := Examples.world0 |} in
  MediaMessage.get_url st = (Ok (VStr "data:media/png;base64,iVBORw=="), st).
Proof.
  assert (Hnew : MediaMessage.new ImageMessage None None (Some Examples.png) (Some "png")
                 = Ok (instance ImageMessage VNone VNone (VBytes Examples.png)
                         (VStr "png") (VStr "media")))
    by (vm_compute; reflexivity).
  destruct (C3_get_url_without_url ImageMessage None (Some Examples.png) (Some "png")
              _ Examples.world0 Hnew) as [_ [H|H]].
  - destruct H as (p & Hp & _). discriminate Hp.
  - destruct H as (b & f & Hb & Hf & H).
    injection Hb as <-. injection Hf as <-. exact H.
Defined.

(** C3 as stated fails: an image built from bytes holds no URL, and
    [get_url] returns a [data:] URL instead of failing. *)
Lemma C3_data_url_is_returned :
  ~ Spec.no_remote_fails ImageMessage None (Some Examples.png) (Some "png")
      Examples.world0.
Proof.
  intros H.
  destruct (H _ (new_result _ _ _ _ _)) as (e & st & He).
  cbv zeta in He. cbn [of_opt_str of_opt_bytes] in He.
  change (truthy VNone) with false in He. cbv iota in He.
  change (truthy (VBytes Examples.png) && truthy (VStr "png")) with true in He.
  cbv iota in He. rewrite get_url_run in He.
  change (truthy VNone) with false in He.
  change (truthy (VBytes Examples.png)) with true in He. cbv iota in He.
  rewrite bind_run, ret_run, data_url_run in He. discriminate He.
Qed.

(** ** The plain-text content of a message *)

Lemma to_plain_image (d : gmap string pyval) :
  to_plain (Media {| cls := ImageMessage; dict := d |}) = Ok "[ImageMessage]".
Proof. reflexivity. Qed.

(** The loop appends, in order, one piece per element to what it was given. *)
Lemma content_loop_pieces (elements : list MessageElement) :
  forall (acc : string) (plains : list string),
    IMMessage.comprehension to_plain elements = Ok plains ->
    IMMessage.content_loop acc elements =
      Ok (acc +:+ String.concat "" (zip_with plain_piece elements plains)).
Proof.
  induction elements as [|e rest IH]; intros acc plains H.
  - injection H as <-. cbn. rewrite append_empty_r. reflexivity.
  - cbn [IMMessage.comprehension] in H. cbn [IMMessage.content_loop].
    destruct (to_plain e) as [pl|x]; [|discriminate H]. cbn in H |- *.
    destruct (IMMessage.comprehension to_plain rest) as [pls|x]; [|discriminate H].
    cbn in H. injection H as <-.
    rewrite (IH _ pls eq_refl). f_equal. cbn [zip_with].
    assert (Hc : forall x l, String.concat "" (x :: l) = x +:+ String.concat "" l).
    { intros x [|y l]; cbn; [rewrite append_empty_r|]; reflexivity. }
    rewrite Hc. unfold plain_piece at 2.
    destruct (is_TextMessage e); rewrite ?append_assoc; reflexivity.
Qed.

(** C4, amended: the content of [Text("a"), Image(...), Text("b")] is
    "a", a line break, "[ImageMessage]b": the tag of an image is
    "[ImageMessage]". In general the content is the trimmed concatenation, in
    sequence order, of each element's plain text, followed by a line break for
    a text element and by nothing for any other. *)
Theorem C4_content (who : ChatSender) (raw : option jval) :
  (forall d : gmap string pyval,
     IMMessage.content
       {| sender := who;
          message_elements :=
            [TextMessage "a"; Media {| cls := ImageMessage; dict := d |}; TextMessage "b"];
          raw_message := raw |}
     = Ok ("a" +:+ newline +:+ "[ImageMessage]b")) /\
  (forall elements plains,
     IMMessage.comprehension to_plain elements = Ok plains ->
     IMMessage.content
       {| sender := who; message_elements := elements; raw_message := raw |}
     = Ok (strip (String.concat "" (zip_with plain_piece elements plains)))).
Proof.
  split.
  - intros d. reflexivity.
  - intros elements plains H. unfold IMMessage.content. cbn [message_elements].
    rewrite (content_loop_pieces _ "" _ H). reflexivity.
Qed.

Lemma C4_content_witness :
  IMMessage.content
    {| sender := Examples.alice;
       message_elements :=
         [TextMessage "a";
          Media (instance ImageMessage (VStr "https://example.com/cat.png") VNone
                   VNone VNone (VStr "media"));
          TextMessage "b"];
       raw_message := None |}
  = Ok (strip ("a" +:+ newline +:+ "[ImageMessage]" +:+ "b" +:+ newline)).
Proof.
  exact (proj2 (C4_content Examples.alice None)
           [TextMessage "a";
            Media (instance ImageMessage (VStr "https://example.com/cat.png") VNone
                     VNone VNone (VStr "media"));
            TextMessage "b"]
           ["a"; "[ImageMessage]"; "b"] eq_refl).
Defined.

(** C4 as stated fails: the content is not "a", a line break, "[Image]b". *)
Lemma C4_tag_is_not_Image :
  IMMessage.content
    {| sender := Examples.alice;
       message_elements :=
         [TextMessage "a";
          Media (instance ImageMessage (VStr "https://example.com/cat.png") VNone
                   VNone VNone (VStr "media"));
          TextMessage "b"];
       raw_message := None |}
  <> Ok (strip ("a" +:+ newline +:+ "[Image]b")).
Proof. vm_compute. discriminate. Qed.

(** ** The structured form of a media element *)

Lemma readonly_bind {S A B} (m : M S A) (k : A -> M S B) :
  Spec.readonly m -> (forall a, Spec.readonly (k a)) -> Spec.readonly (m ≫= k).
Proof.
  intros Hm Hk s. rewrite bind_run. specialize (Hm s).
  destruct (m s) as [[a|x] s']; cbn in Hm; subst s'; [apply Hk|reflexivity].
Qed.

Lemma readonly_ret {S A} (a : A) : Spec.readonly (ret a : M S A).
Proof. intros s. reflexivity. Qed.

Lemma readonly_raise {S A} (x : exn) : Spec.readonly (raise x : M S A).
Proof. intros s. reflexivity. Qed.

Lemma readonly_getattr {E} (name : string) : Spec.readonly (@getattr E name).
Proof.
  intros st. unfold getattr.
  destruct (dict (self st) !! name); [reflexivity|].
  destruct (class_attr (cls (self st)) name); reflexivity.
Qed.

Lemma readonly_b64encode_value {S} (v : pyval) : Spec.readonly (@b64encode_value S v).
Proof. destruct v; intros st; reflexivity. Qed.

Lemma readonly_fields {E} (type : jval) : Spec.readonly (@MediaMessage.fields E type).
Proof.
  unfold MediaMessage.fields.
  repeat first
    [ apply readonly_bind; [|intros ?]
    | apply readonly_getattr
    | apply readonly_b64encode_value
    | apply readonly_ret
    | match goal with |- Spec.readonly (if ?b then _ else _) => destruct b end ].
Qed.

Lemma readonly_media_to_dict {E} : Spec.readonly (@media_to_dict E).
Proof.
  intros st. unfold media_to_dict.
  destruct (cls (self st)); try apply readonly_fields.
  unfold VideoElement.to_dict.
  apply readonly_bind; [apply readonly_getattr|intros ?; apply readonly_ret].
Qed.

Lemma readonly_MediaMessage_to_dict {E} : Spec.readonly (@MediaMessage.to_dict E).
Proof.
  unfold MediaMessage.to_dict.
  apply readonly_bind; [apply readonly_getattr|intros ?; apply readonly_fields].
Qed.

(** The field map of a media element whose [type] is given. *)
Lemma fields_run {E} (type : jval) (c : MediaClass) (u p d f r : pyval) (e : E) :
  let st := {| self := instance c u p d f r; env := e |} in
  MediaMessage.fields type st =
  if truthy d then
    match d with
    | VBytes b =>
        (Ok (JDict [("type", type); ("url", JAtom u); ("path", JAtom p);
                    ("data", JStr (b64encode b)); ("format", JAtom f)]), st)
    | _ => (Raise (TypeError "a bytes-like object is required"), st)
    end
  else
    (Ok (JDict [("type", type); ("url", JAtom u); ("path", JAtom p);
                ("data", JNone); ("format", JAtom f)]), st).
Proof.
  intros st. subst st. unfold MediaMessage.fields. exec.
  destruct (truthy d); [|exec; reflexivity].
  destruct d; exec; reflexivity.
Qed.

(** C5, amended: no [to_dict] of a media element touches the network or the
    disk. For a voice, image or file element (and for the [to_dict] of the base
    class) the [data] field is [None] whenever no bytes are held, and for an
    image built from bytes and a format it is a base64 text that decodes to
    exactly those bytes. *)
Theorem C5_to_dict :
  (forall E : Type, Spec.readonly (@media_to_dict E) /\
                    Spec.readonly (@MediaMessage.to_dict E)) /\
  (forall c u p d f r, c <> VideoElement -> truthy d = false ->
     Spec.data_absent (to_dict (Media (instance c u p d f r))) /\
     Spec.data_absent (call MediaMessage.to_dict (instance c u p d f r))) /\
  (forall b f o, MediaMessage.new ImageMessage None None (Some b) (Some f) = Ok o ->
     exists s d, to_dict (Media o) = Ok (JDict d) /\
                 dict_get "data" d = Some (JStr s) /\ b64decode s = Some b).
Proof.
  split; [|split].
  - intros E. split; [apply readonly_media_to_dict|apply readonly_MediaMessage_to_dict].
  - intros c u p d f r Hc Hd. split.
    + unfold to_dict, call, media_to_dict. cbn [self cls instance].
      destruct c; try congruence;
        unfold VoiceMessage.to_dict, ImageMessage.to_dict, FileElement.to_dict;
        rewrite fields_run, Hd; eexists; split; reflexivity.
    + unfold call, MediaMessage.to_dict. exec. rewrite fields_run, Hd.
      eexists; split; reflexivity.
  - intros b f o Hnew. rewrite new_result in Hnew. cbv zeta in Hnew.
    cbn [of_opt_str of_opt_bytes] in Hnew.
    change (truthy VNone) with false in Hnew. cbv iota in Hnew.
    destruct (truthy (VBytes b)) eqn:Hb; [|discriminate Hnew].
    destruct (truthy (VStr f)); [|discriminate Hnew].
    injection Hnew as <-.
    unfold to_dict, call, media_to_dict. cbn [self cls instance].
    unfold ImageMessage.to_dict. rewrite fields_run, Hb.
    eexists _, _. split; [reflexivity|]. split; [reflexivity|].
    apply Base64Facts.b64decode_b64encode.
Qed.

Lemma C5_to_dict_witness :
  exists s d,
    to_dict (Media (instance ImageMessage VNone VNone (VBytes Examples.png)
                      (VStr "png") (VStr "media"))) = Ok (JDict d) /\
    dict_get "data" d = Some (JStr s) /\ b64decode s = Some Examples.png.
Proof.
  assert (Hnew : MediaMessage.new ImageMessage None None (Some Examples.png) (Some "png")
                 = Ok (instance ImageMessage VNone VNone (VBytes Examples.png)
                         (VStr "png") (VStr "media")))
    by (vm_compute; reflexivity).
  exact (proj2 (proj2 C5_to_dict) Examples.png "png" _ Hnew).
Defined.

(** C5 as stated fails for one media element: the [to_dict] of a video whose
    bytes are not loaded gives no field map with an absent [data]. *)
Lemma C5_video_has_no_data_field :
  ~ Spec.data_absent
      (to_dict (Media (instance VideoElement (VStr "https://example.com/clip.mp4")
                         VNone VNone VNone (VStr "media")))).
Proof. intros (d & H & _). vm_compute in H. discriminate H. Qed.

(** ** The structured form of a video element *)

(** C8 evaluated: [to_dict] of a video element raises [AttributeError]: the
    attribute [file] it reads is never assigned, whatever the element was
    constructed from. *)
Theorem C8_video_to_dict_raises (url path : option string) (data : option bytes)
    (format : option string) (o : obj) :
  MediaMessage.new VideoElement url path data format = Ok o ->
  to_dict (Media o) = Raise (AttributeError "VideoElement" "file").
Proof.
  intros Hnew. rewrite new_result in Hnew. cbv zeta in Hnew.
  assert (H : exists u p d f r, o = instance VideoElement u p d f r).
  { destruct (truthy (of_opt_str url)); [injection Hnew as <-; eauto 6|].
    destruct (truthy (of_opt_str path)); [injection Hnew as <-; eauto 6|].
    destruct (truthy (of_opt_bytes data) && truthy (of_opt_str format));
      [injection Hnew as <-; eauto 6|discriminate Hnew]. }
  destruct H as (u & p & d & f & r & ->).
  unfold to_dict, call, media_to_dict. cbn [self cls instance].
  unfold VideoElement.to_dict. exec. reflexivity.
Qed.

Lemma C8_video_to_dict_raises_witness :
  to_dict (Media (instance VideoElement (VStr "https://example.com/clip.mp4")
                    VNone VNone VNone (VStr "media")))
  = Raise (AttributeError "VideoElement" "file").
Proof.
  assert (Hnew : MediaMessage.new VideoElement (Some "https://example.com/clip.mp4")
                   None None None
                 = Ok (instance VideoElement (VStr "https://example.com/clip.mp4")
                         VNone VNone VNone (VStr "media")))
    by (vm_compute; reflexivity).
  exact (C8_video_to_dict_raises (Some "https://example.com/clip.mp4") None None None
           _ Hnew).
Defined.


(** Every other element has a structured form. *)
Lemma to_dict_defined_but_video (e : MessageElement) :
  (forall o, e = Media o ->
     exists c u p data f r,
       c <> VideoElement /\ o = instance c u p (of_opt_bytes data) f r) ->
  exists j, to_dict e = Ok j.
Proof.
  intros H. destruct e; try (eexists; reflexivity).
  destruct (H o eq_refl) as (c & u & p & data & f & r & Hc & ->).
  unfold to_dict, call, media_to_dict. cbn [self cls instance].
  destruct c; try congruence;
    unfold VoiceMessage.to_dict, ImageMessage.to_dict, FileElement.to_dict;
    rewrite fields_run; destruct data as [[|x b]|]; eexists; reflexivity.
Qed.

(** ** The wire request of the Gemini adapter *)

(** The comprehension under [# Remove None fields] keeps all three top-level
    entries, none of which is [None], and does not look inside them. *)
Lemma chat_data_generationConfig (req : GeminiAdapter.LLMChatRequest) :
  dict_get "generationConfig" (GeminiAdapter.chat_data req) =
  Some (JDict
    [("temperature", GeminiAdapter.of_opt JFloat (GeminiAdapter.temperature req));
     ("topP", GeminiAdapter.of_opt JFloat (GeminiAdapter.top_p req));
     ("topK", JInt 40);
     ("maxOutputTokens", GeminiAdapter.of_opt JInt (GeminiAdapter.max_tokens req));
     ("stopSequences",
      GeminiAdapter.of_opt (fun l => JList (map JStr l)) (GeminiAdapter.stop req))]).
Proof. reflexivity. Qed.

(** C6 evaluated: with [stop = None] the wire request still carries the
    field [stopSequences] in its [generationConfig], holding [None]. *)
Theorem C6_stop_None_is_serialised (req : GeminiAdapter.LLMChatRequest) :
  GeminiAdapter.stop req = None ->
  exists cfg,
    dict_get "generationConfig" (GeminiAdapter.chat_data req) = Some (JDict cfg) /\
    dict_get "stopSequences" cfg = Some JNone /\
    ~ Spec.no_stop_field (GeminiAdapter.chat_data req).
Proof.
  intros Hstop. eexists. split; [apply chat_data_generationConfig|].
  rewrite Hstop. split; [reflexivity|].
  intros [_ H]. specialize (H _ (chat_data_generationConfig req)).
  rewrite Hstop in H. discriminate H.
Qed.

Lemma C6_stop_None_is_serialised_witness :
  exists cfg,
    dict_get "generationConfig" (GeminiAdapter.chat_data Examples.request0)
      = Some (JDict cfg) /\
    dict_get "stopSequences" cfg = Some JNone /\
    ~ Spec.no_stop_field (GeminiAdapter.chat_data Examples.request0).
Proof. exact (C6_stop_None_is_serialised Examples.request0 eq_refl). Defined.

(** A populated stop list passes through unchanged. *)
Lemma stop_list_passes_through (req : GeminiAdapter.LLMChatRequest) (l : list string) :
  GeminiAdapter.stop req = Some l ->
  exists cfg,
    dict_get "generationConfig" (GeminiAdapter.chat_data req) = Some (JDict cfg) /\
    dict_get "stopSequences" cfg = Some (JList (map JStr l)).
Proof.
  intros Hstop. eexists. split; [apply chat_data_generationConfig|].
  rewrite Hstop. reflexivity.
Qed.

(** ** Sending a message to Telegram *)






(** ** The kind of a media object over its lifetime *)

Lemma readonly_data_url :
  Spec.readonly
    (resource_type ← getattr "resource_type";
     format ← getattr "format";
     data ← getattr "data";
     encoded ← b64encode_value data;
     ret (VStr ("data:" +:+ py_str resource_type +:+ "/" +:+ py_str format
                +:+ ";base64," +:+ encoded)) : M (State World) pyval).
Proof.
  repeat first
    [ apply readonly_bind; [|intros ?]
    | apply readonly_getattr
    | apply readonly_b64encode_value
    | apply readonly_ret ].
Qed.

Lemma readonly_media_to_plain {E} : Spec.readonly (@media_to_plain E).
Proof.
  intros st. unfold media_to_plain.
  destruct (cls (self st)); try reflexivity.
  unfold FileElement.to_plain.
  repeat first
    [ apply readonly_bind; [|intros ?]
    | apply readonly_getattr
    | apply readonly_ret
    | match goal with |- Spec.readonly (if ?b then _ else _) => destruct b end ].
Qed.

Section Kind.
Context (c : MediaClass) (f r : pyval) (n : nat) (Hf : truthy f = true).

Lemma keeps_intro (u p d : pyval) (w : World) :
  sniffs w = n -> Spec.keeps c f r n {| self := instance c u p d f r; env := w |}.
Proof. intros H. exists u, p, d, w. split; [reflexivity|exact H]. Qed.

Lemma keeps_load_path (u p d : pyval) (w : World) :
  sniffs w = n ->
  Spec.keeps c f r n
    (snd (MediaMessage._load_data_from_path {| self := instance c u p d f r; env := w |})).
Proof.
  intros Hn. rewrite load_path_run.
  destruct p; try (apply keeps_intro; exact Hn).
  destruct (files w !! s); [|apply keeps_intro; exact Hn].
  rewrite detect_format_run, Hf. apply keeps_intro. exact Hn.
Qed.

Lemma keeps_load_url (u p d : pyval) (w : World) :
  sniffs w = n ->
  Spec.keeps c f r n
    (snd (MediaMessage._load_data_from_url {| self := instance c u p d f r; env := w |})).
Proof.
  intros Hn. rewrite load_url_run.
  destruct u; try (apply keeps_intro; exact Hn).
  destruct (http w (fetches w) s); [|apply keeps_intro; exact Hn].
  rewrite detect_format_run, Hf. apply keeps_intro. exact Hn.
Qed.

Lemma keeps_materialize (u p d : pyval) (w : World) :
  sniffs w = n ->
  Spec.keeps c f r n
    (snd ((name ← NamedTemporaryFile;
           data ← getattr "data";
           write name data;;
           setattr "path" (VStr name);;
           getattr "path") {| self := instance c u p d f r; env := w |})).
Proof.
  intros Hn. rewrite bind_run. unfold NamedTemporaryFile at 1, with_env.
  cbn [env self]. exec.
  destruct d; unfold write, with_env; cbn [env self]; exec;
    apply keeps_intro; exact Hn.
Qed.

Lemma keeps_bind {A B} (m : M (State World) A) (k : A -> M (State World) B)
    (st : State World) :
  Spec.keeps c f r n (snd (m st)) ->
  (forall a st', Spec.keeps c f r n st' -> Spec.keeps c f r n (snd (k a st'))) ->
  Spec.keeps c f r n (snd ((m ≫= k) st)).
Proof.
  intros Hm Hk. rewrite bind_run.
  destruct (m st) as [[a|x] st']; cbn [snd] in *; [apply Hk|]; exact Hm.
Qed.

Lemma keeps_readonly {A} (m : M (State World) A) (st : State World) :
  Spec.readonly m -> Spec.keeps c f r n st -> Spec.keeps c f r n (snd (m st)).
Proof. intros Hm Hst. rewrite Hm. exact Hst. Qed.

Lemma keeps_ensure_data (u p d : pyval) (w : World) :
  sniffs w = n ->
  Spec.keeps c f r n
    (snd ((if truthy d then ret tt
           else if truthy p then MediaMessage._load_data_from_path
                else raise (ValueError "No available media source"))
            {| self := instance c u p d f r; env := w |})).
Proof.
  intros Hn. destruct (truthy d); [apply keeps_intro; exact Hn|].
  destruct (truthy p); [apply keeps_load_path|apply keeps_intro]; exact Hn.
Qed.

Lemma keeps_get_url (st : State World) :
  Spec.keeps c f r n st -> Spec.keeps c f r n (snd (MediaMessage.get_url st)).
Proof.
  intros (u & p & d & w & -> & Hn). rewrite get_url_run.
  destruct (truthy u); [apply keeps_intro; exact Hn|].
  apply keeps_bind; [apply keeps_ensure_data; exact Hn|].
  intros _ st' Hst'. apply keeps_readonly; [apply readonly_data_url|exact Hst'].
Qed.

(** What [get_url] returns in such a state: the URL held, or a [data:] URL
    whose type is the kind [r] and whose subtype is the format [f]. *)
Lemma get_url_value (st : State World) (v : pyval) :
  Spec.keeps c f r n st ->
  fst (MediaMessage.get_url st) = Ok v ->
  (fst (getattr "url" st) = Ok v /\ truthy v = true) \/
  (exists b, v = VStr ("data:" +:+ py_str r +:+ "/" +:+ py_str f
                       +:+ ";base64," +:+ b64encode b)).
Proof.
  intros (u & p & d & w & -> & Hn). rewrite get_url_run.
  destruct (truthy u) eqn:Hu.
  - cbn [fst]. intros [= <-]. left. rewrite getattr_url. split; [reflexivity|exact Hu].
  - rewrite bind_run. pose proof (keeps_ensure_data u p d w Hn) as Hk.
    destruct ((if truthy d then ret tt
               else if truthy p then MediaMessage._load_data_from_path
                    else raise (ValueError "No available media source"))
                {| self := instance c u p d f r; env := w |}) as [[[]|x] st'];
      [|discriminate].
    cbn [snd] in Hk. destruct Hk as (u' & p' & d' & w' & -> & _).
    destruct d' as [|s|b]; exec; cbn [fst]; try discriminate.
    intros [= <-]. right. exists b. reflexivity.
Qed.

Lemma keeps_get_path (st : State World) :
  Spec.keeps c f r n st -> Spec.keeps c f r n (snd (MediaMessage.get_path st)).
Proof.
  intros (u & p & d & w & -> & Hn). rewrite get_path_run.
  destruct (truthy p); [apply keeps_intro; exact Hn|].
  apply keeps_bind.
  - destruct (truthy d); [apply keeps_intro; exact Hn|].
    destruct (truthy u); [apply keeps_load_url|apply keeps_intro]; exact Hn.
  - intros _ st' (u' & p' & d' & w' & -> & Hn'). apply keeps_materialize. exact Hn'.
Qed.

Lemma keeps_get_data (st : State World) :
  Spec.keeps c f r n st -> Spec.keeps c f r n (snd (MediaMessage.get_data st)).
Proof.
  intros (u & p & d & w & -> & Hn). rewrite get_data_run.
  destruct (truthy d); [apply keeps_intro; exact Hn|].
  destruct (truthy p).
  { apply keeps_bind; [apply keeps_load_path; exact Hn|].
    intros _ st' Hst'. apply keeps_readonly; [apply readonly_getattr|exact Hst']. }
  destruct (truthy u); [|apply keeps_intro; exact Hn].
  apply keeps_bind; [apply keeps_load_url; exact Hn|].
  intros _ st' Hst'. apply keeps_readonly; [apply readonly_getattr|exact Hst'].
Qed.

Lemma keeps_step (st : State World) (op : Op) :
  Spec.keeps c f r n st -> Spec.keeps c f r n (step st op).
Proof.
  intros H. destruct op; cbn [step].
  - apply keeps_get_url, H.
  - apply keeps_get_path, H.
  - apply keeps_get_data, H.
  - apply keeps_readonly; [apply readonly_media_to_dict|exact H].
  - apply keeps_readonly; [apply readonly_media_to_plain|exact H].
Qed.

Lemma keeps_lifetime (ops : list Op) :
  forall st, Spec.keeps c f r n st -> Spec.keeps c f r n (lifetime ops st).
Proof.
  induction ops as [|op ops IH]; intros st H; [exact H|].
  cbn [lifetime fold_left]. apply IH, keeps_step, H.
Qed.

End Kind.

(** C9, amended: a media object constructed with a non-empty format (an
    empty string is no format to [if self.format]) keeps the kind "media" and
    its format for its whole lifetime, whatever its class declares. The
    instance attribute that [__init__] assigns hides the class attribute, and
    no call of [get_url], [get_path], [get_data], [to_dict] or [to_plain],
    returning or raising, runs the format detection that alone would change
    it. What [get_url] synthesises therefore starts "data:media/", for an
    object built from bytes in particular. *)
Theorem C9_kind_stays_media (c : MediaClass) (url path : option string)
    (data : option bytes) (f : string) (o : obj) :
  f <> "" ->
  MediaMessage.new c url path data (Some f) = Ok o ->
  class_attr c "resource_type" <> Some (VStr "media") /\
  (forall (ops : list Op) (w : World),
     let st := lifetime ops {| self := o; env := w |} in
     fst (getattr "resource_type" st) = Ok (VStr "media") /\
     fst (getattr "format" st) = Ok (VStr f) /\
     sniffs (env st) = sniffs w /\
     forall v, fst (MediaMessage.get_url st) = Ok v ->
       (fst (getattr "url" st) = Ok v /\ truthy v = true) \/
       (exists b, v = VStr ("data:media/" +:+ f +:+ ";base64," +:+ b64encode b))) /\
  (forall b w, truthy (of_opt_str url) = false -> truthy (of_opt_str path) = false ->
     data = Some b ->
     fst (MediaMessage.get_url {| self := o; env := w |})
     = Ok (VStr ("data:media/" +:+ f +:+ ";base64," +:+ b64encode b))).
Proof.
  intros Hf Hnew. apply truthy_str in Hf.
  split; [destruct c; discriminate|].
  rewrite new_result in Hnew. cbv zeta in Hnew. cbn [of_opt_str] in Hnew.
  assert (Hshape : exists u p d, o = instance c u p d (VStr f) (VStr "media")).
  { destruct (truthy (of_opt_str url)); [injection Hnew as <-; eauto|].
    destruct (truthy (of_opt_str path)); [injection Hnew as <-; eauto|].
    destruct (truthy (of_opt_bytes data) && truthy (VStr f));
      [injection Hnew as <-; eauto|discriminate Hnew]. }
  split.
  - intros ops w st. destruct Hshape as (u & p & d & ->).
    assert (Hk : Spec.keeps c (VStr f) (VStr "media") (sniffs w) st)
      by (apply keeps_lifetime; [exact Hf|apply keeps_intro; reflexivity]).
    pose proof (fun v => get_url_value c (VStr f) (VStr "media") (sniffs w) Hf st v Hk)
      as Hv.
    destruct Hk as (u' & p' & d' & w' & Hst & Hn). rewrite Hst in *.
    rewrite getattr_resource_type, getattr_format. repeat split; [exact Hn|].
    exact Hv.
  - intros b w Hu Hp ->. rewrite Hu, Hp in Hnew. cbn [of_opt_bytes] in Hnew.
    destruct (truthy (VBytes b)) eqn:Hb; [|discriminate Hnew]. rewrite Hf in Hnew.
    injection Hnew as <-.
    rewrite get_url_run. change (truthy VNone) with false. cbv iota. rewrite Hb.
    rewrite bind_run, ret_run, data_url_run. reflexivity.
Qed.

Lemma C9_kind_stays_media_witness :
  let o := instance ImageMessage VNone VNone (VBytes Examples.png) (VStr "png")
             (VStr "media") in
  let st := lifetime [GetData; GetPath; GetUrl; ToDict]
              {| self := o; env := Examples.world0 |} in
  class_attr ImageMessage "resource_type" = Some (VStr "image") /\
  fst (getattr "resource_type" st) = Ok (VStr "media") /\
  fst (MediaMessage.get_url {| self := o; env := Examples.world0 |})
  = Ok (VStr "data:media/png;base64,iVBORw==").
Proof.
  assert (Hf : "png" <> "") by discriminate.
  assert (Hnew : MediaMessage.new ImageMessage None None (Some Examples.png) (Some "png")
                 = Ok (instance ImageMessage VNone VNone (VBytes Examples.png)
                         (VStr "png") (VStr "media")))
    by (vm_compute; reflexivity).
  destruct (C9_kind_stays_media ImageMessage None None (Some Examples.png) "png" _
              Hf Hnew) as (_ & Hlife & Hurl).
  split; [reflexivity|]. split.
  - exact (proj1 (Hlife [GetData; GetPath; GetUrl; ToDict] Examples.world0)).
  - exact (Hurl Examples.png Examples.world0 eq_refl eq_refl eq_refl).
Defined.

(** With an empty format the detection does run, and sets the kind. *)
Lemma empty_format_is_detected :
  let o := instance ImageMessage (VStr "https://example.com/cat.png") VNone VNone
             (VStr "") (VStr "media") in
  MediaMessage.new ImageMessage (Some "https://example.com/cat.png") None None (Some "")
    = Ok o /\
  fst (getattr "resource_type" (lifetime [GetData] {| self := o; env := Examples.world0 |}))
    = Ok (VStr "image").
Proof.
  split; [apply new_result|].
  cbn [lifetime fold_left step]. rewrite get_data_run.
  change (truthy VNone) with false. cbv iota.
  change (truthy (VStr "https://example.com/cat.png")) with true. cbv iota.
  rewrite bind_run, load_url_run.
  change (http Examples.world0 (fetches Examples.world0) "https://example.com/cat.png")
    with (Some Examples.png).
  cbv iota. rewrite detect_format_run. change (truthy (VStr "")) with false.
  cbv iota. exec. reflexivity.
Qed.

(** C9 as stated fails: an image constructed with the format [""] and a
    URL has its format supplied, yet the first [get_data] runs the detection and
    the kind becomes "image". *)
Lemma C9_empty_format_changes_kind :
  ~ Spec.kind_stays_media ImageMessage (Some "https://example.com/cat.png") None None
      "" Examples.world0.
Proof.
  intros H. destruct empty_format_is_detected as [Hnew Hkind].
  rewrite (H _ [GetData] Hnew) in Hkind. discriminate Hkind.
Qed.

(** ** Empty bytes *)

Lemma forget_empty_instance (c : MediaClass) (u p d f r : pyval) :
  Spec.forget_empty (instance c u p d f r) =
  instance c u p (match d with VBytes [] => VNone | _ => d end) f r.
Proof.
  unfold Spec.forget_empty.
  assert (H : dict (instance c u p d f r) !! "data" = Some d)
    by (vm_compute; reflexivity).
  rewrite H. destruct d as [| |[|x b]]; reflexivity.
Qed.

Lemma same_outcome_refl {A} (x : result A * State World) : Spec.same_outcome x x.
Proof. repeat split. Qed.

Lemma same_unchanged {A} (x : result A) (c : MediaClass) (u p f r : pyval) (w : World) :
  Spec.same_outcome (x, {| self := instance c u p (VBytes []) f r; env := w |})
    (x, {| self := instance c u p VNone f r; env := w |}).
Proof.
  split; [reflexivity|]. split; [reflexivity|].
  cbn [snd self]. rewrite !forget_empty_instance. reflexivity.
Qed.

Section EmptyData.
Context (c : MediaClass) (u p f r : pyval) (w : World).
Let empty := {| self := instance c u p (VBytes []) f r; env := w |}.
Let none := {| self := instance c u p VNone f r; env := w |}.

Lemma same_load_path :
  Spec.same_outcome (MediaMessage._load_data_from_path empty)
    (MediaMessage._load_data_from_path none).
Proof.
  unfold empty, none. rewrite !load_path_run.
  destruct p as [|s|b]; try apply same_unchanged.
  destruct (files w !! s); [apply same_outcome_refl|].
  split; [reflexivity|]. split; [reflexivity|].
  cbn [snd self]. rewrite !forget_empty_instance. reflexivity.
Qed.

Lemma same_load_url :
  Spec.same_outcome (MediaMessage._load_data_from_url empty)
    (MediaMessage._load_data_from_url none).
Proof.
  unfold empty, none. rewrite !load_url_run.
  destruct u as [|s|b]; try apply same_unchanged.
  destruct (http w (fetches w) s); [apply same_outcome_refl|].
  split; [reflexivity|]. split; [reflexivity|].
  cbn [snd self]. rewrite !forget_empty_instance. reflexivity.
Qed.

(** After a load both runs stand in the same state, or both have raised. *)
Lemma same_bind_loaded {A} (m : M (State World) unit) (k : M (State World) A) :
  Spec.same_outcome (m empty) (m none) ->
  (forall st1 st2, m empty = (Ok tt, st1) -> m none = (Ok tt, st2) -> st1 = st2) ->
  Spec.same_outcome ((m;; k) empty) ((m;; k) none).
Proof.
  intros Hsame Hok. rewrite !bind_run.
  destruct (m empty) as [[[]|x] st1] eqn:H1, (m none) as [[[]|y] st2] eqn:H2;
    destruct Hsame as (Hr & He & Ho); cbn [fst snd] in *; try discriminate.
  - rewrite (Hok st1 st2 eq_refl eq_refl). apply same_outcome_refl.
  - injection Hr as ->. split; [reflexivity|]. split; assumption.
Qed.

Lemma loaded_path_equal (st1 st2 : State World) :
  MediaMessage._load_data_from_path empty = (Ok tt, st1) ->
  MediaMessage._load_data_from_path none = (Ok tt, st2) -> st1 = st2.
Proof.
  unfold empty, none. rewrite !load_path_run.
  destruct p as [|s|b]; try discriminate.
  destruct (files w !! s); [|discriminate]. congruence.
Qed.

Lemma loaded_url_equal (st1 st2 : State World) :
  MediaMessage._load_data_from_url empty = (Ok tt, st1) ->
  MediaMessage._load_data_from_url none = (Ok tt, st2) -> st1 = st2.
Proof.
  unfold empty, none. rewrite !load_url_run.
  destruct u as [|s|b]; try discriminate.
  destruct (http w (fetches w) s); [|discriminate]. congruence.
Qed.

Lemma same_get_data :
  Spec.same_outcome (MediaMessage.get_data empty) (MediaMessage.get_data none).
Proof.
  unfold empty, none. rewrite !get_data_run.
  change (truthy (VBytes [])) with false. change (truthy VNone) with false. cbv iota.
  destruct (truthy p);
    [apply same_bind_loaded; [apply same_load_path|apply loaded_path_equal]|].
  destruct (truthy u);
    [apply same_bind_loaded; [apply same_load_url|apply loaded_url_equal]|].
  apply same_unchanged.
Qed.

Lemma same_get_path :
  Spec.same_outcome (MediaMessage.get_path empty) (MediaMessage.get_path none).
Proof.
  unfold empty, none. rewrite !get_path_run.
  change (truthy (VBytes [])) with false. change (truthy VNone) with false. cbv iota.
  destruct (truthy p); [apply same_unchanged|].
  destruct (truthy u).
  - apply same_bind_loaded; [apply same_load_url|apply loaded_url_equal].
  - rewrite !bind_run, !raise_run. apply same_unchanged.
Qed.

Lemma same_get_url :
  Spec.same_outcome (MediaMessage.get_url empty) (MediaMessage.get_url none).
Proof.
  unfold empty, none. rewrite !get_url_run.
  change (truthy (VBytes [])) with false. change (truthy VNone) with false. cbv iota.
  destruct (truthy u); [apply same_unchanged|].
  destruct (truthy p).
  - apply same_bind_loaded; [apply same_load_path|apply loaded_path_equal].
  - rewrite !bind_run, !raise_run. apply same_unchanged.
Qed.

End EmptyData.

(** With empty bytes cached and a path held, [get_data] and (without a URL)
    [get_url] open the file. *)
Lemma empty_data_is_read (c : MediaClass) (u f r : pyval) (w : World) (s : string) :
  s <> "" ->
  let empty := {| self := instance c u (VStr s) (VBytes []) f r; env := w |} in
  reads (env (snd (MediaMessage.get_data empty))) = S (reads w) /\
  (truthy u = false -> reads (env (snd (MediaMessage.get_url empty))) = S (reads w)).
Proof.
  intros Hs empty. subst empty. apply truthy_str in Hs.
  pose proof (detected_counts f r (count_read w)) as Hc.
  split; [|intros Hu].
  - rewrite get_data_run. change (truthy (VBytes [])) with false. cbv iota.
    rewrite Hs, bind_run, load_path_run.
    destruct (files w !! s) as [b|]; [|reflexivity].
    rewrite detect_format_loaded. specialize (Hc b).
    destruct (detected f r (count_read w) b) as [[f' r'] w'].
    destruct Hc as (Hr & _). exec. cbn [snd env]. exact Hr.
  - rewrite get_url_run, Hu. change (truthy (VBytes [])) with false. cbv iota.
    rewrite Hs, bind_run, load_path_run.
    destruct (files w !! s) as [b|]; [|reflexivity].
    rewrite detect_format_loaded. specialize (Hc b).
    destruct (detected f r (count_read w) b) as [[f' r'] w'].
    destruct Hc as (Hr & _). rewrite data_url_run. cbn [snd env]. exact Hr.
Qed.

(** With empty bytes cached, no path and a URL held, [get_data] and
    [get_path] go to the network. *)
Lemma empty_data_is_fetched (c : MediaClass) (p f r : pyval) (w : World) (s : string) :
  s <> "" -> truthy p = false ->
  let empty := {| self := instance c (VStr s) p (VBytes []) f r; env := w |} in
  fetches (env (snd (MediaMessage.get_data empty))) = S (fetches w) /\
  fetches (env (snd (MediaMessage.get_path empty))) = S (fetches w).
Proof.
  intros Hs Hp empty. subst empty. apply truthy_str in Hs.
  pose proof (detected_counts f r (count_fetch w)) as Hc.
  split.
  - rewrite get_data_run. change (truthy (VBytes [])) with false. cbv iota.
    rewrite Hp, Hs, bind_run, load_url_run.
    destruct (http w (fetches w) s) as [b|]; [|reflexivity].
    rewrite detect_format_loaded. specialize (Hc b).
    destruct (detected f r (count_fetch w) b) as [[f' r'] w'].
    destruct Hc as (_ & Hf & _). exec. cbn [snd env]. exact Hf.
  - rewrite get_path_run, Hp. change (truthy (VBytes [])) with false. cbv iota.
    rewrite Hs, bind_run, load_url_run.
    destruct (http w (fetches w) s) as [b|]; [|reflexivity].
    rewrite detect_format_loaded. specialize (Hc b).
    destruct (detected f r (count_fetch w) b) as [[f' r'] w'].
    destruct Hc as (_ & Hf & _). rewrite materialize_run. cbn [snd env]. exact Hf.
Qed.

(** C10: empty bytes count as no bytes. Constructing a media element from
    [b""] and a format raises the construction error, and on an object whose
    cached [data] is [b""] each of [get_data], [get_path] and [get_url] does
    what it does when [data] is [None]: the same result or exception, the same
    reads, fetches and files, the same object. None of them answers from the
    cached empty bytes. [get_data] reads the path, or fetches the URL, or raises
    "No available media source"; [get_path], when no path is held, fetches the
    URL before it writes anything, or raises "No available media source";
    [get_url], when no URL is held, reads the path before it renders anything,
    or raises "No available media source". The read or the fetch is attempted
    each time: it is counted whether it succeeds or fails. *)
Theorem C10_empty_bytes_are_absent (c : MediaClass) :
  (forall format,
     MediaMessage.new c None None (Some []) format
     = Raise (ValueError "Must provide either url, path, or data + format.")) /\
  (forall u p f r w,
     let empty := {| self := instance c u p (VBytes []) f r; env := w |} in
     let none := {| self := instance c u p VNone f r; env := w |} in
     Spec.same_outcome (MediaMessage.get_data empty) (MediaMessage.get_data none) /\
     Spec.same_outcome (MediaMessage.get_path empty) (MediaMessage.get_path none) /\
     Spec.same_outcome (MediaMessage.get_url empty) (MediaMessage.get_url none) /\
     MediaMessage.get_data empty =
       (if truthy p then (MediaMessage._load_data_from_path;; getattr "data") empty
        else if truthy u then (MediaMessage._load_data_from_url;; getattr "data") empty
        else (Raise (ValueError "No available media source"), empty)) /\
     MediaMessage.get_path empty =
       (if truthy p then (Ok p, empty)
        else if truthy u
        then (MediaMessage._load_data_from_url;;
              name ← NamedTemporaryFile;
              data ← getattr "data";
              write name data;;
              setattr "path" (VStr name);;
              getattr "path") empty
        else (Raise (ValueError "No available media source"), empty)) /\
     MediaMessage.get_url empty =
       (if truthy u then (Ok u, empty)
        else if truthy p
        then (MediaMessage._load_data_from_path;;
              resource_type ← getattr "resource_type";
              format ← getattr "format";
              data ← getattr "data";
              encoded ← b64encode_value data;
              ret (VStr ("data:" +:+ py_str resource_type +:+ "/" +:+ py_str format
                         +:+ ";base64," +:+ encoded))) empty
        else (Raise (ValueError "No available media source"), empty))) /\
  (forall u p f r w s, s <> "" ->
     let at_path := {| self := instance c u (VStr s) (VBytes []) f r; env := w |} in
     let at_url := {| self := instance c (VStr s) p (VBytes []) f r; env := w |} in
     reads (env (snd (MediaMessage.get_data at_path))) = S (reads w) /\
     (truthy u = false ->
      reads (env (snd (MediaMessage.get_url at_path))) = S (reads w)) /\
     (truthy p = false ->
      fetches (env (snd (MediaMessage.get_data at_url))) = S (fetches w) /\
      fetches (env (snd (MediaMessage.get_path at_url))) = S (fetches w))).
Proof.
  split; [|split].
  - intros format. rewrite new_result. reflexivity.
  - intros u p f r w empty none. subst empty none.
    split; [apply same_get_data|]. split; [apply same_get_path|].
    split; [apply same_get_url|]. split; [rewrite get_data_run; reflexivity|].
    split.
    + rewrite get_path_run. change (truthy (VBytes [])) with false. cbv iota.
      destruct (truthy p); [reflexivity|].
      destruct (truthy u); [reflexivity|]. rewrite bind_run, raise_run. reflexivity.
    + rewrite get_url_run. change (truthy (VBytes [])) with false. cbv iota.
      destruct (truthy u); [reflexivity|].
      destruct (truthy p); [reflexivity|]. rewrite bind_run, raise_run. reflexivity.
  - intros u p f r w s Hs at_path at_url. subst at_path at_url.
    destruct (empty_data_is_read c u f r w s Hs) as [Hd Hu].
    split; [exact Hd|]. split; [exact Hu|].
    intros Hp. exact (empty_data_is_fetched c p f r w s Hs Hp).
Qed.

(** An empty payload is not kept as resolved: the second [get_data] on a
    resource whose URL answers with an empty body fetches again. *)
Lemma empty_payload_is_fetched_again :
  let o := instance ImageMessage (VStr "https://example.com/empty") VNone VNone
             (VStr "png") (VStr "media") in
  let st := {| self := o; env := Examples.world0 |} in
  fetches (env (lifetime [GetData] st)) = 1 /\
  fetches (env (lifetime [GetData; GetData] st)) = 2.
Proof. split; vm_compute; reflexivity. Qed.

(** ** Worked examples *)

(** A resolved object stays as it is under any further calls. *)
Lemma resolved_lifetime (c : MediaClass) (u p f r : pyval) (b : bytes) (w : World)
    (ops : list Op) :
  truthy (VBytes b) = true -> truthy p = true ->
  let st := {| self := instance c u p (VBytes b) f r; env := w |} in
  lifetime ops st = st.
Proof.
  intros Hb Hp st.
  destruct (resolved_is_cached c u p f r b w Hb Hp) as (Hd & Hpath & Hurl).
  fold st in Hd, Hpath, Hurl.
  induction ops as [|op ops IH]; [reflexivity|].
  cbn [lifetime fold_left]. fold (lifetime ops (step st op)).
  assert (Hstep : step st op = st).
  { destruct op; cbn [step].
    - rewrite Hurl. reflexivity.
    - rewrite Hpath. reflexivity.
    - rewrite Hd. reflexivity.
    - apply readonly_media_to_dict.
    - apply readonly_media_to_plain. }
  rewrite Hstep. exact IH.
Qed.

(** An image given by URL alone: the first [get_data] fetches it and sniffs
    its format and kind; [get_path] then writes it to a temporary file. *)
Example image_by_url :
  let o := instance ImageMessage (VStr "https://example.com/cat.png") VNone VNone
             VNone (VStr "media") in
  let st := lifetime [GetData; GetPath] {| self := o; env := Examples.world0 |} in
  MediaMessage.new ImageMessage (Some "https://example.com/cat.png") None None None
    = Ok o /\
  self st = instance ImageMessage (VStr "https://example.com/cat.png")
              (VStr "/tmp/tmp0") (VBytes Examples.png) (VStr "png") (VStr "image") /\
  files (env st) !! "/tmp/tmp0" = Some Examples.png /\
  (fetches (env st), reads (env st), sniffs (env st), tmp_count (env st)) = (1, 0, 1, 1).
Proof. repeat split; vm_compute; reflexivity. Qed.

(** A file given by path: its plain text names the path, and its structured
    form carries no data before the file is read. *)
Example file_by_path :
  let o := instance FileElement VNone (VStr "/srv/cat.png") VNone VNone (VStr "media") in
  to_plain (Media o) = Ok "[File:/srv/cat.png]" /\
  to_dict (Media o) =
    Ok (JDict [("type", JStr "file"); ("url", JNone); ("path", JStr "/srv/cat.png");
               ("data", JNone); ("format", JNone)]) /\
  fst (MediaMessage.get_url {| self := o; env := Examples.world0 |})
    = Ok (VStr "data:image/png;base64,iVBORw==").
Proof. repeat split; vm_compute; reflexivity. Qed.

(** A message in a group chat: every element is sent, text after its typing
    indicator and, when not first, a pause. *)
Example send_to_group :
  let group := {| chat_type := GROUP; user_id := "42"; group_id := Some "g7";
                  display_name := None |} in
  let m := {| sender := Examples.alice;
              message_elements :=
                [TextMessage "hi";
                 Media (instance ImageMessage (VStr "https://example.com/cat.png")
                          VNone VNone VNone (VStr "media"));
                 JsonElement "{}";
                 TextMessage "bye"];
              raw_message := None |} in
  let '(r, b) := TelegramAdapter.send_message m group Examples.bot0 in
  r = Ok tt /\
  TelegramAdapter.history b =
    [TelegramAdapter.send_chat_action (VStr "g7") "typing";
     TelegramAdapter.bot_send_message (VStr "g7") "hi" "MarkdownV2";
     TelegramAdapter.send_chat_action (VStr "g7") "upload_photo";
     TelegramAdapter.send_photo (VStr "g7") (VStr "https://example.com/cat.png")
       "MarkdownV2";
     TelegramAdapter.send_chat_action (VStr "g7") "typing";
     TelegramAdapter.sleep 3;
     TelegramAdapter.bot_send_message (VStr "g7") "bye" "MarkdownV2"].
Proof. vm_compute. split; reflexivity. Qed.

(** * Further properties *)

(** ** What the loaders return and what a failed load leaves *)

Lemma new_from_url (c : MediaClass) (u : string) (format : option string) :
  u <> "" ->
  MediaMessage.new c (Some u) None None format
  = Ok (instance c (VStr u) VNone VNone (of_opt_str format) (VStr "media")).
Proof.
  intros Hu. apply truthy_str in Hu. rewrite new_result. cbv zeta.
  cbn [of_opt_str]. rewrite Hu. reflexivity.
Qed.

Lemma new_from_path (c : MediaClass) (p : string) (format : option string) :
  p <> "" ->
  MediaMessage.new c None (Some p) None format
  = Ok (instance c VNone (VStr p) VNone (of_opt_str format) (VStr "media")).
Proof.
  intros Hp. apply truthy_str in Hp. rewrite new_result. cbv zeta.
  cbn [of_opt_str]. change (truthy VNone) with false. cbv iota. rewrite Hp.
  reflexivity.
Qed.

Lemma new_from_bytes (c : MediaClass) (b : bytes) (f : string) :
  b <> [] -> f <> "" ->
  MediaMessage.new c None None (Some b) (Some f)
  = Ok (instance c VNone VNone (VBytes b) (VStr f) (VStr "media")).
Proof.
  intros Hb Hf. apply truthy_bytes in Hb. apply truthy_str in Hf.
  rewrite new_result. cbv zeta. cbn [of_opt_str of_opt_bytes].
  change (truthy VNone) with false. cbv iota. rewrite Hb, Hf. reflexivity.
Qed.

Lemma get_data_from_url (c : MediaClass) (u : string) (format : option string)
    (w : World) (b : bytes) :
  u <> "" -> http w (fetches w) u = Some b ->
  fst (MediaMessage.get_data
         {| self := instance c (VStr u) VNone VNone (of_opt_str format) (VStr "media");
            env := w |}) = Ok (VBytes b).
Proof.
  intros Hu Hw. apply truthy_str in Hu. rewrite get_data_run.
  change (truthy VNone) with false. cbv iota. rewrite Hu.
  rewrite bind_run, load_url_run, Hw, detect_format_loaded.
  destruct (detected _ _ _ _) as [[f' r'] w']. exec. reflexivity.
Qed.

Lemma get_data_from_path (c : MediaClass) (p : string) (format : option string)
    (w : World) (b : bytes) :
  p <> "" -> files w !! p = Some b ->
  fst (MediaMessage.get_data
         {| self := instance c VNone (VStr p) VNone (of_opt_str format) (VStr "media");
            env := w |}) = Ok (VBytes b).
Proof.
  intros Hp Hw. apply truthy_str in Hp. rewrite get_data_run.
  change (truthy VNone) with false. cbv iota. rewrite Hp.
  rewrite bind_run, load_path_run, Hw, detect_format_loaded.
  destruct (detected _ _ _ _) as [[f' r'] w']. exec. reflexivity.
Qed.

(** X1. [get_data] hands out the bytes of the source, empty or not: the body
    the server answers for an object built from a URL, the content of the file
    for an object built from a path. *)
Theorem get_data_returns_source (c : MediaClass) (format : option string)
    (w : World) (b : bytes) :
  (forall u, u <> "" -> http w (fetches w) u = Some b ->
     exists o, MediaMessage.new c (Some u) None None format = Ok o /\
       fst (MediaMessage.get_data {| self := o; env := w |}) = Ok (VBytes b)) /\
  (forall p, p <> "" -> files w !! p = Some b ->
     exists o, MediaMessage.new c None (Some p) None format = Ok o /\
       fst (MediaMessage.get_data {| self := o; env := w |}) = Ok (VBytes b)).
Proof.
  split.
  - intros u Hu Hw. eexists. split; [apply new_from_url, Hu|].
    apply get_data_from_url; assumption.
  - intros p Hp Hw. eexists. split; [apply new_from_path, Hp|].
    apply get_data_from_path; assumption.
Qed.

Lemma get_data_returns_source_witness :
  exists o,
    MediaMessage.new ImageMessage None (Some "/srv/empty") None None = Ok o /\
    fst (MediaMessage.get_data {| self := o; env := Examples.world0 |}) = Ok (VBytes []).
Proof.
  apply (proj2 (get_data_returns_source ImageMessage None Examples.world0 [])).
  - discriminate.
  - vm_compute. reflexivity.
Defined.

(** X2. A load that fails raises the error of the transport or of the file
    system and caches nothing: the object is as it was constructed, no
    temporary file exists, only the attempt is counted. *)
Theorem failed_load_changes_nothing (c : MediaClass) (format : option string)
    (w : World) :
  (forall u, u <> "" -> http w (fetches w) u = None ->
     exists o, MediaMessage.new c (Some u) None None format = Ok o /\
       MediaMessage.get_data {| self := o; env := w |}
         = (Raise (ClientError u), {| self := o; env := count_fetch w |}) /\
       MediaMessage.get_path {| self := o; env := w |}
         = (Raise (ClientError u), {| self := o; env := count_fetch w |})) /\
  (forall p, p <> "" -> files w !! p = None ->
     exists o, MediaMessage.new c None (Some p) None format = Ok o /\
       MediaMessage.get_data {| self := o; env := w |}
         = (Raise (OSError p), {| self := o; env := count_read w |}) /\
       MediaMessage.get_url {| self := o; env := w |}
         = (Raise (OSError p), {| self := o; env := count_read w |})).
Proof.
  split.
  - intros u Hu Hw. eexists. split; [apply new_from_url, Hu|].
    apply truthy_str in Hu. split.
    + rewrite get_data_run. change (truthy VNone) with false. cbv iota. rewrite Hu.
      rewrite bind_run, load_url_run, Hw. reflexivity.
    + rewrite get_path_run. change (truthy VNone) with false. cbv iota. rewrite Hu.
      rewrite bind_run, load_url_run, Hw. reflexivity.
  - intros p Hp Hw. eexists. split; [apply new_from_path, Hp|].
    apply truthy_str in Hp. split.
    + rewrite get_data_run. change (truthy VNone) with false. cbv iota. rewrite Hp.
      rewrite bind_run, load_path_run, Hw. reflexivity.
    + rewrite get_url_run. change (truthy VNone) with false. cbv iota. rewrite Hp.
      rewrite bind_run, load_path_run, Hw. reflexivity.
Qed.

Lemma failed_load_changes_nothing_witness :
  exists o,
    MediaMessage.new VoiceMessage (Some "https://example.com/gone.ogg") None None None
      = Ok o /\
    MediaMessage.get_data {| self := o; env := Examples.world0 |}
      = (Raise (ClientError "https://example.com/gone.ogg"),
         {| self := o; env := count_fetch Examples.world0 |}) /\
    MediaMessage.get_path {| self := o; env := Examples.world0 |}
      = (Raise (ClientError "https://example.com/gone.ogg"),
         {| self := o; env := count_fetch Examples.world0 |}).
Proof.
  apply (proj1 (failed_load_changes_nothing VoiceMessage None Examples.world0)).
  - discriminate.
  - reflexivity.
Defined.


(** ** The temporary file *)

(** X3. What [get_path] writes can be read back: the temporary file holds the
    bytes of the object, and a second object built from the path returned
    gets exactly those bytes from [get_data]. *)
Theorem temporary_file_round_trip (c c' : MediaClass) (b : bytes) (f : string)
    (format' : option string) (w : World) :
  b <> [] -> f <> "" ->
  exists o p st,
    MediaMessage.new c None None (Some b) (Some f) = Ok o /\
    MediaMessage.get_path {| self := o; env := w |} = (Ok (VStr p), st) /\
    files (env st) !! p = Some b /\
    exists o',
      MediaMessage.new c' None (Some p) None format' = Ok o' /\
      fst (MediaMessage.get_data {| self := o'; env := env st |}) = Ok (VBytes b).
Proof.
  intros Hb Hf.
  eexists _, (tmp_name (tmp_count w)), _.
  split; [apply new_from_bytes; assumption|].
  apply truthy_bytes in Hb.
  split.
  { rewrite get_path_run. change (truthy VNone) with false. cbv iota. rewrite Hb.
    rewrite bind_run, ret_run. apply materialize_run. }
  cbn [env files put_file count_tmp].
  assert (Hfile : <[tmp_name (tmp_count w):=b]>
                    (<[tmp_name (tmp_count w):=[]]> (files w))
                  !! tmp_name (tmp_count w) = Some b) by apply lookup_insert_eq.
  split; [exact Hfile|].
  assert (Hne : tmp_name (tmp_count w) <> "") by discriminate.
  eexists. split; [apply new_from_path, Hne|].
  apply get_data_from_path; assumption.
Qed.

Lemma temporary_file_round_trip_witness :
  exists o p st,
    MediaMessage.new VoiceMessage None None (Some Examples.png) (Some "ogg") = Ok o /\
    MediaMessage.get_path {| self := o; env := Examples.world0 |} = (Ok (VStr p), st) /\
    files (env st) !! p = Some Examples.png /\
    exists o',
      MediaMessage.new FileElement None (Some p) None None = Ok o' /\
      fst (MediaMessage.get_data {| self := o'; env := env st |})
      = Ok (VBytes Examples.png).
Proof.
  apply (temporary_file_round_trip VoiceMessage FileElement Examples.png "ogg" None
           Examples.world0); discriminate.
Defined.

(** ** The detected format *)

Lemma split_without_separator (k : string) :
  has_char "/" k = false -> split "/" k = [k].
Proof.
  induction k as [|a k IH]; [reflexivity|]. cbn [has_char split].
  intros H. apply orb_false_elim in H as [Ha Hk]. rewrite Ha, (IH Hk). reflexivity.
Qed.

Lemma split_at_separator (k s : string) :
  has_char "/" k = false ->
  split "/" (k +:+ String "/" s) = k :: split "/" s.
Proof.
  induction k as [|a k IH]; intros H.
  - reflexivity.
  - cbn [has_char] in H. apply orb_false_elim in H as [Ha Hk].
    rewrite append_String. cbn [split]. rewrite Ha, (IH Hk). reflexivity.
Qed.

(** X4. A resource built from a path without a format takes both from libmagic
    on its first load: for a MIME type [kind/subtype] the format becomes the
    subtype and the kind the top-level type, and [get_url] returns the [data:]
    URL of that MIME type. *)
Theorem detected_mime_type (c : MediaClass) (p kind subtype : string) (b : bytes)
    (w : World) :
  p <> "" -> files w !! p = Some b -> b <> [] ->
  magic w b = kind +:+ "/" +:+ subtype ->
  has_char "/" kind = false -> has_char "/" subtype = false -> subtype <> "" ->
  exists o,
    MediaMessage.new c None (Some p) None None = Ok o /\
    MediaMessage.get_url {| self := o; env := w |}
    = (Ok (VStr ("data:" +:+ magic w b +:+ ";base64," +:+ b64encode b)),
       {| self := instance c VNone (VStr p) (VBytes b) (VStr subtype) (VStr kind);
          env := count_sniff (count_read w) |}).
Proof.
  intros Hp Hw Hb Hm Hk Hs Hne.
  eexists. split; [apply new_from_path, Hp|].
  apply truthy_str in Hp. cbn [of_opt_str].
  rewrite get_url_run. change (truthy VNone) with false. cbv iota. rewrite Hp.
  rewrite bind_run, load_path_run, Hw, detect_format_run.
  change (truthy VNone) with false. cbv iota.
  assert (Hsplit : split "/" (magic w b) = [kind; subtype]).
  { rewrite Hm. change (kind +:+ "/" +:+ subtype) with (kind +:+ String "/" subtype).
    rewrite (split_at_separator _ _ Hk), (split_without_separator _ Hs). reflexivity. }
  change (magic (count_read w) b) with (magic w b).
  rewrite Hsplit. cbn [last first List.last List.hd].
  rewrite data_url_run. cbn [py_str]. rewrite Hm.
  rewrite !append_assoc. reflexivity.
Qed.

Lemma detected_mime_type_witness :
  exists o,
    MediaMessage.new FileElement None (Some "/srv/cat.png") None None = Ok o /\
    MediaMessage.get_url {| self := o; env := Examples.world0 |}
    = (Ok (VStr "data:image/png;base64,iVBORw=="),
       {| self := instance FileElement VNone (VStr "/srv/cat.png") (VBytes Examples.png)
                    (VStr "png") (VStr "image");
          env := count_sniff (count_read Examples.world0) |}).
Proof.
  apply (detected_mime_type FileElement "/srv/cat.png" "image" "png" Examples.png
           Examples.world0); try discriminate; reflexivity.
Defined.

(** ** What each getter touches *)

(** A load from the path leaves the URL and the path alone and does at most
    one read and one sniff. *)
Lemma load_path_shape (c : MediaClass) (u p d f r : pyval) (w : World) :
  exists d' f' r' w',
    snd (MediaMessage._load_data_from_path {| self := instance c u p d f r; env := w |})
    = {| self := instance c u p d' f' r'; env := w' |} /\
    (w' = w \/ w' = count_read w \/ w' = count_sniff (count_read w)).
Proof.
  rewrite load_path_run.
  destruct p; try (eexists _, _, _, _; split; [reflexivity|auto]).
  destruct (files w !! s); [|eexists _, _, _, _; split; [reflexivity|auto]].
  rewrite detect_format_run.
  destruct (truthy f); eexists _, _, _, _; split; try reflexivity; auto.
Qed.

Lemma load_url_shape (c : MediaClass) (u p d f r : pyval) (w : World) :
  exists d' f' r' w',
    snd (MediaMessage._load_data_from_url {| self := instance c u p d f r; env := w |})
    = {| self := instance c u p d' f' r'; env := w' |} /\
    (w' = w \/ w' = count_fetch w \/ w' = count_sniff (count_fetch w)).
Proof.
  rewrite load_url_run.
  destruct u; try (eexists _, _, _, _; split; [reflexivity|auto]).
  destruct (http w (fetches w) s); [|eexists _, _, _, _; split; [reflexivity|auto]].
  rewrite detect_format_run.
  destruct (truthy f); eexists _, _, _, _; split; try reflexivity; auto.
Qed.

Lemma materialize_shape (c : MediaClass) (u p d f r : pyval) (w : World) :
  exists p' w',
    snd ((name ← NamedTemporaryFile;
          data ← getattr "data";
          write name data;;
          setattr "path" (VStr name);;
          getattr "path") {| self := instance c u p d f r; env := w |})
    = {| self := instance c u p' d f r; env := w' |} /\
    reads w' = reads w /\ fetches w' = fetches w /\ sniffs w' = sniffs w.
Proof.
  rewrite bind_run. unfold NamedTemporaryFile at 1, with_env. cbn [env self]. exec.
  destruct d; unfold write, with_env; cbn [env self]; exec;
    eexists _, _; split; try reflexivity; auto.
Qed.

(** X5. [get_url] never goes to the network and never writes a file; [get_path]
    never reads a file; [get_data] never writes one. *)
Theorem getters_footprint (c : MediaClass) (u p d f r : pyval) (w : World) :
  let st := {| self := instance c u p d f r; env := w |} in
  (let w' := env (snd (MediaMessage.get_url st)) in
   fetches w' = fetches w /\ files w' = files w /\ tmp_count w' = tmp_count w) /\
  (let w' := env (snd (MediaMessage.get_path st)) in reads w' = reads w) /\
  (let w' := env (snd (MediaMessage.get_data st)) in
   fetches w' + reads w' <= S (fetches w + reads w) /\
   files w' = files w /\ tmp_count w' = tmp_count w).
Proof.
  intros st. subst st. cbv zeta. split; [|split].
  - rewrite get_url_run. destruct (truthy u); [auto|].
    rewrite bind_run.
    destruct (truthy d).
    { rewrite ret_run, readonly_data_url. auto. }
    destruct (truthy p); [|rewrite raise_run; auto].
    destruct (load_path_shape c u p d f r w) as (d' & f' & r' & w' & Hs & Hw).
    destruct (MediaMessage._load_data_from_path _) as [[[]|x] st1]; cbn [snd] in Hs;
      subst st1; [rewrite readonly_data_url|]; cbn [snd env];
      destruct Hw as [->|[->| ->]]; auto.
  - rewrite get_path_run. destruct (truthy p); [auto|].
    rewrite bind_run.
    destruct (truthy d).
    { rewrite ret_run.
      destruct (materialize_shape c u p d f r w) as (p' & w' & Hs & Hr & _).
      rewrite Hs. exact Hr. }
    destruct (truthy u); [|rewrite raise_run; auto].
    destruct (load_url_shape c u p d f r w) as (d' & f' & r' & w' & Hs & Hw).
    destruct (MediaMessage._load_data_from_url _) as [[[]|x] st1]; cbn [snd] in Hs;
      subst st1.
    + destruct (materialize_shape c u p d' f' r' w') as (p' & w'' & Hs' & Hr & _).
      rewrite Hs'. cbn [snd env]. rewrite Hr. destruct Hw as [->|[->| ->]]; auto.
    + cbn [snd env]. destruct Hw as [->|[->| ->]]; auto.
  - rewrite get_data_run. destruct (truthy d); [cbn; auto with lia|].
    destruct (truthy p).
    { rewrite bind_run.
      destruct (load_path_shape c u p d f r w) as (d' & f' & r' & w' & Hs & Hw).
      destruct (MediaMessage._load_data_from_path _) as [[[]|x] st1]; cbn [snd] in Hs;
        subst st1; [rewrite readonly_getattr|]; cbn [snd env];
        destruct Hw as [->|[->| ->]]; cbn; auto with lia. }
    destruct (truthy u); [|cbn; auto with lia].
    rewrite bind_run.
    destruct (load_url_shape c u p d f r w) as (d' & f' & r' & w' & Hs & Hw).
    destruct (MediaMessage._load_data_from_url _) as [[[]|x] st1]; cbn [snd] in Hs;
      subst st1; [rewrite readonly_getattr|]; cbn [snd env];
      destruct Hw as [->|[->| ->]]; cbn; auto with lia.
Qed.

(** ** Detection and materialisation happen at most once *)

Lemma snd_bind {S A B} (P : S -> Prop) (m : M S A) (k : A -> M S B) (s : S) :
  P (snd (m s)) -> (forall a s', P s' -> P (snd (k a s'))) -> P (snd ((m ≫= k) s)).
Proof.
  intros Hm Hk. rewrite bind_run.
  destruct (m s) as [[a|x] s']; cbn [snd] in *; [apply Hk|]; exact Hm.
Qed.

Lemma snd_readonly {S A} (P : S -> Prop) (m : M S A) (s : S) :
  Spec.readonly m -> P s -> P (snd (m s)).
Proof. intros Hm Hs. rewrite Hm. exact Hs. Qed.

Lemma snd_lifetime (P : State World -> Prop) :
  (forall st op, P st -> P (step st op)) ->
  forall ops st, P st -> P (lifetime ops st).
Proof.
  intros Hstep ops. induction ops as [|op ops IH]; intros st H; [exact H|].
  cbn [lifetime fold_left]. apply IH, Hstep, H.
Qed.

Section SniffedOnce.
Context (c : MediaClass) (mg : bytes -> string) (n : nat).
Hypothesis Hmg : forall b, last (split "/" (mg b)) <> "".


Lemma sniffed_intro (u p d f r : pyval) (w : World) :
  magic w = mg -> (sniffs w = n \/ (sniffs w = S n /\ truthy f = true)) ->
  (Invariant.sniffed_once c mg n) {| self := instance c u p d f r; env := w |}.
Proof. intros Hm Hs. exists u, p, d, f, r, w. auto. Qed.

Lemma sniffed_detect (u p d f r : pyval) (w : World) :
  magic w = mg -> (sniffs w = n \/ (sniffs w = S n /\ truthy f = true)) ->
  (Invariant.sniffed_once c mg n) (snd (MediaMessage._detect_format {| self := instance c u p d f r; env := w |})).
Proof.
  intros Hm Hs. rewrite detect_format_run.
  destruct (truthy f) eqn:Hf in |- *; [apply sniffed_intro; assumption|].
  destruct d; try (apply sniffed_intro; assumption).
  apply sniffed_intro; [exact Hm|]. right.
  destruct Hs as [Hs|[_ Hs]]; [|congruence].
  split; [cbn; congruence|]. apply truthy_str. rewrite Hm. apply Hmg.
Qed.

Lemma sniffed_load_path (u p d f r : pyval) (w : World) :
  magic w = mg -> (sniffs w = n \/ (sniffs w = S n /\ truthy f = true)) ->
  (Invariant.sniffed_once c mg n) (snd (MediaMessage._load_data_from_path {| self := instance c u p d f r; env := w |})).
Proof.
  intros Hm Hs. rewrite load_path_run.
  destruct p; try (apply sniffed_intro; assumption).
  destruct (files w !! s); [|apply sniffed_intro; assumption].
  apply sniffed_detect; assumption.
Qed.

Lemma sniffed_load_url (u p d f r : pyval) (w : World) :
  magic w = mg -> (sniffs w = n \/ (sniffs w = S n /\ truthy f = true)) ->
  (Invariant.sniffed_once c mg n) (snd (MediaMessage._load_data_from_url {| self := instance c u p d f r; env := w |})).
Proof.
  intros Hm Hs. rewrite load_url_run.
  destruct u; try (apply sniffed_intro; assumption).
  destruct (http w (fetches w) s); [|apply sniffed_intro; assumption].
  apply sniffed_detect; assumption.
Qed.

Lemma sniffed_materialize (u p d f r : pyval) (w : World) :
  magic w = mg -> (sniffs w = n \/ (sniffs w = S n /\ truthy f = true)) ->
  (Invariant.sniffed_once c mg n) (snd ((name ← NamedTemporaryFile;
           data ← getattr "data";
           write name data;;
           setattr "path" (VStr name);;
           getattr "path") {| self := instance c u p d f r; env := w |})).
Proof.
  intros Hm Hs. rewrite bind_run. unfold NamedTemporaryFile at 1, with_env.
  cbn [env self]. exec.
  destruct d; unfold write, with_env; cbn [env self]; exec;
    apply sniffed_intro; assumption.
Qed.

Lemma sniffed_step (st : State World) (op : Op) : (Invariant.sniffed_once c mg n) st -> (Invariant.sniffed_once c mg n) (step st op).
Proof.
  intros (u & p & d & f & r & w & -> & Hm & Hs). destruct op; cbn [step].
  - rewrite get_url_run. destruct (truthy u); [apply sniffed_intro; assumption|].
    apply snd_bind.
    + destruct (truthy d); [apply sniffed_intro; assumption|].
      destruct (truthy p); [apply sniffed_load_path|apply sniffed_intro]; assumption.
    + intros _ st' Hst'. apply snd_readonly; [apply readonly_data_url|exact Hst'].
  - rewrite get_path_run. destruct (truthy p); [apply sniffed_intro; assumption|].
    apply snd_bind.
    + destruct (truthy d); [apply sniffed_intro; assumption|].
      destruct (truthy u); [apply sniffed_load_url|apply sniffed_intro]; assumption.
    + intros _ st' (u' & p' & d' & f' & r' & w' & -> & Hm' & Hs').
      apply sniffed_materialize; assumption.
  - rewrite get_data_run. destruct (truthy d); [apply sniffed_intro; assumption|].
    destruct (truthy p).
    { apply snd_bind; [apply sniffed_load_path; assumption|].
      intros _ st' Hst'. apply snd_readonly; [apply readonly_getattr|exact Hst']. }
    destruct (truthy u); [|apply sniffed_intro; assumption].
    apply snd_bind; [apply sniffed_load_url; assumption|].
    intros _ st' Hst'. apply snd_readonly; [apply readonly_getattr|exact Hst'].
  - apply snd_readonly; [apply readonly_media_to_dict|].
    apply sniffed_intro; assumption.
  - apply snd_readonly; [apply readonly_media_to_plain|].
    apply sniffed_intro; assumption.
Qed.

End SniffedOnce.

(** X6. Where libmagic never answers a type with an empty subtype, the format of
    a media object is detected at most once in its lifetime, whatever is
    called on it, however often, and whatever fails. *)
Theorem format_detected_at_most_once (c : MediaClass) (url path : option string)
    (data : option bytes) (format : option string) (o : obj) (w : World)
    (ops : list Op) :
  (forall b, last (split "/" (magic w b)) <> "") ->
  MediaMessage.new c url path data format = Ok o ->
  sniffs (env (lifetime ops {| self := o; env := w |})) <= S (sniffs w).
Proof.
  intros Hmg Hnew. rewrite new_result in Hnew. cbv zeta in Hnew.
  assert (H0 : Invariant.sniffed_once c (magic w) (sniffs w) {| self := o; env := w |}).
  { destruct (truthy (of_opt_str url));
      [injection Hnew as <-; apply sniffed_intro; auto|].
    destruct (truthy (of_opt_str path));
      [injection Hnew as <-; apply sniffed_intro; auto|].
    destruct (truthy (of_opt_bytes data) && truthy (of_opt_str format));
      [injection Hnew as <-; apply sniffed_intro; auto|discriminate Hnew]. }
  pose proof (snd_lifetime _ (sniffed_step c (magic w) (sniffs w) Hmg) ops _ H0) as H.
  destruct H as (u & p & d & f & r & w' & -> & _ & [Hs|[Hs _]]); cbn [env]; lia.
Qed.

Lemma format_detected_at_most_once_witness :
  sniffs (env (lifetime [GetData; GetUrl; GetPath; GetData; GetUrl]
                 {| self := instance ImageMessage VNone (VStr "/srv/empty") VNone VNone
                              (VStr "media");
                    env := Examples.world0 |})) <= 1.
Proof.
  assert (Hmg : forall b, last (split "/" (magic Examples.world0 b)) <> "").
  { intros b. cbn [magic Examples.world0]. unfold Examples.libmagic.
    destruct b as [|x0 [|x1 [|x2 [|x3 b]]]]; try discriminate;
      destruct x0; try discriminate; destruct x1; try discriminate;
      destruct x2; try discriminate; destruct x3; discriminate. }
  assert (Hnew : MediaMessage.new ImageMessage None (Some "/srv/empty") None None
                 = Ok (instance ImageMessage VNone (VStr "/srv/empty") VNone VNone
                         (VStr "media")))
    by (vm_compute; reflexivity).
  exact (format_detected_at_most_once ImageMessage None (Some "/srv/empty") None None
           _ Examples.world0 [GetData; GetUrl; GetPath; GetData; GetUrl] Hmg Hnew).
Defined.

Section MaterializedOnce.
Context (c : MediaClass) (t : nat).


Lemma materialized_intro (u p d f r : pyval) (w : World) :
  Invariant.bytes_or_none d ->
  (tmp_count w = t \/ (tmp_count w = S t /\ truthy p = true)) ->
  (Invariant.materialized_once c t) {| self := instance c u p d f r; env := w |}.
Proof. intros Hd Ht. exists u, p, d, f, r, w. auto. Qed.

Lemma bytes_is_bytes_or_none (b : bytes) : Invariant.bytes_or_none (VBytes b).
Proof. right. exists b. reflexivity. Qed.

Lemma materialized_detect (u p f r : pyval) (b : bytes) (w : World) :
  (tmp_count w = t \/ (tmp_count w = S t /\ truthy p = true)) ->
  (Invariant.materialized_once c t) (snd (MediaMessage._detect_format
            {| self := instance c u p (VBytes b) f r; env := w |})).
Proof.
  intros Ht. rewrite detect_format_run.
  destruct (truthy f); apply materialized_intro; auto using bytes_is_bytes_or_none.
Qed.

Lemma materialized_load_path (u p d f r : pyval) (w : World) :
  Invariant.bytes_or_none d ->
  (tmp_count w = t \/ (tmp_count w = S t /\ truthy p = true)) ->
  (Invariant.materialized_once c t) (snd (MediaMessage._load_data_from_path {| self := instance c u p d f r; env := w |})).
Proof.
  intros Hd Ht. rewrite load_path_run.
  destruct p as [|s|b] eqn:Hp; try (apply materialized_intro; assumption).
  destruct (files w !! s); [|apply materialized_intro; assumption].
  apply materialized_detect. exact Ht.
Qed.

Lemma materialized_load_url (u p d f r : pyval) (w : World) :
  Invariant.bytes_or_none d ->
  (tmp_count w = t \/ (tmp_count w = S t /\ truthy p = true)) ->
  (Invariant.materialized_once c t) (snd (MediaMessage._load_data_from_url {| self := instance c u p d f r; env := w |})).
Proof.
  intros Hd Ht. rewrite load_url_run.
  destruct u as [|s|b]; try (apply materialized_intro; assumption).
  destruct (http w (fetches w) s); [|apply materialized_intro; assumption].
  apply materialized_detect. exact Ht.
Qed.

(** With bytes in hand and no path, [get_path] makes the one temporary file. *)
Lemma materialized_tmp (u p f r : pyval) (b : bytes) (w : World) :
  tmp_count w = t ->
  (Invariant.materialized_once c t) (snd ((name ← NamedTemporaryFile;
           data ← getattr "data";
           write name data;;
           setattr "path" (VStr name);;
           getattr "path") {| self := instance c u p (VBytes b) f r; env := w |})).
Proof.
  intros Ht. rewrite materialize_run.
  apply materialized_intro; [apply bytes_is_bytes_or_none|].
  right. split; [cbn; congruence|apply truthy_tmp_name].
Qed.

Lemma materialized_get_path (u p d f r : pyval) (w : World) :
  Invariant.bytes_or_none d ->
  (tmp_count w = t \/ (tmp_count w = S t /\ truthy p = true)) ->
  (Invariant.materialized_once c t) (snd (MediaMessage.get_path {| self := instance c u p d f r; env := w |})).
Proof.
  intros Hd Ht. rewrite get_path_run.
  destruct (truthy p) eqn:Hp in |- *; [apply materialized_intro; assumption|].
  assert (Ht' : tmp_count w = t) by (destruct Ht as [Ht|[_ Ht]]; congruence).
  rewrite bind_run. destruct (truthy d) eqn:Hdt in |- *.
  { destruct Hd as [->|[b ->]]; [discriminate Hdt|].
    rewrite ret_run. apply materialized_tmp. exact Ht'. }
  destruct (truthy u); [|rewrite raise_run; apply materialized_intro; assumption].
  rewrite load_url_run.
  destruct u as [|s|b]; try (apply materialized_intro; assumption).
  destruct (http w (fetches w) s) as [body|];
    [|apply materialized_intro; assumption].
  rewrite detect_format_loaded.
  pose proof (detected_counts f r (count_fetch w) body) as Hc.
  destruct (detected f r (count_fetch w) body) as [[f' r'] w'].
  destruct Hc as (_ & _ & Hc). apply materialized_tmp.
  rewrite Hc. exact Ht'.
Qed.

Lemma materialized_step (st : State World) (op : Op) : (Invariant.materialized_once c t) st -> (Invariant.materialized_once c t) (step st op).
Proof.
  intros (u & p & d & f & r & w & -> & Hd & Ht). destruct op; cbn [step].
  - rewrite get_url_run. destruct (truthy u); [apply materialized_intro; assumption|].
    apply snd_bind.
    + destruct (truthy d); [apply materialized_intro; assumption|].
      destruct (truthy p) in |- *;
        [apply materialized_load_path|apply materialized_intro]; assumption.
    + intros _ st' Hst'. apply snd_readonly; [apply readonly_data_url|exact Hst'].
  - apply materialized_get_path; assumption.
  - rewrite get_data_run. destruct (truthy d); [apply materialized_intro; assumption|].
    destruct (truthy p) in |- *.
    { apply snd_bind; [apply materialized_load_path; assumption|].
      intros _ st' Hst'. apply snd_readonly; [apply readonly_getattr|exact Hst']. }
    destruct (truthy u); [|apply materialized_intro; assumption].
    apply snd_bind; [apply materialized_load_url; assumption|].
    intros _ st' Hst'. apply snd_readonly; [apply readonly_getattr|exact Hst'].
  - apply snd_readonly; [apply readonly_media_to_dict|].
    apply materialized_intro; assumption.
  - apply snd_readonly; [apply readonly_media_to_plain|].
    apply materialized_intro; assumption.
Qed.

End MaterializedOnce.

(** X7. A media object makes at most one temporary file in its lifetime,
    whatever is called on it, however often, and whatever fails: once
    [get_path] has written the bytes out, the path is held and reused. An
    object built from a path makes none. *)
Theorem at_most_one_temporary_file (c : MediaClass) (url path : option string)
    (data : option bytes) (format : option string) (o : obj) (w : World)
    (ops : list Op) :
  MediaMessage.new c url path data format = Ok o ->
  let w' := env (lifetime ops {| self := o; env := w |}) in
  tmp_count w' <= S (tmp_count w) /\
  (truthy (of_opt_str url) = false -> truthy (of_opt_str path) = true ->
   tmp_count w' = tmp_count w).
Proof.
  intros Hnew w'. subst w'. rewrite new_result in Hnew. cbv zeta in Hnew. split.
  - assert (H0 : Invariant.materialized_once c (tmp_count w) {| self := o; env := w |}).
    { destruct (truthy (of_opt_str url));
        [injection Hnew as <-; apply materialized_intro; [left|]; auto|].
      destruct (truthy (of_opt_str path));
        [injection Hnew as <-; apply materialized_intro; [left|]; auto|].
      destruct (truthy (of_opt_bytes data) && truthy (of_opt_str format));
        [injection Hnew as <-|discriminate Hnew].
      apply materialized_intro; [|auto].
      destruct data; [apply bytes_is_bytes_or_none|left; reflexivity]. }
    pose proof (snd_lifetime _ (materialized_step c (tmp_count w)) ops _ H0) as H.
    destruct H as (u & p & d & f & r & w' & -> & _ & [Hs|[Hs _]]); cbn [env]; lia.
  - intros Hu Hp. rewrite Hu, Hp in Hnew. injection Hnew as <-.
    assert (Hkeep : forall ops st,
              (exists u d f r w1, st = {| self := instance c u (of_opt_str path) d f r;
                                          env := w1 |} /\ tmp_count w1 = tmp_count w) ->
              tmp_count (env (lifetime ops st)) = tmp_count w).
    { clear ops. intros ops. induction ops as [|op ops IH]; intros st Hst.
      - destruct Hst as (u & d & f & r & w1 & -> & Hw). exact Hw.
      - cbn [lifetime fold_left]. apply IH.
        destruct Hst as (u & d & f & r & w1 & -> & Hw).
        destruct op; cbn [step].
        + rewrite get_url_run. destruct (truthy u); [eauto 10|].
          rewrite bind_run. destruct (truthy d).
          { rewrite ret_run, readonly_data_url. eauto 10. }
          rewrite Hp.
          destruct (load_path_shape c u (of_opt_str path) d f r w1)
            as (d' & f' & r' & w2 & Hs & Hw2).
          destruct (MediaMessage._load_data_from_path _) as [[[]|x] st1];
            cbn [snd] in Hs; subst st1; [rewrite readonly_data_url|]; cbn [snd];
            eexists _, _, _, _, _; (split; [reflexivity|]);
            destruct Hw2 as [->|[->| ->]]; exact Hw.
        + rewrite get_path_run, Hp. eauto 10.
        + rewrite get_data_run. destruct (truthy d); [eauto 10|]. rewrite Hp.
          rewrite bind_run.
          destruct (load_path_shape c u (of_opt_str path) d f r w1)
            as (d' & f' & r' & w2 & Hs & Hw2).
          destruct (MediaMessage._load_data_from_path _) as [[[]|x] st1];
            cbn [snd] in Hs; subst st1; [rewrite readonly_getattr|]; cbn [snd];
            eexists _, _, _, _, _; (split; [reflexivity|]);
            destruct Hw2 as [->|[->| ->]]; exact Hw.
        + rewrite readonly_media_to_dict. eauto 10.
        + rewrite readonly_media_to_plain. eauto 10. }
    apply Hkeep. eauto 10.
Qed.

Lemma at_most_one_temporary_file_witness :
  tmp_count (env (lifetime [GetPath; GetUrl; GetPath; GetData; GetPath]
                    {| self := instance ImageMessage VNone VNone (VBytes Examples.png)
                                 (VStr "png") (VStr "media");
                       env := Examples.world0 |})) <= 1.
Proof.
  assert (Hnew : MediaMessage.new ImageMessage None None (Some Examples.png) (Some "png")
                 = Ok (instance ImageMessage VNone VNone (VBytes Examples.png)
                         (VStr "png") (VStr "media")))
    by (vm_compute; reflexivity).
  exact (proj1 (at_most_one_temporary_file ImageMessage None None (Some Examples.png)
                  (Some "png") _ Examples.world0
                  [GetPath; GetUrl; GetPath; GetData; GetPath] Hnew)).
Defined.

(** ** The content of a message is trimmed *)

Lemma lstrip_head (s : string) :
  match lstrip s with
  | EmptyString => True
  | String c _ => isspace c = false
  end.
Proof.
  induction s as [|a s IH]; [exact I|]. cbn [lstrip].
  destruct (isspace a) eqn:Ha; [exact IH|exact Ha].
Qed.

Lemma rstrip_String (a : ascii) (s : string) :
  rstrip (String a s) =
  match rstrip s with
  | EmptyString => if isspace a then EmptyString else String a EmptyString
  | r => String a r
  end.
Proof. reflexivity. Qed.

Lemma rstrip_idempotent (s : string) : rstrip (rstrip s) = rstrip s.
Proof.
  induction s as [|a s IH]; [reflexivity|]. rewrite rstrip_String.
  destruct (rstrip s) as [|b r] eqn:Hr.
  - destruct (isspace a) eqn:Ha; [reflexivity|].
    rewrite rstrip_String. cbn [rstrip]. rewrite Ha. reflexivity.
  - rewrite rstrip_String, IH. reflexivity.
Qed.

Lemma lstrip_rstrip (s : string) :
  match s with EmptyString => True | String c _ => isspace c = false end ->
  lstrip (rstrip s) = rstrip s.
Proof.
  destruct s as [|a s]; [reflexivity|]. intros Ha. cbn [rstrip].
  destruct (rstrip s); rewrite ?Ha; cbn [lstrip]; rewrite Ha; reflexivity.
Qed.

Lemma strip_stripped (s : string) :
  lstrip (strip s) = strip s /\ rstrip (strip s) = strip s.
Proof.
  unfold strip. split; [apply lstrip_rstrip, lstrip_head|apply rstrip_idempotent].
Qed.

(** X8. Whatever the elements, the content that [content] returns has no
    whitespace left at either end. *)
Theorem content_is_trimmed (m : IMMessage) (s : string) :
  IMMessage.content m = Ok s -> lstrip s = s /\ rstrip s = s /\ strip s = s.
Proof.
  unfold IMMessage.content.
  destruct (IMMessage.content_loop "" (message_elements m)) as [raw|x];
    [|discriminate].
  cbn. intros [= <-]. destruct (strip_stripped raw) as [Hl Hr].
  repeat split; try assumption. unfold strip at 1. rewrite Hl. exact Hr.
Qed.

Lemma content_is_trimmed_witness :
  let s := "a" +:+ newline +:+ "[ImageMessage]b" in
  lstrip s = s /\ rstrip s = s /\ strip s = s.
Proof.
  apply (content_is_trimmed
           {| sender := Examples.alice;
              message_elements :=
                [TextMessage " a";
                 Media (instance ImageMessage (VStr "https://example.com/cat.png") VNone
                          VNone VNone (VStr "media"));
                 TextMessage "b  "];
              raw_message := None |}).
  vm_compute. reflexivity.
Defined.

(** ** The structured form of a message *)

Lemma comprehension_all {A B} (f : A -> result B) (l : list A) (ys : list B) :
  IMMessage.comprehension f l = Ok ys ->
  length ys = length l /\ forall x, In x l -> exists y, f x = Ok y.
Proof.
  revert ys. induction l as [|a l IH]; intros ys H.
  - injection H as <-. split; [reflexivity|]. intros x [].
  - cbn [IMMessage.comprehension] in H.
    destruct (f a) as [y|e] eqn:Ha; [|discriminate H]. cbn in H.
    destruct (IMMessage.comprehension f l) as [ys'|e]; [|discriminate H].
    cbn in H. injection H as <-. destruct (IH ys' eq_refl) as [Hlen Hall].
    split; [cbn; congruence|]. intros x [<-|Hx]; [eauto|apply Hall, Hx].
Qed.

Lemma comprehension_defined {A B} (f : A -> result B) (l : list A) :
  (forall x, In x l -> exists y, f x = Ok y) ->
  exists ys, IMMessage.comprehension f l = Ok ys.
Proof.
  induction l as [|a l IH]; intros H; [eexists; reflexivity|].
  destruct (H a (or_introl eq_refl)) as [y Hy].
  destruct IH as [ys Hys]; [intros x Hx; apply H; right; exact Hx|].
  exists (y :: ys). cbn [IMMessage.comprehension]. rewrite Hy. cbn. rewrite Hys.
  reflexivity.
Qed.

Lemma video_to_dict_instance (u p d f r : pyval) :
  to_dict (Media (instance VideoElement u p d f r))
  = Raise (AttributeError "VideoElement" "file").
Proof.
  unfold to_dict, call, media_to_dict. cbn [self cls instance].
  unfold VideoElement.to_dict. exec. reflexivity.
Qed.

Lemma new_is_instance (c : MediaClass) (url path : option string)
    (data : option bytes) (format : option string) (o : obj) :
  MediaMessage.new c url path data format = Ok o ->
  exists u p d f, o = instance c (of_opt_str u) (of_opt_str p) (of_opt_bytes d)
                        (of_opt_str f) (VStr "media").
Proof.
  intros Hnew. rewrite new_result in Hnew. cbv zeta in Hnew.
  destruct (truthy (of_opt_str url));
    [injection Hnew as <-; exists url, None, None, format; reflexivity|].
  destruct (truthy (of_opt_str path));
    [injection Hnew as <-; exists None, path, None, format; reflexivity|].
  destruct (truthy (of_opt_bytes data) && truthy (of_opt_str format));
    [injection Hnew as <-; exists None, None, data, format; reflexivity
    |discriminate Hnew].
Qed.

Lemma to_plain_constructed (c : MediaClass) (u p d f r : pyval) :
  exists s, to_plain (Media (instance c u p d f r)) = Ok s.
Proof.
  unfold to_plain, call, media_to_plain. cbn [self cls instance].
  destruct c; try (eexists; reflexivity).
  unfold FileElement.to_plain. exec. destruct (truthy p); exec; eexists; reflexivity.
Qed.

(** X9. A message that carries a video element has no structured form:
    [IMMessage.to_dict] raises. Without one, every message whose media elements
    are as constructed has a structured form, with one entry per element. *)
Theorem message_to_dict_defined (m : IMMessage) :
  (forall url path data format o,
     MediaMessage.new VideoElement url path data format = Ok o ->
     In (Media o) (message_elements m) ->
     exists e, IMMessage.to_dict m = Raise e) /\
  ((forall o, In (Media o) (message_elements m) ->
      cls o <> VideoElement /\
      exists url path data format,
        MediaMessage.new (cls o) url path data format = Ok o) ->
   exists d elements,
     IMMessage.to_dict m = Ok (JDict d) /\
     dict_get "message_elements" d = Some (JList elements) /\
     length elements = length (message_elements m)).
Proof.
  split.
  - intros url path data format o Hnew Hin.
    destruct (IMMessage.to_dict m) as [j|e] eqn:Hd; [|eauto]. exfalso.
    unfold IMMessage.to_dict in Hd.
    destruct (IMMessage.comprehension to_dict (message_elements m)) as [ys|e] eqn:Hc;
      [|discriminate Hd].
    destruct (proj2 (comprehension_all _ _ _ Hc) _ Hin) as [y Hy].
    destruct (new_is_instance _ _ _ _ _ _ Hnew) as (u & p & d & f & ->).
    rewrite video_to_dict_instance in Hy. discriminate Hy.
  - intros Hall. unfold IMMessage.to_dict.
    destruct (comprehension_defined to_dict (message_elements m)) as [ys Hys].
    { intros e Hin. apply to_dict_defined_but_video. intros o ->.
      destruct (Hall o Hin) as (Hc & url & path & data & format & Hnew).
      destruct (new_is_instance _ _ _ _ _ _ Hnew) as (u & p & d & f & Ho).
      exists (cls o), (of_opt_str u), (of_opt_str p), d, (of_opt_str f), (VStr "media").
      split; assumption. }
    destruct (comprehension_defined to_plain (message_elements m)) as [ps Hps].
    { intros e Hin. destruct e; try (eexists; reflexivity).
      destruct (Hall o Hin) as (_ & url & path & data & format & Hnew).
      destruct (new_is_instance _ _ _ _ _ _ Hnew) as (u & p & d & f & ->).
      apply to_plain_constructed. }
    rewrite Hys. cbn. rewrite Hps. cbn. eexists _, ys.
    split; [reflexivity|]. split; [reflexivity|].
    apply (comprehension_all _ _ _ Hys).
Qed.

Lemma message_to_dict_defined_witness :
  exists e,
    IMMessage.to_dict
      {| sender := Examples.alice;
         message_elements :=
           [TextMessage "look";
            Media (instance VideoElement (VStr "https://example.com/clip.mp4") VNone
                     VNone VNone (VStr "media"))];
         raw_message := None |} = Raise e.
Proof.
  assert (Hnew : MediaMessage.new VideoElement (Some "https://example.com/clip.mp4")
                   None None None
                 = Ok (instance VideoElement (VStr "https://example.com/clip.mp4")
                         VNone VNone VNone (VStr "media")))
    by (vm_compute; reflexivity).
  apply (proj1 (message_to_dict_defined _) _ _ _ _ _ Hnew).
  right. left. reflexivity.
Defined.

(** ** The plain text of a file element *)

(** X10. The plain text of a file element names what the element holds at the
    time: the URL or the path it was built from, "unnamed" when it was built
    from bytes, and the temporary file once [get_path] has made one. *)
Theorem file_plain_text (w : World) :
  (forall u format, u <> "" ->
     exists o, MediaMessage.new FileElement (Some u) None None format = Ok o /\
       to_plain (Media o) = Ok ("[File:" +:+ u +:+ "]")) /\
  (forall p format, p <> "" ->
     exists o, MediaMessage.new FileElement None (Some p) None format = Ok o /\
       to_plain (Media o) = Ok ("[File:" +:+ p +:+ "]")) /\
  (forall b f, b <> [] -> f <> "" ->
     exists o, MediaMessage.new FileElement None None (Some b) (Some f) = Ok o /\
       to_plain (Media o) = Ok "[File:unnamed]" /\
       to_plain (Media (self (snd (MediaMessage.get_path {| self := o; env := w |}))))
       = Ok ("[File:" +:+ tmp_name (tmp_count w) +:+ "]")).
Proof.
  split; [|split].
  - intros u format Hu. eexists. split; [apply new_from_url, Hu|].
    apply truthy_str in Hu.
    unfold to_plain, call, media_to_plain. cbn [self cls instance].
    unfold FileElement.to_plain. exec. change (truthy VNone) with false. cbv iota.
    exec. unfold py_or. rewrite Hu. reflexivity.
  - intros p format Hp. eexists. split; [apply new_from_path, Hp|].
    apply truthy_str in Hp.
    unfold to_plain, call, media_to_plain. cbn [self cls instance].
    unfold FileElement.to_plain. exec. rewrite Hp. exec. reflexivity.
  - intros b f Hb Hf. eexists. split; [apply new_from_bytes; assumption|].
    apply truthy_bytes in Hb. split.
    + reflexivity.
    + rewrite get_path_run. change (truthy VNone) with false. cbv iota. rewrite Hb.
      rewrite bind_run, ret_run, materialize_run. cbn [snd self].
      unfold to_plain, call, media_to_plain. cbn [self cls instance].
      unfold FileElement.to_plain. exec. rewrite truthy_tmp_name. exec. reflexivity.
Qed.

Lemma file_plain_text_witness :
  exists o,
    MediaMessage.new FileElement None None (Some Examples.png) (Some "png") = Ok o /\
    to_plain (Media o) = Ok "[File:unnamed]" /\
    to_plain (Media (self (snd (MediaMessage.get_path
                                  {| self := o; env := Examples.world0 |}))))
    = Ok ("[File:" +:+ tmp_name 0 +:+ "]").
Proof.
  apply (proj2 (proj2 (file_plain_text Examples.world0))); discriminate.
Defined.

(** ** Delivery in order *)

Module Delivery.
Import TelegramAdapter.

Lemma after_nil (b : Bot) : after b [] = b.
Proof. destruct b. unfold after. cbn. rewrite app_nil_r. reflexivity. Qed.

Lemma after_after (b : Bot) (l k : list Event) : after (after b l) k = after b (l ++ k).
Proof. unfold after. cbn. rewrite app_assoc. reflexivity. Qed.

Lemma record_after (b : Bot) (l : list Event) (ev : Event) :
  record (after b l) ev = after b (l ++ [ev]).
Proof. unfold record, after. cbn. rewrite app_assoc. reflexivity. Qed.

(** One call on the platform: recorded, or refused and raised. *)
Lemma await_bot_after (b : Bot) (l : list Event) (ev : Event) :
  await_bot ev (after b l) = (Ok tt, after b (l ++ [ev])) \/
  exists x, await_bot ev (after b l) = (Raise x, after b l).
Proof.
  unfold await_bot.
  destruct (accepts (after b l) (history (after b l)) ev);
    [left; rewrite record_after; reflexivity|right; eauto].
Qed.

Lemma get_run {S} (s : S) : get s = (Ok s, s).
Proof. reflexivity. Qed.

Lemma sleep_run (b : Bot) (l : list Event) (n : nat) :
  asyncio_sleep n (after b l) = (Ok tt, after b (l ++ [sleep n])).
Proof. unfold asyncio_sleep. rewrite record_after. reflexivity. Qed.

Lemma await_bot_first (b : Bot) (ev : Event) :
  await_bot ev b = (Ok tt, after b [ev]) \/
  exists x, await_bot ev b = (Raise x, after b []).
Proof.
  rewrite after_nil. unfold await_bot.
  destruct (accepts b (history b) ev); [left; reflexivity|right; eauto].
Qed.

(** An element is sent whole, or the send raises part of the way. *)
Lemma send_element_prefix (chat_id : pyval) (index : nat) (e : MessageElement)
    (b : Bot) :
  let full := events_of (markdownify b) chat_id index e in
  (send_element chat_id index e b = (Ok tt, after b full)) \/
  (exists x evs, send_element chat_id index e b = (Raise x, after b evs) /\
                 evs `prefix_of` full).
Proof.
  intros full. subst full.
  destruct e as [text|o| | | | |]; cbn [send_element events_of];
    try (left; rewrite ret_run, after_nil; reflexivity).
  - rewrite bind_run.
    destruct (await_bot_first b (send_chat_action chat_id "typing")) as [-> | [x ->]];
      [|right; eexists _, []; split; [reflexivity|apply prefix_nil]].
    rewrite bind_run, get_run. cbv beta iota.
    change (markdownify (after b [send_chat_action chat_id "typing"]))
      with (markdownify b).
    destruct (0 <? index)%nat.
    + rewrite bind_run, sleep_run. cbn [app].
      destruct (await_bot_after b
                  [send_chat_action chat_id "typing"; sleep (String.length text)]
                  (bot_send_message chat_id (markdownify b text) "MarkdownV2"))
        as [-> | [x ->]]; [left; reflexivity|].
      right. eexists _, _. split; [reflexivity|]. eexists [_]. reflexivity.
    + rewrite bind_run, ret_run.
      destruct (await_bot_after b [send_chat_action chat_id "typing"]
                  (bot_send_message chat_id (markdownify b text) "MarkdownV2"))
        as [-> | [x ->]]; [left; reflexivity|].
      right. eexists _, _. split; [reflexivity|]. eexists [_]. reflexivity.
  - destruct (cls o);
      try (left; destruct (call (getattr "url") o);
           rewrite ret_run, after_nil; reflexivity).
    + rewrite bind_run.
      destruct (await_bot_first b (send_chat_action chat_id "upload_voice"))
        as [-> | [x ->]];
        [|right; eexists _, []; split; [reflexivity|apply prefix_nil]].
      rewrite bind_run.
      destruct (call (getattr "url") o) as [url|x]; cbn [lift].
      * rewrite ret_run.
        destruct (await_bot_after b [send_chat_action chat_id "upload_voice"]
                    (send_voice chat_id url "MarkdownV2"))
          as [-> | [x ->]]; [left; reflexivity|].
        right. eexists _, _. split; [reflexivity|]. eexists [_]. reflexivity.
      * rewrite raise_run. right. eexists _, _. split; [reflexivity|]. reflexivity.
    + rewrite bind_run.
      destruct (await_bot_first b (send_chat_action chat_id "upload_photo"))
        as [-> | [x ->]];
        [|right; eexists _, []; split; [reflexivity|apply prefix_nil]].
      rewrite bind_run.
      destruct (call (getattr "url") o) as [url|x]; cbn [lift].
      * rewrite ret_run.
        destruct (await_bot_after b [send_chat_action chat_id "upload_photo"]
                    (send_photo chat_id url "MarkdownV2"))
          as [-> | [x ->]]; [left; reflexivity|].
        right. eexists _, _. split; [reflexivity|]. eexists [_]. reflexivity.
      * rewrite raise_run. right. eexists _, _. split; [reflexivity|]. reflexivity.
Qed.

(** The index of an object that is met for the first time is its position;
    where all objects are distinct, the loop is the loop by position. *)
Lemma first_from_distinct (x j n : nat) :
  x = j + n -> first_from (fun i => i) x j n = x.
Proof.
  revert j. induction n as [|n IH]; intros j Hx; cbn [first_from]; [lia|].
  destruct (Nat.eqb_spec j x) as [Hj|Hj]; [lia|]. apply IH. lia.
Qed.

Lemma index_distinct (position : nat) : index (fun i => i) position = position.
Proof. unfold index. apply first_from_distinct. reflexivity. Qed.

Lemma send_loop_distinct (chat_id : pyval) (elements : list MessageElement) :
  forall position,
    send_loop_of (fun i => i) chat_id position elements
    = send_loop chat_id position elements.
Proof.
  induction elements as [|e rest IH]; intros position; [reflexivity|].
  cbn [send_loop_of send_loop]. rewrite index_distinct, IH. reflexivity.
Qed.

Lemma send_message_distinct (m : IMMessage) (recipient : ChatSender) (b : Bot) :
  send_message_of (fun i => i) m recipient b = send_message m recipient b.
Proof.
  unfold send_message_of, send_message. rewrite !bind_run.
  destruct (chat_type recipient); rewrite ?ret_run, ?raise_run, ?send_loop_distinct;
    reflexivity.
Qed.

(** An element has an index above 0, and a text its pause, exactly when it
    is not the object that the list holds first. *)
Lemma first_from_ge (id_at : nat -> nat) (x j n : nat) : j <= first_from id_at x j n.
Proof.
  revert j. induction n as [|n IH]; intros j; cbn [first_from]; [lia|].
  destruct (id_at j =? x)%nat; [lia|]. specialize (IH (S j)). lia.
Qed.

Lemma index_positive (id_at : nat -> nat) (position : nat) :
  (0 <? index id_at position)%nat = negb (id_at 0 =? id_at position)%nat.
Proof.
  unfold index. destruct position as [|n]; cbn [first_from].
  - rewrite Nat.eqb_refl. reflexivity.
  - destruct (id_at 0 =? id_at (S n))%nat; [reflexivity|].
    pose proof (first_from_ge id_at (id_at (S n)) 1 n) as H. cbn [negb].
    apply Nat.ltb_lt. lia.
Qed.

Lemma send_loop_prefix (id_at : nat -> nat) (chat_id : pyval)
    (elements : list MessageElement) :
  forall (position : nat) (b : Bot),
    let full := all_events_of id_at (markdownify b) chat_id position elements in
    exists r evs,
      send_loop_of id_at chat_id position elements b = (r, after b evs) /\
      evs `prefix_of` full /\
      (r = Ok tt -> evs = full).
Proof.
  induction elements as [|e rest IH]; intros position b full; subst full.
  - exists (Ok tt), []. rewrite after_nil.
    split; [reflexivity|]. split; [apply prefix_nil|reflexivity].
  - cbn [send_loop_of all_events_of]. rewrite bind_run.
    destruct (send_element_prefix chat_id (index id_at position) e b)
      as [-> | (x & evs & -> & Hp)].
    + destruct (IH (S position)
                  (after b (events_of (markdownify b) chat_id (index id_at position) e)))
        as (r & evs & Hr & Hp & Hok).
      rewrite Hr, after_after. eexists r, _. split; [reflexivity|].
      change (markdownify
                (after b (events_of (markdownify b) chat_id (index id_at position) e)))
        with (markdownify b) in Hp, Hok.
      split; [apply prefix_app, Hp|]. intros Hrok. rewrite (Hok Hrok). reflexivity.
    + eexists (Raise x), evs. split; [reflexivity|].
      split; [apply prefix_app_r, Hp|discriminate].
Qed.

(** An element whose send raises ends the loop, whichever objects the list
    holds. *)
Lemma send_loop_of_app (id_at : nat -> nat) (chat_id : pyval)
    (pre post : list MessageElement) :
  forall (i : nat) (b : Bot),
    send_loop_of id_at chat_id i (pre ++ post) b =
    match send_loop_of id_at chat_id i pre b with
    | (Ok _, b1) => send_loop_of id_at chat_id (i + length pre) post b1
    | (Raise x, b1) => (Raise x, b1)
    end.
Proof.
  induction pre as [|e pre IH]; intros i b.
  - cbn. rewrite Nat.add_0_r. reflexivity.
  - cbn [app send_loop_of length]. rewrite !bind_run.
    destruct (send_element chat_id (index id_at i) e b) as [[[]|x] b']; [|reflexivity].
    rewrite IH. replace (i + S (length pre)) with (S i + length pre) by lia.
    reflexivity.
Qed.

Lemma send_loop_of_abort (id_at : nat -> nat) (chat_id : pyval)
    (pre post : list MessageElement) (e : MessageElement) (b b1 b2 : Bot) (x : exn) :
  send_loop_of id_at chat_id 0 pre b = (Ok tt, b1) ->
  send_element chat_id (index id_at (length pre)) e b1 = (Raise x, b2) ->
  send_loop_of id_at chat_id 0 (pre ++ e :: post) b = (Raise x, b2).
Proof.
  intros Hpre He. rewrite send_loop_of_app, Hpre.
  cbn [send_loop_of]. rewrite bind_run. cbn [Nat.add]. rewrite He. reflexivity.
Qed.

End Delivery.

(** X11. The elements of a message reach the platform strictly in order:
    whether [send_message] returns or raises, what it has added to the history
    is an initial part of what a platform that refuses nothing would receive,
    and all of it when it returns. Nothing already in the history is touched.
    This holds whichever objects the list holds, one object at several
    positions included: a text is paused for by the index of its object. *)
Theorem send_delivers_in_order (id_at : nat -> nat) (m : IMMessage)
    (recipient : ChatSender) (chat_id : pyval) (b : TelegramAdapter.Bot) :
  (chat_type recipient = C2C /\ chat_id = VStr (user_id recipient)) \/
  (chat_type recipient = GROUP /\ chat_id = of_opt_str (group_id recipient)) ->
  let full := TelegramAdapter.all_events_of id_at (TelegramAdapter.markdownify b)
                chat_id 0 (message_elements m) in
  exists r evs,
    TelegramAdapter.send_message_of id_at m recipient b
      = (r, TelegramAdapter.after b evs) /\
    evs `prefix_of` full /\
    (r = Ok tt -> evs = full).
Proof.
  intros Hrec full. subst full. unfold TelegramAdapter.send_message_of.
  rewrite bind_run.
  destruct Hrec as [[-> ->]|[-> ->]]; rewrite ret_run; apply Delivery.send_loop_prefix.
Qed.

Lemma send_delivers_in_order_witness :
  exists r evs,
    TelegramAdapter.send_message_of Samples.again_ids Samples.again Examples.alice
      Examples.bot0
    = (r, TelegramAdapter.after Examples.bot0 evs) /\
    evs `prefix_of`
      [TelegramAdapter.send_chat_action (VStr "42") "typing";
       TelegramAdapter.bot_send_message (VStr "42") "a" "MarkdownV2";
       TelegramAdapter.send_chat_action (VStr "42") "typing";
       TelegramAdapter.sleep 1;
       TelegramAdapter.bot_send_message (VStr "42") "b" "MarkdownV2";
       TelegramAdapter.send_chat_action (VStr "42") "typing";
       TelegramAdapter.bot_send_message (VStr "42") "a" "MarkdownV2"] /\
    (r = Ok tt ->
     evs = [TelegramAdapter.send_chat_action (VStr "42") "typing";
            TelegramAdapter.bot_send_message (VStr "42") "a" "MarkdownV2";
            TelegramAdapter.send_chat_action (VStr "42") "typing";
            TelegramAdapter.sleep 1;
            TelegramAdapter.bot_send_message (VStr "42") "b" "MarkdownV2";
            TelegramAdapter.send_chat_action (VStr "42") "typing";
            TelegramAdapter.bot_send_message (VStr "42") "a" "MarkdownV2"]).
Proof.
  exact (send_delivers_in_order Samples.again_ids Samples.again Examples.alice
           (VStr "42") Examples.bot0 (or_introl (conj eq_refl eq_refl))).
Defined.

Module Accepted.
Import TelegramAdapter.

Section Accepted.
Context (b0 : Bot).
Hypothesis Hacc : forall h ev, accepts b0 h ev = true.

Lemma await_bot_accepted (l : list Event) (ev : Event) :
  await_bot ev (after b0 l) = (Ok tt, after b0 (l ++ [ev])).
Proof.
  unfold await_bot. change (accepts (after b0 l)) with (accepts b0).
  rewrite Hacc, Delivery.record_after. reflexivity.
Qed.

Lemma send_element_accepted (chat_id : pyval) (index : nat) (e : MessageElement)
    (l : list Event) :
  (forall o, e = Media o -> exists v, call (getattr "url") o = Ok v) ->
  send_element chat_id index e (after b0 l)
  = (Ok tt, after b0 (l ++ events_of (markdownify b0) chat_id index e)).
Proof.
  intros Hurl.
  destruct e as [text|o| | | | |]; cbn [send_element events_of];
    try (rewrite ret_run, app_nil_r; reflexivity).
  - rewrite bind_run, await_bot_accepted, bind_run, Delivery.get_run. cbv beta iota.
    change (markdownify (after b0 (l ++ [send_chat_action chat_id "typing"])))
      with (markdownify b0).
    destruct (0 <? index)%nat.
    + rewrite bind_run, Delivery.sleep_run, await_bot_accepted.
      rewrite <- !app_assoc. reflexivity.
    + rewrite bind_run, ret_run, await_bot_accepted.
      rewrite <- !app_assoc. reflexivity.
  - destruct (Hurl o eq_refl) as [v Hv]. rewrite Hv.
    destruct (cls o); try (rewrite ret_run, app_nil_r; reflexivity).
    + rewrite bind_run, await_bot_accepted, bind_run. cbn [lift].
      rewrite ret_run, await_bot_accepted, <- !app_assoc. reflexivity.
    + rewrite bind_run, await_bot_accepted, bind_run. cbn [lift].
      rewrite ret_run, await_bot_accepted, <- !app_assoc. reflexivity.
Qed.

Lemma send_loop_accepted (id_at : nat -> nat) (chat_id : pyval)
    (elements : list MessageElement) :
  (forall o, In (Media o) elements -> exists v, call (getattr "url") o = Ok v) ->
  forall (position : nat) (l : list Event),
    send_loop_of id_at chat_id position elements (after b0 l)
    = (Ok tt,
       after b0 (l ++ all_events_of id_at (markdownify b0) chat_id position elements)).
Proof.
  induction elements as [|e rest IH]; intros Hurl position l.
  - cbn. rewrite app_nil_r. reflexivity.
  - cbn [send_loop_of all_events_of]. rewrite bind_run, send_element_accepted.
    + rewrite IH; [rewrite <- app_assoc; reflexivity|].
      intros o Ho. apply Hurl. right. exact Ho.
    + intros o ->. apply Hurl. left. reflexivity.
Qed.

End Accepted.

Lemma sent_texts_app (l k : list Event) :
  sent_texts (l ++ k) = (sent_texts l ++ sent_texts k)%list.
Proof. unfold sent_texts. apply omap_app. Qed.

Lemma sent_texts_events (id_at : nat -> nat) (md : string -> string) (chat_id : pyval)
    (elements : list MessageElement) :
  forall position,
    sent_texts (all_events_of id_at md chat_id position elements)
    = map md (texts_of elements).
Proof.
  induction elements as [|e rest IH]; intros position; [reflexivity|].
  cbn [all_events_of]. rewrite sent_texts_app, IH.
  destruct e as [text|o| | | | |]; try reflexivity.
  - cbn [events_of]. destruct (0 <? index id_at position)%nat; reflexivity.
  - cbn [events_of].
    destruct (cls o), (call (getattr "url") o); reflexivity.
Qed.

End Accepted.

(** X12. On a platform that refuses nothing, [send_message] returns and
    every element the adapter knows has been sent, in order: the history grows
    by the events of each element in turn, and the texts delivered are exactly
    the texts of the text elements, rendered, in the order of the message.
    Elements of the other classes are passed over. This holds whichever
    objects the list holds: a text object that the list holds first and again
    later is sent each time, without a pause. *)
Theorem send_delivers_everything (id_at : nat -> nat) (m : IMMessage)
    (recipient : ChatSender) (chat_id : pyval) (b : TelegramAdapter.Bot) :
  (chat_type recipient = C2C /\ chat_id = VStr (user_id recipient)) \/
  (chat_type recipient = GROUP /\ chat_id = of_opt_str (group_id recipient)) ->
  (forall h ev, TelegramAdapter.accepts b h ev = true) ->
  (forall o, In (Media o) (message_elements m) ->
     exists url path data format, MediaMessage.new (cls o) url path data format = Ok o) ->
  exists evs,
    TelegramAdapter.send_message_of id_at m recipient b
      = (Ok tt, TelegramAdapter.after b evs) /\
    evs = TelegramAdapter.all_events_of id_at (TelegramAdapter.markdownify b) chat_id 0
            (message_elements m) /\
    TelegramAdapter.sent_texts evs
      = map (TelegramAdapter.markdownify b)
            (TelegramAdapter.texts_of (message_elements m)).
Proof.
  intros Hrec Hacc Hmedia. eexists. split; [|split; [reflexivity|]].
  - unfold TelegramAdapter.send_message_of. rewrite bind_run.
    assert (Hurl : forall o, In (Media o) (message_elements m) ->
                     exists v, call (getattr "url") o = Ok v).
    { intros o Ho. destruct (Hmedia o Ho) as (url & path & data & format & Hnew).
      destruct (new_is_instance _ _ _ _ _ _ Hnew) as (u & p & d & f & ->).
      eexists. unfold call. rewrite getattr_url. reflexivity. }
    pose proof (Accepted.send_loop_accepted b Hacc id_at chat_id (message_elements m)
                  Hurl 0 []) as H.
    rewrite Delivery.after_nil in H. cbn [app] in H.
    destruct Hrec as [[-> ->]|[-> ->]]; rewrite ret_run; exact H.
  - apply Accepted.sent_texts_events.
Qed.

Lemma send_delivers_everything_witness :
  let cat := instance ImageMessage (VStr "https://example.com/cat.png") VNone VNone VNone
               (VStr "media") in
  let m := {| sender := Examples.alice;
              message_elements := [TextMessage "hi"; Media cat; TextMessage "hi"];
              raw_message := None |} in
  exists evs,
    TelegramAdapter.send_message_of Samples.again_ids m Examples.alice Samples.open_bot
      = (Ok tt, TelegramAdapter.after Samples.open_bot evs) /\
    evs = [TelegramAdapter.send_chat_action (VStr "42") "typing";
           TelegramAdapter.bot_send_message (VStr "42") "hi" "MarkdownV2";
           TelegramAdapter.send_chat_action (VStr "42") "upload_photo";
           TelegramAdapter.send_photo (VStr "42") (VStr "https://example.com/cat.png")
             "MarkdownV2";
           TelegramAdapter.send_chat_action (VStr "42") "typing";
           TelegramAdapter.bot_send_message (VStr "42") "hi" "MarkdownV2"] /\
    TelegramAdapter.sent_texts evs = ["hi"; "hi"].
Proof.
  intros cat m.
  apply (send_delivers_everything Samples.again_ids m Examples.alice (VStr "42")
           Samples.open_bot).
  - left. split; reflexivity.
  - intros h ev. reflexivity.
  - intros o [H|[H|[H|[]]]]; try discriminate H. injection H as <-.
    exists (Some "https://example.com/cat.png"), None, None, None.
    vm_compute. reflexivity.
Defined.

(** ** Converting a Telegram message *)

(** The sender and the text element that a conversion is made of, and the
    error that a voice or a photo ends it with. *)
Lemma convert_to_message_run (raw : TelegramAdapter.TelegramMessage) :
  TelegramAdapter.convert_to_message raw =
  let group := String.eqb (TelegramAdapter.chat_kind raw) "group"
               || String.eqb (TelegramAdapter.chat_kind raw) "supergroup" in
  match (if group then TelegramAdapter.sender_chat raw else Some ""),
        TelegramAdapter.from_user raw with
  | None, _ => Raise (AttributeError "NoneType" "id")
  | Some _, None => Raise (AttributeError "NoneType" "username")
  | Some i, Some user =>
      match TelegramAdapter.voice raw, TelegramAdapter.photo raw with
      | None, [] =>
          Ok {| sender :=
                  if group
                  then from_group_chat i (TelegramAdapter.chat_id raw)
                         (TelegramAdapter.get_display_name user)
                  else from_c2c_chat (TelegramAdapter.chat_id raw)
                         (TelegramAdapter.get_display_name user);
                message_elements :=
                  if truthy (of_opt_str (TelegramAdapter.text raw))
                  then [TextMessage (py_str (of_opt_str (TelegramAdapter.text raw)))]
                  else [];
                raw_message := Some (TelegramAdapter.as_dict raw) |}
      | _, _ => Raise (AttributeError "coroutine" "file_path")
      end
  end.
Proof.
  unfold TelegramAdapter.convert_to_message, TelegramAdapter.display_name_of,
    TelegramAdapter.file_path. cbv zeta.
  destruct (String.eqb (TelegramAdapter.chat_kind raw) "group"
            || String.eqb (TelegramAdapter.chat_kind raw) "supergroup");
    [destruct (TelegramAdapter.sender_chat raw) as [i|]; [|reflexivity]|];
    (destruct (TelegramAdapter.from_user raw) as [user|]; [|reflexivity]);
    destruct (TelegramAdapter.voice raw) as [url|];
    destruct (TelegramAdapter.photo raw) as [|ph rest]; reflexivity.
Qed.

(** X13. A conversion succeeds exactly when the message has a [from_user],
    has a [sender_chat] if it comes from a group or supergroup, and has neither
    a voice nor a photo. A message with a voice or a photo whose sender can be
    made out raises [AttributeError]: [get_file()] is not awaited, and the
    coroutine object it returns has no [file_path]. *)
Theorem convert_succeeds_exactly_when (raw : TelegramAdapter.TelegramMessage) :
  ((exists m, TelegramAdapter.convert_to_message raw = Ok m) <->
   ((String.eqb (TelegramAdapter.chat_kind raw) "group"
     || String.eqb (TelegramAdapter.chat_kind raw) "supergroup" = true ->
     TelegramAdapter.sender_chat raw <> None) /\
    TelegramAdapter.from_user raw <> None /\
    TelegramAdapter.voice raw = None /\
    TelegramAdapter.photo raw = [])) /\
  ((String.eqb (TelegramAdapter.chat_kind raw) "group"
    || String.eqb (TelegramAdapter.chat_kind raw) "supergroup" = true ->
    TelegramAdapter.sender_chat raw <> None) ->
   TelegramAdapter.from_user raw <> None ->
   TelegramAdapter.voice raw <> None \/ TelegramAdapter.photo raw <> [] ->
   TelegramAdapter.convert_to_message raw
   = Raise (AttributeError "coroutine" "file_path")).
Proof.
  rewrite convert_to_message_run. cbv zeta.
  destruct (String.eqb (TelegramAdapter.chat_kind raw) "group"
            || String.eqb (TelegramAdapter.chat_kind raw) "supergroup");
    [destruct (TelegramAdapter.sender_chat raw) as [i|]|];
    destruct (TelegramAdapter.from_user raw) as [user|];
    destruct (TelegramAdapter.voice raw) as [url|];
    destruct (TelegramAdapter.photo raw) as [|ph rest];
    (split;
     [split;
      [intros [m Hm]; try discriminate Hm; repeat split; congruence
      |intros (Hs & Hu & Hv & Hp); try discriminate Hv; try discriminate Hp;
       try (exfalso; apply Hu; reflexivity);
       try (exfalso; apply Hs; reflexivity); eexists; reflexivity]
     |intros Hs Hu Hvp; try reflexivity;
      try (exfalso; apply Hu; reflexivity);
      try (exfalso; apply Hs; reflexivity);
      destruct Hvp as [H|H]; exfalso; apply H; reflexivity]).
Qed.

Lemma convert_succeeds_exactly_when_witness :
  TelegramAdapter.convert_to_message Samples.private_photo
  = Raise (AttributeError "coroutine" "file_path").
Proof.
  apply (proj2 (convert_succeeds_exactly_when Samples.private_photo)).
  - intros H. discriminate H.
  - discriminate.
  - right. discriminate.
Defined.

(** X14. What a conversion keeps is the text: a converted message holds the
    text of the original as its one element, or no element when the text is
    empty or missing, and never a voice or an image; the payload of the
    platform is passed on as it is. *)
Theorem convert_keeps_only_text (raw : TelegramAdapter.TelegramMessage)
    (m : IMMessage) :
  TelegramAdapter.convert_to_message raw = Ok m ->
  raw_message m = Some (TelegramAdapter.as_dict raw) /\
  message_elements m
    = match TelegramAdapter.text raw with
      | Some text => if truthy (VStr text) then [TextMessage text] else []
      | None => []
      end /\
  IMMessage.voices m = [] /\
  IMMessage.images m = [].
Proof.
  rewrite convert_to_message_run. cbv zeta.
  destruct (if String.eqb (TelegramAdapter.chat_kind raw) "group"
               || String.eqb (TelegramAdapter.chat_kind raw) "supergroup"
            then TelegramAdapter.sender_chat raw else Some "") as [i|];
    [|discriminate].
  destruct (TelegramAdapter.from_user raw) as [user|]; [|discriminate].
  destruct (TelegramAdapter.voice raw) as [url|]; [discriminate|].
  destruct (TelegramAdapter.photo raw) as [|ph rest]; [|discriminate].
  unfold IMMessage.voices, IMMessage.images.
  destruct (TelegramAdapter.text raw) as [[|ch text]|];
    intros [= <-]; repeat split; reflexivity.
Qed.

Lemma convert_keeps_only_text_witness :
  exists m,
    TelegramAdapter.convert_to_message Samples.private_text = Ok m /\
    message_elements m = [TextMessage "hello"] /\
    raw_message m = Some (JDict [("message_id", JInt 3)]).
Proof.
  assert (H : TelegramAdapter.convert_to_message Samples.private_text
              = Ok {| sender := from_c2c_chat "7" "John None";
                      message_elements := [TextMessage "hello"];
                      raw_message := Some (JDict [("message_id", JInt 3)]) |})
    by (vm_compute; reflexivity).
  eexists. split; [exact H|].
  destruct (convert_keeps_only_text _ _ H) as (Hr & He & _).
  split; [exact He|exact Hr].
Defined.

(** X15. A reply goes where the message came from: sending to the sender of
    a converted message addresses the chat of the original, in a private chat
    and in a group alike. *)
Theorem reply_addresses_origin (raw : TelegramAdapter.TelegramMessage)
    (m reply : IMMessage) (id_at : nat -> nat) (b : TelegramAdapter.Bot) :
  TelegramAdapter.convert_to_message raw = Ok m ->
  TelegramAdapter.send_message_of id_at reply (sender m) b
  = TelegramAdapter.send_loop_of id_at (VStr (TelegramAdapter.chat_id raw)) 0
      (message_elements reply) b.
Proof.
  rewrite convert_to_message_run. cbv zeta. intros H.
  assert (Hs : (chat_type (sender m) = C2C /\
                user_id (sender m) = TelegramAdapter.chat_id raw) \/
               (chat_type (sender m) = GROUP /\
                group_id (sender m) = Some (TelegramAdapter.chat_id raw))).
  { destruct (String.eqb (TelegramAdapter.chat_kind raw) "group"
              || String.eqb (TelegramAdapter.chat_kind raw) "supergroup");
      [destruct (TelegramAdapter.sender_chat raw) as [i|]; [|discriminate H]|];
      (destruct (TelegramAdapter.from_user raw) as [user|]; [|discriminate H]);
      (destruct (TelegramAdapter.voice raw) as [url|]; [discriminate H|]);
      (destruct (TelegramAdapter.photo raw) as [|ph rest]; [|discriminate H]);
      injection H as <-; cbn; auto. }
  unfold TelegramAdapter.send_message_of. rewrite bind_run.
  destruct Hs as [[-> ->]|[-> ->]]; reflexivity.
Qed.

Lemma reply_addresses_origin_witness :
  TelegramAdapter.send_message_of (fun position => position) Examples.two_texts
    (from_c2c_chat "7" "John None") Samples.open_bot
  = TelegramAdapter.send_loop_of (fun position => position) (VStr "7") 0
      (message_elements Examples.two_texts) Samples.open_bot.
Proof.
  assert (H : TelegramAdapter.convert_to_message Samples.private_text
              = Ok {| sender := from_c2c_chat "7" "John None";
                      message_elements := [TextMessage "hello"];
                      raw_message := Some (JDict [("message_id", JInt 3)]) |})
    by (vm_compute; reflexivity).
  exact (reply_addresses_origin _ _ Examples.two_texts (fun position => position)
           Samples.open_bot H).
Defined.

(** ** The display name *)

(** X16. The user name wins. Without one, the first and last name are joined,
    and a name that is missing is written out as "None": a user with a first
    name only is called by it followed by "None". With no name at all, the
    identifier stands in. *)
Theorem display_name_cases (user : TelegramAdapter.User) :
  (forall u, TelegramAdapter.username user = Some u -> u <> "" ->
     TelegramAdapter.get_display_name user = u) /\
  (truthy (of_opt_str (TelegramAdapter.username user)) = false ->
   (forall f l, TelegramAdapter.first_name user = Some f ->
      TelegramAdapter.last_name user = Some l -> (f <> "" \/ l <> "") ->
      TelegramAdapter.get_display_name user = strip (f +:+ " " +:+ l)) /\
   (forall f, TelegramAdapter.first_name user = Some f -> f <> "" ->
      TelegramAdapter.last_name user = None ->
      TelegramAdapter.get_display_name user = strip (f +:+ " None")) /\
   (truthy (of_opt_str (TelegramAdapter.first_name user)) = false ->
    truthy (of_opt_str (TelegramAdapter.last_name user)) = false ->
    TelegramAdapter.get_display_name user = TelegramAdapter.id user)).
Proof.
  unfold TelegramAdapter.get_display_name. split.
  - intros u -> Hu. cbn [of_opt_str]. rewrite (truthy_str u Hu). reflexivity.
  - intros ->. repeat split.
    + intros f l -> -> Hfl. cbn [of_opt_str py_str].
      destruct Hfl as [H|H]; rewrite (truthy_str _ H), ?orb_true_r; reflexivity.
    + intros f -> Hf ->. cbn [of_opt_str py_str]. rewrite (truthy_str f Hf).
      reflexivity.
    + intros -> ->. reflexivity.
Qed.

Lemma display_name_cases_witness :
  TelegramAdapter.get_display_name Samples.john = "John None".
Proof.
  exact (proj1 (proj2 (proj2 (display_name_cases Samples.john) eq_refl))
           "John" eq_refl ltac:(discriminate) eq_refl).
Defined.

(** ** The composing indicator *)

(** X17. [set_chat_editing_state] never raises, whatever the platform does. It
    makes one call, "typing" or "cancel", to the user of a one-to-one chat and
    to the group otherwise; a call that is refused leaves the platform as it
    was and a warning in the log. *)
Theorem set_chat_editing_state_never_raises (chat_sender : ChatSender)
    (is_editing : bool) (a : TelegramAdapter.Adapter) :
  let chat_id :=
    match chat_type chat_sender with
    | C2C => VStr (user_id chat_sender)
    | _ => of_opt_str (group_id chat_sender)
    end in
  let ev := TelegramAdapter.send_chat_action chat_id
              (if is_editing then "typing" else "cancel") in
  let b := TelegramAdapter.bot a in
  TelegramAdapter.set_chat_editing_state chat_sender is_editing a =
  if TelegramAdapter.accepts b (TelegramAdapter.history b) ev
  then (Ok tt,
        {| TelegramAdapter.bot := TelegramAdapter.record b ev;
           TelegramAdapter.log :=
             TelegramAdapter.log a
             ++ [TelegramAdapter.log_debug is_editing chat_id] |})
  else (Ok tt,
        {| TelegramAdapter.bot := b;
           TelegramAdapter.log :=
             (TelegramAdapter.log a ++ [TelegramAdapter.log_debug is_editing chat_id])
             ++ [TelegramAdapter.log_warning (TelegramError "request failed")] |}).
Proof.
  cbv zeta. unfold TelegramAdapter.set_chat_editing_state, TelegramAdapter.try_except.
  rewrite bind_run. unfold TelegramAdapter.logger at 1. cbv beta iota.
  destruct is_editing; unfold TelegramAdapter.on_bot, TelegramAdapter.await_bot;
    cbn [TelegramAdapter.bot TelegramAdapter.log];
    destruct (TelegramAdapter.accepts (TelegramAdapter.bot a)
                (TelegramAdapter.history (TelegramAdapter.bot a)) _); reflexivity.
Qed.

(** ** The answer of the Gemini adapter *)

Section ChatFacts.
Import GeminiAdapter.
Context (post : string -> list (string * jval) -> list (string * jval) -> option Response)
        (ChatResponse : Type) (LLMChatResponse : json -> outcome ChatResponse)
        (config : GeminiConfig) (req : LLMChatRequest).

Lemma chat_run :
  chat post ChatResponse LLMChatResponse config req =
  match post (api_url config req) (chat_data req) (headers config) with
  | None => (Raises RequestException, [])
  | Some response =>
      if ((400 <=? status_code response) && (status_code response <? 600))%Z
      then (Raises (HTTPError (status_code response)),
            [print_text ("API Response: " +:+ response_text response)])
      else match response_json response with
           | None => (Raises JSONDecodeError,
                      [print_text ("API Response: " +:+ response_text response)])
           | Some response_data =>
               (and_then (transformed_response req response_data) LLMChatResponse,
                [print_value response_data])
           end
  end.
Proof.
  unfold chat, raise_for_status.
  destruct (post _ _ _) as [response|]; [|reflexivity].
  destruct ((400 <=? status_code response) && (status_code response <? 600))%Z;
    [reflexivity|].
  cbn [and_then]. destruct (response_json response); reflexivity.
Qed.

End ChatFacts.

(** X18. [chat] builds an answer only from a request that was answered, with a
    status outside 400..599, by a JSON body; otherwise it raises the error of
    the transport and the canonical response is never constructed. *)
Theorem chat_raises_transport_errors
    (post : string -> list (string * jval) -> list (string * jval)
            -> option GeminiAdapter.Response)
    (ChatResponse : Type)
    (LLMChatResponse : GeminiAdapter.json -> GeminiAdapter.outcome ChatResponse)
    (config : GeminiAdapter.GeminiConfig) (req : GeminiAdapter.LLMChatRequest)
    (r : ChatResponse) (out : list GeminiAdapter.Printed) :
  GeminiAdapter.chat post ChatResponse LLMChatResponse config req
    = (GeminiAdapter.Returns r, out) ->
  exists response data kwargs,
    post (GeminiAdapter.api_url config req) (GeminiAdapter.chat_data req)
         (GeminiAdapter.headers config) = Some response /\
    ~ (400 <= GeminiAdapter.status_code response < 600)%Z /\
    GeminiAdapter.response_json response = Some data /\
    GeminiAdapter.transformed_response req data = GeminiAdapter.Returns kwargs /\
    LLMChatResponse kwargs = GeminiAdapter.Returns r /\
    out = [GeminiAdapter.print_value data].
Proof.
  rewrite chat_run.
  destruct (post _ _ _) as [response|] eqn:Hpost; [|discriminate].
  destruct ((400 <=? GeminiAdapter.status_code response)
            && (GeminiAdapter.status_code response <? 600))%Z eqn:Hs;
    [discriminate|].
  destruct (GeminiAdapter.response_json response) as [data|] eqn:Hjson;
    [|discriminate].
  destruct (GeminiAdapter.transformed_response req data) as [kwargs|e] eqn:Ht;
    [|discriminate].
  cbn [GeminiAdapter.and_then]. intros H.
  assert (Hr : LLMChatResponse kwargs = GeminiAdapter.Returns r) by congruence.
  assert (Ho : out = [GeminiAdapter.print_value data]) by congruence.
  exists response, data, kwargs.
  split; [reflexivity|]. split.
  - intros [H1 H2]. apply andb_false_iff in Hs as [Hs|Hs];
      [apply Z.leb_gt in Hs|apply Z.ltb_ge in Hs]; lia.
  - split; [assumption|]. split; [assumption|]. split; assumption.
Qed.

Lemma chat_raises_transport_errors_witness :
  exists response,
    Samples.respond 200 (Some Samples.answer)
      (GeminiAdapter.api_url Samples.config0 Examples.request0)
      (GeminiAdapter.chat_data Examples.request0)
      (GeminiAdapter.headers Samples.config0) = Some response /\
    ~ (400 <= GeminiAdapter.status_code response < 600)%Z /\
    GeminiAdapter.response_json response = Some Samples.answer.
Proof.
  destruct (chat_raises_transport_errors (Samples.respond 200 (Some Samples.answer))
              GeminiAdapter.json GeminiAdapter.Returns Samples.config0
              Examples.request0 _ _ eq_refl)
    as (response & data & kwargs & H1 & H2 & H3 & _).
  exists response. split; [exact H1|]. split; [exact H2|].
  injection H1 as <-. reflexivity.
Defined.

(** X19. A prompt that was blocked is answered without candidates; [chat] then
    raises [KeyError] on "candidates": the block reason it has just read is
    dropped and no canonical response is built. *)
Theorem blocked_prompt_raises_KeyError
    (post : string -> list (string * jval) -> list (string * jval)
            -> option GeminiAdapter.Response)
    (ChatResponse : Type)
    (LLMChatResponse : GeminiAdapter.json -> GeminiAdapter.outcome ChatResponse)
    (config : GeminiAdapter.GeminiConfig) (req : GeminiAdapter.LLMChatRequest)
    (response : GeminiAdapter.Response) (d feedback : list (string * GeminiAdapter.json)) :
  post (GeminiAdapter.api_url config req) (GeminiAdapter.chat_data req)
       (GeminiAdapter.headers config) = Some response ->
  ~ (400 <= GeminiAdapter.status_code response < 600)%Z ->
  GeminiAdapter.response_json response = Some (GeminiAdapter.JsObj d) ->
  GeminiAdapter.member "promptFeedback" d = Some (GeminiAdapter.JsObj feedback) ->
  GeminiAdapter.member "candidates" d = None ->
  GeminiAdapter.chat post ChatResponse LLMChatResponse config req
  = (GeminiAdapter.Raises (GeminiAdapter.KeyError (GeminiAdapter.JsStr "candidates")),
     [GeminiAdapter.print_value (GeminiAdapter.JsObj d)]).
Proof.
  intros Hpost Hs Hjson Hfb Hc. rewrite chat_run, Hpost.
  assert (Hst : ((400 <=? GeminiAdapter.status_code response)
                 && (GeminiAdapter.status_code response <? 600))%Z = false).
  { apply andb_false_iff.
    destruct (Z.leb_spec 400 (GeminiAdapter.status_code response)); [|auto].
    right. apply Z.ltb_ge. lia. }
  rewrite Hst, Hjson. unfold GeminiAdapter.transformed_response.
  cbn [GeminiAdapter.js_get GeminiAdapter.js_item GeminiAdapter.and_then].
  rewrite Hfb. cbn [GeminiAdapter.js_get GeminiAdapter.and_then]. rewrite Hc.
  reflexivity.
Qed.

Lemma blocked_prompt_raises_KeyError_witness :
  GeminiAdapter.chat (Samples.respond 200 (Some Samples.blocked)) GeminiAdapter.json
    GeminiAdapter.Returns Samples.config0 Examples.request0
  = (GeminiAdapter.Raises (GeminiAdapter.KeyError (GeminiAdapter.JsStr "candidates")),
     [GeminiAdapter.print_value Samples.blocked]).
Proof.
  apply (blocked_prompt_raises_KeyError (Samples.respond 200 (Some Samples.blocked))
           GeminiAdapter.json GeminiAdapter.Returns Samples.config0 Examples.request0
           {| GeminiAdapter.status_code := 200; GeminiAdapter.response_text := "body";
              GeminiAdapter.response_json := Some Samples.blocked |}
           _ [("blockReason", GeminiAdapter.JsStr "SAFETY")]).
  - reflexivity.
  - cbn. lia.
  - reflexivity.
  - reflexivity.
  - reflexivity.
Defined.

(** X20. Of an answer only the text of the first part of the first candidate is
    used. The keyword arguments of the canonical response carry it as the
    content of the one choice, with the model of the request, the finish reason
    "stop" and a usage of zero, whatever else the answer says: further
    candidates, further parts and the finish reason of the backend are
    dropped. *)
Theorem first_candidate_first_part (req : GeminiAdapter.LLMChatRequest)
    (d c ct p : list (string * GeminiAdapter.json))
    (more_candidates more_parts : list GeminiAdapter.json) (text : GeminiAdapter.json) :
  GeminiAdapter.member "promptFeedback" d = None ->
  GeminiAdapter.member "candidates" d
    = Some (GeminiAdapter.JsArr (GeminiAdapter.JsObj c :: more_candidates)) ->
  GeminiAdapter.member "content" c = Some (GeminiAdapter.JsObj ct) ->
  GeminiAdapter.member "parts" ct
    = Some (GeminiAdapter.JsArr (GeminiAdapter.JsObj p :: more_parts)) ->
  GeminiAdapter.member "text" p = Some text ->
  GeminiAdapter.transformed_response req (GeminiAdapter.JsObj d)
  = GeminiAdapter.Returns
      (GeminiAdapter.JsObj
         [("id", GeminiAdapter.JsStr "");
          ("object", GeminiAdapter.JsStr "chat.completion");
          ("created", GeminiAdapter.JsInt 0);
          ("model", GeminiAdapter.JsStr (GeminiAdapter.model req));
          ("choices",
           GeminiAdapter.JsArr
             [GeminiAdapter.JsObj
                [("index", GeminiAdapter.JsInt 0);
                 ("message",
                  GeminiAdapter.JsObj [("role", GeminiAdapter.JsStr "assistant");
                                       ("content", text)]);
                 ("finish_reason", GeminiAdapter.JsStr "stop")]]);
          ("usage",
           GeminiAdapter.JsObj [("prompt_tokens", GeminiAdapter.JsInt 0);
                                ("completion_tokens", GeminiAdapter.JsInt 0);
                                ("total_tokens", GeminiAdapter.JsInt 0)])]).
Proof.
  intros Hfb Hc Hct Hp Ht. unfold GeminiAdapter.transformed_response.
  cbn [GeminiAdapter.js_get GeminiAdapter.js_item GeminiAdapter.and_then].
  rewrite Hfb. cbn [GeminiAdapter.js_get GeminiAdapter.member GeminiAdapter.and_then].
  rewrite Hc. cbn [GeminiAdapter.js_first GeminiAdapter.js_item GeminiAdapter.and_then].
  rewrite Hct. cbn [GeminiAdapter.js_item GeminiAdapter.and_then].
  rewrite Hp. cbn [GeminiAdapter.js_first GeminiAdapter.js_item GeminiAdapter.and_then].
  rewrite Ht. reflexivity.
Qed.

Lemma first_candidate_first_part_witness :
  exists kwargs choice message,
    GeminiAdapter.transformed_response Examples.request0 Samples.answer
      = GeminiAdapter.Returns (GeminiAdapter.JsObj kwargs) /\
    GeminiAdapter.member "choices" kwargs
      = Some (GeminiAdapter.JsArr [GeminiAdapter.JsObj choice]) /\
    GeminiAdapter.member "finish_reason" choice = Some (GeminiAdapter.JsStr "stop") /\
    GeminiAdapter.member "message" choice = Some (GeminiAdapter.JsObj message) /\
    GeminiAdapter.member "content" message = Some (GeminiAdapter.JsStr "hi there").
Proof.
  pose proof
    (first_candidate_first_part Examples.request0
       [("candidates",
         GeminiAdapter.JsArr
           [GeminiAdapter.JsObj
              [("content",
                GeminiAdapter.JsObj
                  [("parts",
                    GeminiAdapter.JsArr
                      [GeminiAdapter.JsObj [("text", GeminiAdapter.JsStr "hi there")]]);
                   ("role", GeminiAdapter.JsStr "model")]);
               ("finishReason", GeminiAdapter.JsStr "MAX_TOKENS")]])]
       [("content",
         GeminiAdapter.JsObj
           [("parts",
             GeminiAdapter.JsArr
               [GeminiAdapter.JsObj [("text", GeminiAdapter.JsStr "hi there")]]);
            ("role", GeminiAdapter.JsStr "model")]);
        ("finishReason", GeminiAdapter.JsStr "MAX_TOKENS")]
       [("parts",
         GeminiAdapter.JsArr
           [GeminiAdapter.JsObj [("text", GeminiAdapter.JsStr "hi there")]]);
        ("role", GeminiAdapter.JsStr "model")]
       [("text", GeminiAdapter.JsStr "hi there")] [] []
       (GeminiAdapter.JsStr "hi there") eq_refl eq_refl eq_refl eq_refl eq_refl) as H.
  eexists _, _, _. split; [exact H|]. repeat split; reflexivity.
Defined.
